(** * The streaming chat client of the miniapp: [sendMessage] and
      [safeToISOString] of [src/lib/cloud-api.ts]

    The development is a shallow embedding.  The functions of the source
    file are written as Rocq functions over an explicit state (the calls
    made to the caller's handlers so far and the number of clock readings
    taken), with exceptions as a result constructor.  The parts of the
    JavaScript platform the source relies on ([String.prototype.split],
    [trim], [TextDecoder], [JSON.parse], [Date.prototype.toISOString]) are
    written out after their specifications (ECMA-262, ECMA-404, WHATWG
    Encoding); the part of [Date] whose result the language leaves to the
    implementation (the conversion of an arbitrary value to a time value)
    and the wall clock are parameters. *)

From Stdlib Require Import String Ascii.
From Stdlib Require Import List ZArith NArith Bool Lia.
Import ListNotations.

Set Warnings "-register-all".

(* ===================================================================== *)
(** * Part I.  Definitions                                                *)
(* ===================================================================== *)

(** ** JavaScript strings

    A JavaScript string is a sequence of UTF-16 code units. *)

Module JsString.

Definition jstring := list N.

(** Literal of the source text (ASCII). *)
Definition str (s : string) : jstring :=
  map N_of_ascii (list_ascii_of_string s).

(** A text written with [|] for the line feed and ['] for the double
    quote, the two characters of the wire format that a literal of this
    file does not hold. *)
Definition wire_char (c : N) : N :=
  if N.eqb c 124 then 10%N else if N.eqb c 39 then 34%N else c.

Definition wire (s : string) : jstring := map wire_char (str s).

Fixpoint streq (a b : jstring) : bool :=
  match a, b with
  | [], [] => true
  | x :: a', y :: b' => N.eqb x y && streq a' b'
  | _, _ => false
  end.

(** [!s] for a string [s]: only the empty string is falsy. *)
Definition is_empty (s : jstring) : bool :=
  match s with [] => true | _ :: _ => false end.

(** [s.startsWith(p)] *)
Fixpoint startsWith (s p : jstring) {struct p} : bool :=
  match p with
  | [] => true
  | y :: p' =>
      match s with
      | [] => false
      | x :: s' => N.eqb x y && startsWith s' p'
      end
  end.

(** [s.slice(n)] for a non-negative literal [n]. *)
Definition slice (n : nat) (s : jstring) : jstring := skipn n s.

(** WhiteSpace and LineTerminator code points of ECMA-262, the characters
    removed by [trim]. *)
Definition is_white (c : N) : bool :=
  (N.leb 9 c && N.leb c 13) || N.eqb c 32 || N.eqb c 160 || N.eqb c 5760
  || (N.leb 8192 c && N.leb c 8202) || N.eqb c 8232 || N.eqb c 8233
  || N.eqb c 8239 || N.eqb c 8287 || N.eqb c 12288 || N.eqb c 65279.

Fixpoint trimStart (s : jstring) : jstring :=
  match s with
  | [] => []
  | c :: s' => if is_white c then trimStart s' else s
  end.

Definition trimEnd (s : jstring) : jstring := rev (trimStart (rev s)).

(** [s.trim()] *)
Definition trim (s : jstring) : jstring := trimEnd (trimStart s).

(** The first occurrence of the separator: the text before it and the
    text after it. *)
Fixpoint find_sep (sep s : jstring) : option (jstring * jstring) :=
  match s with
  | [] => None
  | c :: s' =>
      if startsWith s sep then Some ([], skipn (length sep) s)
      else match find_sep sep s' with
           | Some (b, a) => Some (c :: b, a)
           | None => None
           end
  end.

Fixpoint split_fuel (n : nat) (sep s : jstring) : list jstring :=
  match n with
  | O => [s]
  | S n' =>
      match find_sep sep s with
      | None => [s]
      | Some (b, a) => b :: split_fuel n' sep a
      end
  end.

(** [s.split(sep)] for a non-empty separator: the segments between the
    occurrences of [sep] found from left to right, never an empty array.
    Every occurrence removes at least one character, so [length s] rounds
    are enough ([split_unfold] below). *)
Definition split (sep s : jstring) : list jstring :=
  split_fuel (length s) sep s.

(** Decimal digits of a natural number, as [String(n)] prints an integer. *)
Fixpoint digits_fuel (fuel : nat) (n : N) (acc : jstring) : jstring :=
  match fuel with
  | O => acc
  | S f =>
      let acc' := (48 + N.modulo n 10)%N :: acc in
      if N.ltb n 10 then acc' else digits_fuel f (N.div n 10) acc'
  end.

Definition of_N (n : N) : jstring :=
  digits_fuel (S (N.to_nat (N.log2 n))) n [].

(** [String(z)] for an integral Number below 10^21 in magnitude. *)
Definition of_Z (z : Z) : jstring :=
  match z with
  | Zneg p => 45%N :: of_N (Npos p)
  | _ => of_N (Z.to_N z)
  end.

End JsString.

Import JsString.

(** ** [TextDecoder]: the UTF-8 decoder of the WHATWG Encoding standard

    [new TextDecoder()] decodes UTF-8, replaces malformed sequences by
    U+FFFD and drops one leading byte order mark.  With [{stream: true}]
    the decoder keeps its state between calls, so that a sequence cut by
    the end of a chunk is completed by the next chunk. *)

Module Utf8.

Record decoder := Decoder {
  code_point : N;
  bytes_seen : N;
  bytes_needed : N;
  lower_boundary : N;
  upper_boundary : N;
  bom_seen : bool
}.

Definition fresh : decoder := Decoder 0 0 0 128 191 false.

Definition reset (d : decoder) : decoder :=
  Decoder 0 0 0 128 191 (bom_seen d).

Definition between (lo hi b : N) : bool := N.leb lo b && N.leb b hi.

(** A byte read while no sequence is open. *)
Definition lead (d : decoder) (b : N) : decoder * list N :=
  if between 0 127 b then (reset d, [b])
  else if between 194 223 b then
    (Decoder (N.land b 31) 0 1 128 191 (bom_seen d), [])
  else if between 224 239 b then
    (Decoder (N.land b 15) 0 2
       (if N.eqb b 224 then 160 else 128)
       (if N.eqb b 237 then 159 else 191) (bom_seen d), [])
  else if between 240 244 b then
    (Decoder (N.land b 7) 0 3
       (if N.eqb b 240 then 144 else 128)
       (if N.eqb b 244 then 143 else 191) (bom_seen d), [])
  else (reset d, [65533%N]).

(** The handler of the standard: the code points one byte gives rise to.
    A byte that cannot continue the open sequence closes it with U+FFFD
    and is then read again as a leading byte. *)
Definition handler (d : decoder) (b : N) : decoder * list N :=
  if N.eqb (bytes_needed d) 0 then lead d b
  else if negb (between (lower_boundary d) (upper_boundary d) b) then
    let '(d', out) := lead (reset d) b in (d', 65533%N :: out)
  else
    let cp := N.lor (N.shiftl (code_point d) 6) (N.land b 63) in
    if N.eqb (bytes_seen d + 1) (bytes_needed d) then (reset d, [cp])
    else (Decoder cp (bytes_seen d + 1) (bytes_needed d) 128 191 (bom_seen d), []).

(** A code point as UTF-16 code units. *)
Definition utf16 (cp : N) : jstring :=
  if N.ltb cp 65536 then [cp]
  else [(55296 + N.shiftr (cp - 65536) 10)%N; (56320 + N.land (cp - 65536) 1023)%N].

(** Serialisation of the decoded code points: the first code point of the
    stream is dropped when it is the byte order mark. *)
Fixpoint serialize (seen : bool) (cps : list N) : bool * jstring :=
  match cps with
  | [] => (seen, [])
  | cp :: rest =>
      let '(seen', out) := serialize true rest in
      if negb seen && N.eqb cp 65279 then (seen', out)
      else (seen', utf16 cp ++ out)
  end.

Definition with_bom (d : decoder) (b : bool) : decoder :=
  Decoder (code_point d) (bytes_seen d) (bytes_needed d)
          (lower_boundary d) (upper_boundary d) b.

Definition feed (d : decoder) (b : Byte.byte) : decoder * jstring :=
  let '(d', cps) := handler d (Byte.to_N b) in
  let '(seen, out) := serialize (bom_seen d') cps in
  (with_bom d' seen, out).

(** [decoder.decode(value, {stream: true})] *)
Fixpoint decode_stream (d : decoder) (value : list Byte.byte) : decoder * jstring :=
  match value with
  | [] => (d, [])
  | b :: rest =>
      let '(d1, o1) := feed d b in
      let '(d2, o2) := decode_stream d1 rest in
      (d2, o1 ++ o2)
  end.

(** The whole of a body decoded at once (the "UTF-8 decode" that
    [response.json()] runs): a sequence left open at the end gives one
    more U+FFFD. *)
Definition decode_all (bytes : list Byte.byte) : jstring :=
  let '(d, out) := decode_stream fresh bytes in
  if N.eqb (bytes_needed d) 0 then out
  else out ++ snd (serialize (bom_seen d) [65533%N]).

End Utf8.

(** ** JavaScript values and [JSON.parse] *)

Module Json.

(** A JSON number is kept as the decimal it is written as,
    [(-1)^neg * mant * 10^exp10]; the Number it denotes is the double
    nearest to that decimal. *)
Record jnumber := JNumber { neg : bool; mant : N; exp10 : Z }.

(** The values [JSON.parse] returns, and [undefined] for absent
    properties.  An object keeps its members in source order; a later
    member with the same key overrides an earlier one. *)
Inductive value :=
| VUndefined
| VNull
| VBool (b : bool)
| VNumber (n : jnumber)
| VString (s : jstring)
| VArray (items : list value)
| VObject (members : list (jstring * value)).

(** The Number is +0 or -0: the decimal is zero or rounds to zero, which
    it does when it is at most 2^-1075 (half the least positive double,
    a tie that rounds to the even neighbour 0). *)
Definition number_is_zero (n : jnumber) : bool :=
  if N.eqb (mant n) 0 then true
  else if Z.leb 0 (exp10 n) then false
  else Z.leb (Z.of_N (mant n) * 2 ^ 1075) (10 ^ (- exp10 n)).

(** ToBoolean *)
Definition truthy (v : value) : bool :=
  match v with
  | VUndefined | VNull => false
  | VBool b => b
  | VNumber n => negb (number_is_zero n)
  | VString s => negb (is_empty s)
  | VArray _ | VObject _ => true
  end.

(** [a || b] on values *)
Definition or_else (a b : value) : value := if truthy a then a else b.

(** [v === "literal"] *)
Definition is_string (v : value) (lit : jstring) : bool :=
  match v with VString s => streq s lit | _ => false end.

(** [Array.isArray(v)] *)
Definition isArray (v : value) : bool :=
  match v with VArray _ => true | _ => false end.

Definition is_nullish (v : value) : bool :=
  match v with VUndefined | VNull => true | _ => false end.

(** The own property [key] of an object: the last member written. *)
Fixpoint own (members : list (jstring * value)) (key : jstring) : value :=
  match members with
  | [] => VUndefined
  | (k, v) :: rest =>
      match own rest key with
      | VUndefined => if streq k key then v else VUndefined
      | later => later
      end
  end.

(** *** The parser (ECMA-404) *)

Inductive parsed (A : Type) :=
| Parsed (a : A) (rest : jstring)
| Invalid
| OutOfFuel.
Arguments Parsed {A} a rest.
Arguments Invalid {A}.
Arguments OutOfFuel {A}.

Definition is_ws (c : N) : bool :=
  N.eqb c 9 || N.eqb c 10 || N.eqb c 13 || N.eqb c 32.

Fixpoint skip_ws (s : jstring) : jstring :=
  match s with
  | c :: s' => if is_ws c then skip_ws s' else s
  | [] => []
  end.

Definition is_digit (c : N) : bool := N.leb 48 c && N.leb c 57.

Definition hex_digit (c : N) : option N :=
  if is_digit c then Some (c - 48)%N
  else if N.leb 65 c && N.leb c 70 then Some (c - 55)%N
  else if N.leb 97 c && N.leb c 102 then Some (c - 87)%N
  else None.

Definition hex4 (a b c d : N) : option N :=
  match hex_digit a, hex_digit b, hex_digit c, hex_digit d with
  | Some x, Some y, Some z, Some w => Some (((x * 16 + y) * 16 + z) * 16 + w)%N
  | _, _, _, _ => None
  end.

(** The single-character escapes after a backslash. *)
Definition escape (c : N) : option N :=
  if N.eqb c 34 then Some 34%N        (* quote *)
  else if N.eqb c 92 then Some 92%N   (* backslash *)
  else if N.eqb c 47 then Some 47%N   (* solidus *)
  else if N.eqb c 98 then Some 8%N    (* b: backspace *)
  else if N.eqb c 102 then Some 12%N  (* f: form feed *)
  else if N.eqb c 110 then Some 10%N  (* n: line feed *)
  else if N.eqb c 114 then Some 13%N  (* r: carriage return *)
  else if N.eqb c 116 then Some 9%N   (* t: tab *)
  else None.

(** The characters of a string after its opening quote, up to and
    including the closing quote. *)
Fixpoint string_body (s acc : jstring) : parsed jstring :=
  match s with
  | [] => Invalid
  | c :: rest =>
      if N.eqb c 34 then Parsed (rev acc) rest
      else if N.eqb c 92 then
        match rest with
        | [] => Invalid
        | e :: rest1 =>
            if N.eqb e 117 then
              match rest1 with
              | h1 :: h2 :: h3 :: h4 :: rest2 =>
                  match hex4 h1 h2 h3 h4 with
                  | Some u => string_body rest2 (u :: acc)
                  | None => Invalid
                  end
              | _ => Invalid
              end
            else
              match escape e with
              | Some u => string_body rest1 (u :: acc)
              | None => Invalid
              end
        end
      else if N.ltb c 32 then Invalid
      else string_body rest (c :: acc)
  end.

(** A run of digits: its value, its length and the rest. *)
Fixpoint digits (s : jstring) (acc : N) (len : nat) : N * nat * jstring :=
  match s with
  | c :: rest =>
      if is_digit c then digits rest (acc * 10 + (c - 48))%N (S len)
      else (acc, len, s)
  | [] => (acc, len, [])
  end.

(** The integer part: a single 0, or a run of digits not starting with 0. *)
Definition int_part (s : jstring) : option (N * jstring) :=
  match s with
  | c :: rest =>
      if N.eqb c 48 then Some (0%N, rest)
      else if is_digit c then
        let '(n, _, r) := digits s 0 0 in Some (n, r)
      else None
  | [] => None
  end.

(** An optional fraction: the mantissa extended by the fraction digits,
    and their number. *)
Definition frac_part (m : N) (s : jstring) : option (N * nat * jstring) :=
  match s with
  | c :: rest =>
      if N.eqb c 46 then
        match digits rest m 0 with
        | (_, O, _) => None
        | (m', k, r) => Some (m', k, r)
        end
      else Some (m, O, s)
  | [] => Some (m, O, [])
  end.

Definition exp_digits (sign : Z) (s : jstring) : option (Z * jstring) :=
  match digits s 0 0 with
  | (_, O, _) => None
  | (e, _, r) => Some ((sign * Z.of_N e)%Z, r)
  end.

(** An optional exponent. *)
Definition exp_part (s : jstring) : option (Z * jstring) :=
  match s with
  | c :: rest =>
      if N.eqb c 101 || N.eqb c 69 then
        match rest with
        | g :: rest1 =>
            if N.eqb g 43 then exp_digits 1 rest1
            else if N.eqb g 45 then exp_digits (-1) rest1
            else exp_digits 1 rest
        | [] => None
        end
      else Some (0%Z, s)
  | [] => Some (0%Z, [])
  end.

Definition number (s : jstring) : parsed jnumber :=
  let '(sign, s1) :=
    match s with
    | c :: rest => if N.eqb c 45 then (true, rest) else (false, s)
    | [] => (false, s)
    end in
  match int_part s1 with
  | None => Invalid
  | Some (i, s2) =>
      match frac_part i s2 with
      | None => Invalid
      | Some (m, k, s3) =>
          match exp_part s3 with
          | None => Invalid
          | Some (e, s4) => Parsed (JNumber sign m (e - Z.of_nat k)) s4
          end
      end
  end.

Definition literal (lit : string) (v : value) (s : jstring) : parsed value :=
  if startsWith s (str lit) then Parsed v (skipn (length (str lit)) s)
  else Invalid.

Fixpoint parse_value (fuel : nat) (s : jstring) : parsed value :=
  match fuel with
  | O => OutOfFuel
  | S f =>
      match s with
      | [] => Invalid
      | c :: rest =>
          if N.eqb c 123 then            (* { *)
            match skip_ws rest with
            | d :: rest1 =>
                if N.eqb d 125 then Parsed (VObject []) rest1
                else parse_members f (d :: rest1) []
            | [] => Invalid
            end
          else if N.eqb c 91 then        (* [ *)
            match skip_ws rest with
            | d :: rest1 =>
                if N.eqb d 93 then Parsed (VArray []) rest1
                else parse_elements f (d :: rest1) []
            | [] => Invalid
            end
          else if N.eqb c 34 then
            match string_body rest [] with
            | Parsed str' r => Parsed (VString str') r
            | Invalid => Invalid
            | OutOfFuel => OutOfFuel
            end
          else if N.eqb c 116 then literal "true" (VBool true) s
          else if N.eqb c 102 then literal "false" (VBool false) s
          else if N.eqb c 110 then literal "null" VNull s
          else
            match number s with
            | Parsed n r => Parsed (VNumber n) r
            | Invalid => Invalid
            | OutOfFuel => OutOfFuel
            end
      end
  end

with parse_elements (fuel : nat) (s : jstring) (acc : list value) : parsed value :=
  match fuel with
  | O => OutOfFuel
  | S f =>
      match parse_value f s with
      | Parsed v r =>
          match skip_ws r with
          | c :: r1 =>
              if N.eqb c 44 then parse_elements f (skip_ws r1) (v :: acc)
              else if N.eqb c 93 then Parsed (VArray (rev (v :: acc))) r1
              else Invalid
          | [] => Invalid
          end
      | Invalid => Invalid
      | OutOfFuel => OutOfFuel
      end
  end

with parse_members (fuel : nat) (s : jstring) (acc : list (jstring * value)) : parsed value :=
  match fuel with
  | O => OutOfFuel
  | S f =>
      match s with
      | q :: s1 =>
          if N.eqb q 34 then
            match string_body s1 [] with
            | Parsed key s2 =>
                match skip_ws s2 with
                | c :: s3 =>
                    if N.eqb c 58 then
                      match parse_value f (skip_ws s3) with
                      | Parsed v r =>
                          match skip_ws r with
                          | d :: r1 =>
                              if N.eqb d 44 then
                                parse_members f (skip_ws r1) ((key, v) :: acc)
                              else if N.eqb d 125 then
                                Parsed (VObject (rev ((key, v) :: acc))) r1
                              else Invalid
                          | [] => Invalid
                          end
                      | Invalid => Invalid
                      | OutOfFuel => OutOfFuel
                      end
                    else Invalid
                | [] => Invalid
                end
            | Invalid => Invalid
            | OutOfFuel => OutOfFuel
            end
          else Invalid
      | [] => Invalid
      end
  end.

(** [JSON.parse(text)]: [None] stands for the SyntaxError it throws.
    Every round of the parser consumes a character of the text or follows
    a round that does, so twice its length is fuel enough. *)
Definition JSON_parse (text : jstring) : option value :=
  match parse_value (2 * length text + 2) (skip_ws text) with
  | Parsed v rest =>
      match skip_ws rest with
      | [] => Some v
      | _ :: _ => None
      end
  | Invalid => None
  | OutOfFuel => None
  end.

(** What a run of the parser on the input [s] must satisfy for its fuel
    to have been enough: it does not run out of fuel, and when it
    succeeds it has consumed part of the input. *)
Definition adequate (run : parsed value) (s : jstring) : Prop :=
  run <> OutOfFuel /\ forall v r, run = Parsed v r -> length r < length s.

End Json.

Import Json.

(** ** Exceptions and results *)

Inductive exn :=
| SyntaxError            (* thrown by [JSON.parse] *)
| TypeError              (* a property read on [null] or [undefined] *)
| RangeError             (* [toISOString] of an invalid date *)
| Error (message : jstring). (* [new Error(v)], with its message *)

Inductive Res (A : Type) :=
| Ok (a : A)
| Throw (e : exn).
Arguments Ok {A} a.
Arguments Throw {A} e.

(** [v.name], for the property names the source reads ([type], [content],
    [attachments], [url], [id], [title], [contentType], [text],
    [createdAt], [isAgent], [message], [error]): none of them is defined
    on a prototype, on a string or on an array, so that only an own member
    of an object gives something else than [undefined]; on [null] and
    [undefined] the read throws. *)
Definition get (v : value) (name : string) : Res value :=
  match v with
  | VUndefined | VNull => Throw TypeError
  | VObject members => Ok (own members (str name))
  | _ => Ok VUndefined
  end.

(** [v?.name] *)
Definition get_opt (v : value) (name : string) : Res value :=
  if is_nullish v then Ok VUndefined else get v name.

Definition bindR {A B} (r : Res A) (k : A -> Res B) : Res B :=
  match r with
  | Ok a => k a
  | Throw e => Throw e
  end.

(** ** Conversion to a string

    [Number::toString] (ECMA-262, 6.1.6.1.20) on the double a JSON number
    denotes, and [ToString] on the values of [JSON.parse]. *)

Module JsNumber.

Local Open Scope Z_scope.

(** The magnitude of a double: zero, [m * 2^e] with [0 < m < 2^53] and
    [-1074 <= e <= 971] (and [2^52 <= m] unless [e = -1074]), or
    infinity. *)
Inductive double :=
| Zero
| Finite (m e : Z)
| Infinity.

(** [2^k <= num / den] *)
Definition ge_pow2 (num den k : Z) : bool :=
  if 0 <=? k then den * 2 ^ k <=? num else den <=? num * 2 ^ (- k).

(** The integer nearest to [n / d], the even one of two. *)
Definition nearest_even (n d : Z) : Z :=
  let qt := n / d in
  let r := n mod d in
  if 2 * r <? d then qt
  else if d <? 2 * r then qt + 1
  else if Z.even qt then qt else qt + 1.

(** The double nearest to the decimal, ties to even. *)
Definition to_double (n : jnumber) : double :=
  if number_is_zero n then Zero
  else
    let '(num, den) :=
      if 0 <=? exp10 n then (Z.of_N (mant n) * 10 ^ exp10 n, 1)
      else (Z.of_N (mant n), 10 ^ (- exp10 n)) in
    let l := Z.log2 num - Z.log2 den in
    let fl := if ge_pow2 num den l then l else l - 1 in
    let e := Z.max (fl - 52) (-1074) in
    let m := if 0 <=? e then nearest_even num (den * 2 ^ e)
             else nearest_even (num * 2 ^ (- e)) den in
    let '(m, e) := if m =? 2 ^ 53 then (2 ^ 52, e + 1) else (m, e) in
    if 971 <? e then Infinity else Finite m e.

(** [c * 2^a * 10^b] in units of [2^A * 10^B] *)
Definition img (A B c a b : Z) : Z := c * 2 ^ (a - A) * 10 ^ (b - B).

(** A decimal [s * 10^(n-k)] that is read back as the double, with its
    distance to the double. *)
Record candidate := mkCandidate { dist : Z; s_of : Z; n_of : Z }.

(** The [k]-digit decimals with exponent [n] that round to [m * 2^e]:
    those strictly between the midpoints to the neighbouring doubles, and
    the midpoints themselves when [m] is even. *)
Definition candidates_at (m e g k n : Z) : list candidate :=
  let A := Z.min (e - 2) 0 in
  let B := Z.min 0 (g - 20) in
  let X := img A B (4 * m) (e - 2) 0 in
  let HI := img A B (4 * m + 2) (e - 2) 0 in
  let LO := img A B (4 * m - (if (m =? 2 ^ 52) && (-1074 <? e) then 1 else 2))
              (e - 2) 0 in
  let inside V := if Z.even m then (LO <=? V) && (V <=? HI)
                  else (LO <? V) && (V <? HI) in
  let unit := img A B 1 0 (n - k) in
  let t := X / unit in
  flat_map
    (fun s =>
       if (10 ^ (k - 1) <=? s) && (s <? 10 ^ k) && inside (s * unit)
       then [mkCandidate (Z.abs (s * unit - X)) s n] else [])
    [t; t + 1; 10 ^ (k - 1); 10 ^ k - 1].

(** The nearest candidate, the even one of two at the same distance. *)
Definition nearer (best : option candidate) (c : candidate) : option candidate :=
  match best with
  | None => Some c
  | Some b =>
      if (dist c <? dist b)
         || ((dist c =? dist b) && Z.even (s_of c) && Z.odd (s_of b))
      then Some c else Some b
  end.

(** The integers [s], [n], [k] of step 5: [k] as small as possible, then
    [s * 10^(n-k)] as near to the double as possible.  Seventeen digits
    are always enough. *)
Fixpoint shortest_from (fuel : nat) (m e g k : Z) : option (Z * Z * Z) :=
  match fuel with
  | O => None
  | S f =>
      match fold_left nearer
              (flat_map (candidates_at m e g k)
                 [g - 1; g; g + 1; g + 2; g + 3; g + 4])
              None with
      | Some c => Some (s_of c, n_of c, k)
      | None => shortest_from f m e g (k + 1)
      end
  end.

(** [g] is below the decimal exponent [n] of the double by one or two. *)
Definition shortest (m e : Z) : option (Z * Z * Z) :=
  shortest_from 17 m e ((e + Z.log2 m) * 30103 / 100000) 1.

Definition zeros (n : Z) : jstring := repeat 48%N (Z.to_nat n).

(** Steps 6 to 12. *)
Definition format (s n k : Z) : jstring :=
  let ds := of_N (Z.to_N s) in
  if (-5 <=? n) && (n <=? 21) then
    if k <=? n then ds ++ zeros (n - k)
    else if 0 <? n then firstn (Z.to_nat n) ds ++ 46%N :: skipn (Z.to_nat n) ds
    else str "0." ++ zeros (- n) ++ ds
  else
    let exponentSign := if n <? 0 then 45%N else 43%N in
    let exponent := of_N (Z.to_N (Z.abs (n - 1))) in
    match ds with
    | [] => []
    | a :: [] => a :: 101%N :: exponentSign :: exponent
    | a :: b => a :: 46%N :: b ++ 101%N :: exponentSign :: exponent
    end.

(** [Number::toString(x, 10)], for the Number [x] a JSON number denotes. *)
Definition toString (n : jnumber) : jstring :=
  match to_double n with
  | Zero => str "0"
  | Infinity => (if neg n then str "-Infinity" else str "Infinity")
  | Finite m e =>
      (if neg n then [45%N] else [])
      ++ match shortest m e with
         | Some (s, n', k) => format s n' k
         | None => []
         end
  end.

End JsNumber.

(** [Object.prototype.hasOwnProperty], on the members of an object *)
Definition has_own (members : list (jstring * value)) (key : jstring) : bool :=
  existsb (fun kv => streq (fst kv) key) members.

(** [Array.prototype.join] with the separator [,]: [null] and
    [undefined] give the empty string, every other element is
    converted. *)
Definition join (convert : value -> Res jstring) : list value -> Res jstring :=
  fix join (l : list value) : Res jstring :=
    match l with
    | [] => Ok []
    | element :: rest =>
        bindR (if is_nullish element then Ok [] else convert element)
          (fun next =>
             bindR (join rest) (fun r =>
               Ok (next ++ match rest with
                           | [] => []
                           | _ :: _ => 44%N :: r
                           end)))
    end.

(** [ToString(v)].  An array is joined by [Array.prototype.toString].
    An object gives [[object Object]] through
    [Object.prototype.toString], unless it has an own member [toString]:
    that member is not callable, and [valueOf], own or inherited, gives no
    primitive, so that the conversion throws a TypeError. *)
Fixpoint ToString (v : value) : Res jstring :=
  match v with
  | VUndefined => Ok (str "undefined")
  | VNull => Ok (str "null")
  | VBool b => Ok (if b then str "true" else str "false")
  | VNumber n => Ok (JsNumber.toString n)
  | VString s => Ok s
  | VArray items => join ToString items
  | VObject members =>
      if has_own members (str "toString") then Throw TypeError
      else Ok (str "[object Object]")
  end.

(** [throw new Error(v)] for a [v] that is not [undefined]: the message is
    [ToString(v)]. *)
Definition throw_new_Error {A} (v : value) : Res A :=
  bindR (ToString v) (fun message => Throw (Error message)).

(** ** [Date] *)

Module JsDate.

Local Open Scope Z_scope.

(** The time value of a Date object: milliseconds since the epoch, or NaN
    ([None]). *)
Definition date := option Z.

Definition TimeClip (t : Z) : date :=
  if Z.leb (Z.abs t) 8640000000000000 then Some t else None.

(** Year, month (1..12) and day of the month of a day number (days since
    1970-01-01) in the proleptic Gregorian calendar. *)
Definition civil_from_days (days : Z) : Z * Z * Z :=
  let z := days + 719468 in
  let era := z / 146097 in
  let doe := z - era * 146097 in
  let yoe := (doe - doe / 1460 + doe / 36524 - doe / 146096) / 365 in
  let doy := doe - (365 * yoe + yoe / 4 - yoe / 100) in
  let mp := (5 * doy + 2) / 153 in
  let d := doy - (153 * mp + 2) / 5 + 1 in
  let m := if mp <? 10 then mp + 3 else mp - 9 in
  let y := yoe + era * 400 in
  ((if m <=? 2 then y + 1 else y), m, d).

(** The fields of a timestamp. *)
Record fields := Fields {
  year : Z; month : Z; day : Z;
  hour : Z; minute : Z; second : Z; millis : Z
}.

Definition fields_of_time (t : Z) : fields :=
  let days := t / 86400000 in
  let ms := t mod 86400000 in
  let '(y, m, d) := civil_from_days days in
  Fields y m d (ms / 3600000) ((ms / 60000) mod 60) ((ms / 1000) mod 60) (ms mod 1000).

(** [n] as [width] decimal digits. *)
Fixpoint pad (width : nat) (n : Z) : jstring :=
  match width with
  | O => []
  | S w => pad w (n / 10) ++ [Z.to_N (48 + n mod 10)]
  end.

(** The year of the ISO format: four digits from 0 to 9999, otherwise a
    sign and six digits. *)
Definition format_year (y : Z) : jstring :=
  if (0 <=? y) && (y <=? 9999) then pad 4 y
  else (if y <? 0 then 45%N else 43%N) :: pad 6 (Z.abs y).

Definition format (f : fields) : jstring :=
  format_year (year f) ++ [45%N] ++ pad 2 (month f) ++ [45%N] ++ pad 2 (day f)
  ++ [84%N] ++ pad 2 (hour f) ++ [58%N] ++ pad 2 (minute f) ++ [58%N]
  ++ pad 2 (second f) ++ [46%N] ++ pad 3 (millis f) ++ [90%N].

(** [date.toISOString()]; an invalid date throws. *)
Definition toISOString (d : date) : Res jstring :=
  match d with
  | Some t => Ok (format (fields_of_time t))
  | None => Throw RangeError
  end.

(** *** Recognising an ISO timestamp

    [YYYY-MM-DDTHH:mm:ss.sssZ], the year also as [+YYYYYY] or [-YYYYYY],
    with the month in 1..12, the day in 1..31, the hour below 24, minute
    and second below 60. *)

Fixpoint read_digits (width : nat) (s : jstring) (acc : Z) : option (Z * jstring) :=
  match width with
  | O => Some (acc, s)
  | S w =>
      match s with
      | c :: rest =>
          if is_digit c then read_digits w rest (acc * 10 + (Z.of_N c - 48))
          else None
      | [] => None
      end
  end.

Definition expect (c : N) (s : jstring) : option jstring :=
  match s with
  | x :: rest => if N.eqb x c then Some rest else None
  | [] => None
  end.

Definition read_year (s : jstring) : option (Z * jstring) :=
  match s with
  | c :: rest =>
      if N.eqb c 43 then read_digits 6 rest 0
      else if N.eqb c 45 then
        match read_digits 6 rest 0 with
        | Some (y, r) => Some (- y, r)
        | None => None
        end
      else read_digits 4 s 0
  | [] => None
  end.

Definition bind_opt {A B} (o : option A) (k : A -> option B) : option B :=
  match o with Some a => k a | None => None end.

Definition read_fields (s : jstring) : option fields :=
  bind_opt (read_year s) (fun '(y, s) =>
  bind_opt (expect 45 s) (fun s =>
  bind_opt (read_digits 2 s 0) (fun '(mo, s) =>
  bind_opt (expect 45 s) (fun s =>
  bind_opt (read_digits 2 s 0) (fun '(d, s) =>
  bind_opt (expect 84 s) (fun s =>
  bind_opt (read_digits 2 s 0) (fun '(h, s) =>
  bind_opt (expect 58 s) (fun s =>
  bind_opt (read_digits 2 s 0) (fun '(mi, s) =>
  bind_opt (expect 58 s) (fun s =>
  bind_opt (read_digits 2 s 0) (fun '(se, s) =>
  bind_opt (expect 46 s) (fun s =>
  bind_opt (read_digits 3 s 0) (fun '(ms, s) =>
  bind_opt (expect 90 s) (fun s =>
  match s with
  | [] => Some (Fields y mo d h mi se ms)
  | _ :: _ => None
  end)))))))))))))).

Definition fields_in_range (f : fields) : bool :=
  (1 <=? month f) && (month f <=? 12) && (1 <=? day f) && (day f <=? 31)
  && (0 <=? hour f) && (hour f <? 24) && (0 <=? minute f) && (minute f <? 60)
  && (0 <=? second f) && (second f <? 60) && (0 <=? millis f) && (millis f <? 1000).

Definition is_iso_timestamp (s : jstring) : bool :=
  match read_fields s with
  | Some f => fields_in_range f
  | None => false
  end.

End JsDate.

(** ** The data of [src/lib/types.ts] *)

(** [interface MessageAttachment].  The fields hold what the source
    stores in them, which for [id], [title] and [contentType] is whatever
    the payload carries. *)
Module MessageAttachment.
Record t := mk {
  id : value;
  url : jstring;
  title : value;
  contentType : value
}.
End MessageAttachment.

(** [interface Message]; [attachments] is [None] for [undefined]. *)
Module Message.
Inductive Role := user | assistant.
Record t := mk {
  id : value;
  content : value;
  role : Role;
  createdAt : jstring;
  attachments : option (list MessageAttachment.t)
}.
End Message.

Record Usage := mkUsage { tokens : Z; cost : Z }.

(** One call of a handler of [StreamCallbacks], with its arguments. *)
Inductive Call :=
| OnStart
| OnUserMessage (message : Message.t)
| OnThinking
| OnChunk (chunk : jstring)
| OnComplete (message : Message.t) (usage : Usage)
| OnError (error : value).

(** [interface StreamCallbacks]: every handler is optional; a field tells
    whether the caller provided it. *)
Record StreamCallbacks := mkCallbacks {
  onStart : bool;
  onUserMessage : bool;
  onThinking : bool;
  onChunk : bool;
  onComplete : bool;
  onError : bool
}.

(** The response [fetch] resolved with: its status and its body, [None]
    for a null body, otherwise the chunks its reader delivers before it
    reports [done].  A failure of the network, of [fetch] or of a later
    [read], is outside the model. *)
Record Response := mkResponse {
  status : N;
  body : option (list (list Byte.byte))
}.

(** ** The platform parameters

    [clock k] is the time value the [k]-th reading of the wall clock
    returns ([Date.now()], [new Date()]).  [Date_value v] is the time
    value [new Date(v)] computes for a value [v] before clipping, [None]
    for NaN, or the exception the conversion throws: ECMA-262 leaves the
    parsing of date strings other than the ISO format to the
    implementation. *)
Record Platform := mkPlatform {
  clock : nat -> Z;
  Date_value : value -> Res (option Z)
}.

(** ** Effects: the calls made, the clock readings taken, exceptions *)

Record State := mkState {
  ticks : nat;          (* readings of the clock so far *)
  calls : list Call     (* handler calls so far, oldest first *)
}.

Definition M (A : Type) := State -> Res A * State.

Definition ret {A} (a : A) : M A := fun st => (Ok a, st).

Definition bind {A B} (m : M A) (k : A -> M B) : M B :=
  fun st =>
    match m st with
    | (Ok a, st') => k a st'
    | (Throw e, st') => (Throw e, st')
    end.

Definition throw {A} (e : exn) : M A := fun st => (Throw e, st).

Definition lift {A} (r : Res A) : M A := fun st => (r, st).

(** [try { m } catch { h }] *)
Definition try_catch {A} (m : M A) (h : M A) : M A :=
  fun st =>
    match m st with
    | (Ok a, st') => (Ok a, st')
    | (Throw _, st') => h st'
    end.

Notation "x <- m ;; k" := (bind m (fun x => k))
  (at level 61, m at next level, right associativity).
Notation "m ;;; k" := (bind m (fun _ => k))
  (at level 61, right associativity).

(** [callbacks.handler?.(args)]: the call is made when the handler is
    provided.  The handlers are the caller's; they are taken to return. *)
Definition invoke (provided : bool) (c : Call) : M unit :=
  fun st =>
    if provided then (Ok tt, mkState (ticks st) (calls st ++ [c]))
    else (Ok tt, st).

(** [for (const x of xs) body(x)] *)
Fixpoint for_each {A} (xs : list A) (body : A -> M unit) : M unit :=
  match xs with
  | [] => ret tt
  | x :: rest => body x ;;; for_each rest body
  end.

Section Client.

Variable P : Platform.

(** [Date.now()] *)
Definition Date_now : M Z :=
  fun st => (Ok (clock P (ticks st)), mkState (S (ticks st)) (calls st)).

(** [new Date()] *)
Definition new_Date_now : M JsDate.date :=
  t <- Date_now ;; ret (JsDate.TimeClip t).

(** [new Date(value)] *)
Definition new_Date (v : value) : M JsDate.date :=
  tv <- lift (Date_value P v) ;;
  ret (match tv with Some t => JsDate.TimeClip t | None => None end).

(** [new Date().toISOString()] *)
Definition now_ISOString : M jstring :=
  d <- new_Date_now ;; lift (JsDate.toISOString d).

(** [safeToISOString], lines 39-53. *)
Definition safeToISOString (v : value) : M jstring :=
  if negb (truthy v) then now_ISOString
  else
    try_catch
      (date <- new_Date v ;;
       match date with
       | None => now_ISOString                 (* isNaN(date.getTime()) *)
       | Some _ => lift (JsDate.toISOString date)
       end)
      now_ISOString.

(** The attachment loop of lines 348-360 and again 378-390.  The guard
    [att.url && typeof att.url === "string"] is the match on a string
    together with its truthiness; [Date.now()] is read only when [att.id]
    is falsy. *)
Definition push_attachment (acc : list MessageAttachment.t) (att : value)
  : M (list MessageAttachment.t) :=
  u <- lift (get att "url") ;;
  match u with
  | VString url_ =>
      if truthy u then
        i <- lift (get att "id") ;;
        id_ <- (if truthy i then ret i
                else t <- Date_now ;; ret (VString (str "att-" ++ of_Z t))) ;;
        title_ <- lift (get att "title") ;;
        ct <- lift (get att "contentType") ;;
        ret (acc ++ [MessageAttachment.mk id_ url_ title_
                       (or_else ct (VString (str "image")))])
      else ret acc
  | _ => ret acc
  end.

Fixpoint push_attachments (acc : list MessageAttachment.t) (items : list value)
  : M (list MessageAttachment.t) :=
  match items with
  | [] => ret acc
  | att :: rest =>
      acc' <- push_attachment acc att ;; push_attachments acc' rest
  end.

Definition extract_attachments (data : value) : M (list MessageAttachment.t) :=
  c <- lift (get data "content") ;;
  a <- lift (get_opt c "attachments") ;;
  if truthy a && isArray a then
    match a with
    | VArray items => push_attachments [] items
    | _ => ret []
    end
  else ret [].

(** [list.length > 0 ? list : undefined] *)
Definition non_empty (l : list MessageAttachment.t) : option (list MessageAttachment.t) :=
  match l with [] => None | _ :: _ => Some l end.

(** [data.content?.text || ""] *)
Definition content_text (data : value) : M value :=
  c <- lift (get data "content") ;;
  t <- lift (get_opt c "text") ;;
  ret (or_else t (VString [])).

(** Lines 345-369: the confirmation of the user's message. *)
Definition user_message (callbacks : StreamCallbacks) (data : value) : M unit :=
  userAttachments <- extract_attachments data ;;
  i <- lift (get data "id") ;;
  text <- content_text data ;;
  c <- lift (get data "createdAt") ;;
  iso <- safeToISOString c ;;
  invoke (onUserMessage callbacks)
    (OnUserMessage (Message.mk i text Message.user iso (non_empty userAttachments))).

(** Lines 373-400: the agent's response. *)
Definition agent_message (callbacks : StreamCallbacks) (data : value) : M unit :=
  responseText <- content_text data ;;
  attachments <- extract_attachments data ;;
  i <- lift (get data "id") ;;
  c <- lift (get data "createdAt") ;;
  iso <- safeToISOString c ;;
  invoke (onComplete callbacks)
    (OnComplete (Message.mk i responseText Message.assistant iso (non_empty attachments))
                (mkUsage 0 0)).

(** Line 403; the argument is evaluated only when the handler is
    provided. *)
Definition error_event (callbacks : StreamCallbacks) (data : value) : M unit :=
  if onError callbacks then
    m <- lift (get data "message") ;;
    e <- (if truthy m then ret m
          else e <- lift (get data "error") ;;
               ret (or_else e (VString (str "Unknown error")))) ;;
    invoke true (OnError e)
  else ret tt.

(** Lines 341-406: the dispatch on the event name and the payload. *)
Definition dispatch (callbacks : StreamCallbacks) (eventType : jstring) (data : value)
  : M unit :=
  if streq eventType (str "connected") then invoke (onStart callbacks) OnStart
  else if streq eventType (str "message") then
    ty <- lift (get data "type") ;;
    if is_string ty (str "user") then user_message callbacks data
    else if is_string ty (str "thinking") then invoke (onThinking callbacks) OnThinking
    else
      a <- lift (get data "isAgent") ;;
      if truthy a || is_string ty (str "agent") then agent_message callbacks data
      else ret tt
  else if streq eventType (str "error") then error_event callbacks data
  else if streq eventType (str "done") then ret tt
  else ret tt.

(** Lines 329-335: the last [event: ] line and the last [data: ] line of
    a record. *)
Definition scan_line (acc : jstring * jstring) (line : jstring) : jstring * jstring :=
  if startsWith line (str "event: ") then (trim (slice 7 line), snd acc)
  else if startsWith line (str "data: ") then (fst acc, slice 6 line)
  else acc.

Definition scan_lines (message : jstring) : jstring * jstring :=
  fold_left scan_line (split [10%N] message) ([], []).

(** [JSON.parse(eventData)], line 339 *)
Definition parse_json (text : jstring) : M value :=
  match JSON_parse text with
  | Some v => ret v
  | None => throw SyntaxError
  end.

(** Lines 323-407: one record of the stream. *)
Definition process_message (callbacks : StreamCallbacks) (message : jstring) : M unit :=
  if is_empty (trim message) then ret tt
  else
    let '(eventType, eventData) := scan_lines message in
    if is_empty eventData then ret tt
    else
      data <- parse_json eventData ;;
      dispatch callbacks eventType data.

(** [messages.pop() || ""] and the array it leaves. *)
Definition pop (messages : list jstring) : list jstring * jstring :=
  match messages with
  | [] => ([], [])
  | _ :: _ => (removelast messages, last messages [])
  end.

(** Lines 312-408: the read loop over the chunks the reader delivers;
    the empty list is the reader reporting [done]. *)
Fixpoint read_loop (callbacks : StreamCallbacks) (decoder : Utf8.decoder)
    (buffer : jstring) (chunks : list (list Byte.byte)) : M unit :=
  match chunks with
  | [] => ret tt
  | value :: later =>
      let '(decoder', text) := Utf8.decode_stream decoder value in
      let '(messages, buffer') := pop (split [10%N; 10%N] (buffer ++ text)) in
      for_each messages (process_message callbacks) ;;;
      read_loop callbacks decoder' buffer' later
  end.

(** [response.ok] *)
Definition ok (response : Response) : bool :=
  N.leb 200 (status response) && N.leb (status response) 299.

(** The text [response.json()] parses: the whole body, decoded. *)
Definition body_text (response : Response) : jstring :=
  Utf8.decode_all
    (match body response with Some chunks => concat chunks | None => [] end).

(** [response.json().catch(() => ({ error: "Unknown error" }))] *)
Definition json_or_unknown (response : Response) : value :=
  match JSON_parse (body_text response) with
  | Some v => v
  | None => VObject [(str "error", VString (str "Unknown error"))]
  end.

(** [sendMessage], lines 283-409, from the response of [fetch] on. *)
Definition sendMessage (callbacks : StreamCallbacks) (response : Response) : M unit :=
  if negb (ok response) then
    let error := json_or_unknown response in
    e <- lift (get error "error") ;;
    lift (throw_new_Error
            (or_else e (VString (str "API error: " ++ of_N (status response)))))
  else
    match body response with
    | None => throw (Error (str "No response body"))
    | Some chunks => read_loop callbacks Utf8.fresh [] chunks
    end.

End Client.

(** The record separator of the wire format. *)
Definition blank_line : jstring := [10%N; 10%N].

(** The complete records of a stream: the segments of the decoded text
    that are followed by a blank line. *)
Definition stream_text (chunks : list (list Byte.byte)) : jstring :=
  snd (Utf8.decode_stream Utf8.fresh (concat chunks)).

Definition complete_records (chunks : list (list Byte.byte)) : list jstring :=
  fst (pop (split blank_line (stream_text chunks))).

(** The total part of a property read. *)
Definition prop (v : value) (name : string) : value :=
  match v with
  | VObject members => own members (str name)
  | _ => VUndefined
  end.

(** ** Vocabulary of the statements *)

(** The event name and the payload text the scan of lines 329-335 leaves. *)
Definition event_type (message : jstring) : jstring := fst (scan_lines message).
Definition event_data (message : jstring) : jstring := snd (scan_lines message).

(** The record passes the two guards of lines 323 and 337. *)
Definition has_data (message : jstring) : bool :=
  negb (is_empty (trim message)) && negb (is_empty (event_data message)).

(** The record carries a payload that is not valid JSON. *)
Definition malformed (message : jstring) : bool :=
  has_data message
  && match JSON_parse (event_data message) with None => true | Some _ => false end.

(** The event names the dispatch has a branch for. *)
Definition known_event (eventType : jstring) : bool :=
  streq eventType (str "connected") || streq eventType (str "message")
  || streq eventType (str "error") || streq eventType (str "done").

(** The payload of a [message] record has one of the three shapes the
    dispatch tests for: user, thinking, agent. *)
Definition message_shape (data : value) : bool :=
  is_string (prop data "type") (str "user")
  || is_string (prop data "type") (str "thinking")
  || truthy (prop data "isAgent")
  || is_string (prop data "type") (str "agent").

(** The entries that the guard of lines 351 and 381 lets through: those
    whose [url] is a string and truthy, that is, not empty. *)
Definition eligible (att : value) : bool :=
  match prop att "url" with
  | VString u => negb (is_empty u)
  | _ => false
  end.

(** The attachment built from an entry (lines 352-357), [a] being the
    result: the entry's own [id] when truthy, otherwise [att-] followed by
    a reading of the clock. *)
Definition extracted_from (att : value) (a : MessageAttachment.t) : Prop :=
  prop att "url" = VString (MessageAttachment.url a)
  /\ (if truthy (prop att "id")
      then MessageAttachment.id a = prop att "id"
      else exists t : Z, MessageAttachment.id a = VString (str "att-" ++ of_Z t))
  /\ MessageAttachment.title a = prop att "title"
  /\ MessageAttachment.contentType a
     = or_else (prop att "contentType") (VString (str "image")).

(** [data.content?.attachments] *)
Definition content_attachments (data : value) : value :=
  prop (prop data "content") "attachments".

(** The entries the attachment loop runs over. *)
Definition attachment_entries (data : value) : list value :=
  match content_attachments data with
  | VArray items => items
  | _ => []
  end.

(** No entry of [content.attachments] is [null]. *)
Definition entries_not_null (data : value) : bool :=
  forallb (fun att => negb (is_nullish att)) (attachment_entries data).

(** [new Date(v)] is an invalid date, or the conversion throws. *)
Definition unparsable (P : Platform) (v : value) : bool :=
  match Date_value P v with
  | Ok (Some t) => match JsDate.TimeClip t with Some _ => false | None => true end
  | Ok None => true
  | Throw _ => true
  end.

(** The ISO string of the [k]-th reading of the clock. *)
Definition now_at (P : Platform) (k : nat) : jstring :=
  JsDate.format (JsDate.fields_of_time (clock P k)).

Definition clock_in_range (P : Platform) : Prop :=
  forall k, (Z.abs (clock P k) <= 8640000000000000)%Z.

(** ** Concrete data for the examples *)

Definition all_callbacks : StreamCallbacks := mkCallbacks true true true true true true.

Definition initial : State := mkState 0 [].

(** A platform whose clock starts on 2023-11-14T22:13:20Z and advances
    one millisecond per reading, up to the last time value a Date can
    hold, and whose [Date] reads the one timestamp of the end-to-end
    scenario. *)
Definition demo_platform : Platform :=
  mkPlatform
    (fun k => Z.min (1700000000000 + Z.of_nat k) 8640000000000000)%Z
    (fun v => if is_string v (str "2024-01-01T00:00:00Z")
              then Ok (Some 1704067200000%Z) else Ok None).

(** The bytes of an ASCII text written as for [wire]. *)
Definition wire_bytes (s : string) : list Byte.byte :=
  map (fun c => match Byte.of_N c with Some b => b | None => Byte.x00 end) (wire s).

Definition stream (chunks : list string) : Response :=
  mkResponse 200 (Some (map wire_bytes chunks)).

(** The input of the end-to-end scenario. *)
Definition scenario_87 : Response :=
  stream ["event: connected|data: {}||event: message|data: {'type':'thinking'}||event: message|data: {'isAgent':true,'id':'m1','content':{'text':'Hello!'},'createdAt':'2024-01-01T00:00:00Z'}||event: done|data: {}||"%string].

(** ** [fetchApi] and the functions built on it *)

(** [response.json()] *)
Definition Response_json (response : Response) : Res value :=
  match JSON_parse (body_text response) with
  | Some v => Ok v
  | None => Throw SyntaxError
  end.

(** [fetchApi], lines 71-90, from the response of [fetch] on. *)
Definition fetchApi (response : Response) : Res value :=
  if negb (ok response) then
    let error := json_or_unknown response in
    bindR (get error "error") (fun e =>
      throw_new_Error
        (or_else e (VString (str "API error: " ++ of_N (status response)))))
  else Response_json response.

(** [deleteAgent], lines 207-211, and [deleteChat], lines 269-276: the
    value [fetchApi] returns is dropped. *)
Definition deleteAgent (response : Response) : Res unit :=
  bindR (fetchApi response) (fun _ => Ok tt).

Definition deleteChat (response : Response) : Res unit :=
  bindR (fetchApi response) (fun _ => Ok tt).

(** ** Authentication: [getAuthHeaders] and the hook [useAuth]

    [localStorage] is a list of keys with their values, a key at most
    once; the browser is the storage and whether [window] is defined. *)

Module UseAuth.

Definition Storage := list (jstring * jstring).

(** [localStorage.getItem(key)], [None] for [null] *)
Fixpoint getItem (s : Storage) (key : jstring) : option jstring :=
  match s with
  | [] => None
  | (k, v) :: rest => if streq k key then Some v else getItem rest key
  end.

(** [localStorage.removeItem(key)] *)
Definition removeItem (s : Storage) (key : jstring) : Storage :=
  filter (fun kv => negb (streq (fst kv) key)) s.

Record Browser := mkBrowser {
  window_defined : bool;      (* [typeof window !== "undefined"] *)
  localStorage : Storage
}.

Definition AUTH_TOKEN_KEY : jstring := str "miniapp_auth_token".
Definition USER_ID_KEY : jstring := str "miniapp_user_id".
Definition ORG_ID_KEY : jstring := str "miniapp_org_id".

(** Truthiness of a [string | null] *)
Definition present (o : option jstring) : bool :=
  match o with
  | Some s => negb (is_empty s)
  | None => false
  end.

(** [getAuthToken], lines 776-779 *)
Definition getAuthToken (env : Browser) : option jstring :=
  if negb (window_defined env) then None
  else getItem (localStorage env) AUTH_TOKEN_KEY.

(** [getAuthHeaders], lines 58-69: the headers object as its entries in
    the order they are written. *)
Definition getAuthHeaders (env : Browser) : list (jstring * jstring) :=
  let headers := [(str "Content-Type", str "application/json")] in
  let token := getAuthToken env in
  if present token then
    match token with
    | Some t => headers ++ [(str "Authorization", str "Bearer " ++ t)]
    | None => headers
    end
  else headers.

(** The user the hook keeps, lines 618-623. *)
Record AuthUser := mkAuthUser {
  id : value;
  email : value;
  name : value;
  avatar : value
}.

(** The state of the hook, lines 570-580. *)
Record AuthState := mkAuthState {
  ready : bool;
  authToken : option jstring;
  userId : option jstring;
  organizationId : option jstring;
  user : option AuthUser
}.

(** The hook's state together with the storage its callbacks write. *)
Record World := mkWorld {
  auth : AuthState;
  storage : Storage
}.

(** [authenticated: !!authToken], line 763 *)
Definition authenticated (a : AuthState) : bool := present (authToken a).

(** [clearAuth], lines 583-591 *)
Definition clearAuth (w : World) : World :=
  mkWorld
    (mkAuthState (ready (auth w)) None None None None)
    (removeItem (removeItem (removeItem (storage w) AUTH_TOKEN_KEY) USER_ID_KEY)
       ORG_ID_KEY).

(** The user read from the body of a successful response, lines 613-623;
    every exception of the reads is caught by the [try] of line 600.  The
    members read ([user], [id], [email], [name], [avatar]) are on no
    prototype of a JSON value. *)
Definition read_user (response : Response) : Res AuthUser :=
  bindR (Response_json response) (fun data =>
  bindR (get data "user") (fun u =>
  bindR (get u "id") (fun i =>
  bindR (get u "email") (fun e =>
  bindR (get u "name") (fun n =>
  bindR (get u "avatar") (fun a =>
  Ok (mkAuthUser i e n a))))))).

Definition setUser (w : World) (u : AuthUser) : World :=
  mkWorld
    (mkAuthState (ready (auth w)) (authToken (auth w)) (userId (auth w))
       (organizationId (auth w)) (Some u))
    (storage w).

(** [fetchUserInfo], lines 594-638, from the outcome of its [fetch] on:
    [None] is a network error, caught like every other exception. *)
Definition fetchUserInfo (outcome : option Response) (w : World) : World :=
  match outcome with
  | None => w
  | Some response =>
      if ok response then
        match read_user response with
        | Ok u => setUser w u
        | Throw _ => w
        end
      else if N.eqb (status response) 401 then clearAuth w
      else w
  end.

(** [handleStorageChange], lines 680-695, for an event with the key
    [key]: the world it leaves, and the token [fetchUserInfo] is started
    with, if it is. *)
Definition handleStorageChange (key : option jstring) (w : World)
  : World * option jstring :=
  match key with
  | Some k =>
      if streq k AUTH_TOKEN_KEY then
        let newToken := getItem (storage w) AUTH_TOKEN_KEY in
        let newUserId := getItem (storage w) USER_ID_KEY in
        let newOrgId := getItem (storage w) ORG_ID_KEY in
        if present newToken && present newUserId then
          (mkWorld
             (mkAuthState (ready (auth w)) newToken newUserId newOrgId (user (auth w)))
             (storage w),
           newToken)
        else (clearAuth w, None)
      else (w, None)
  | None => (w, None)
  end.

(** [localStorage.setItem(key, value)] *)
Fixpoint setItem (s : Storage) (key value : jstring) : Storage :=
  match s with
  | [] => [(key, value)]
  | (k, v) :: rest =>
      if streq k key then (k, value) :: rest else (k, v) :: setItem rest key value
  end.

(** [getStoredValue], lines 560-563 *)
Definition getStoredValue (env : Browser) (key : jstring) : option jstring :=
  if negb (window_defined env) then None else getItem (localStorage env) key.

(** The state of the first render, lines 570-580: the three lazy
    initializers read the storage. *)
Definition initial_state (env : Browser) : AuthState :=
  mkAuthState false (getStoredValue env AUTH_TOKEN_KEY) (getStoredValue env USER_ID_KEY)
    (getStoredValue env ORG_ID_KEY) None.

(** The effect run on mount, lines 645-664. *)
Definition mount_sync (w : World) : World :=
  let storedToken := getItem (storage w) AUTH_TOKEN_KEY in
  let storedUserId := getItem (storage w) USER_ID_KEY in
  let storedOrgId := getItem (storage w) ORG_ID_KEY in
  if present storedToken then
    mkWorld (mkAuthState true storedToken storedUserId storedOrgId (user (auth w)))
      (storage w)
  else
    mkWorld
      (mkAuthState true (authToken (auth w)) (userId (auth w))
         (organizationId (auth w)) (user (auth w)))
      (storage w).

(** [handleAuthChanged], lines 697-708: the world it leaves, and the token
    [fetchUserInfo] is started with, if it is. *)
Definition handleAuthChanged (w : World) : World * option jstring :=
  let newToken := getItem (storage w) AUTH_TOKEN_KEY in
  let newUserId := getItem (storage w) USER_ID_KEY in
  let newOrgId := getItem (storage w) ORG_ID_KEY in
  if present newToken && present newUserId then
    (mkWorld
       (mkAuthState (ready (auth w)) newToken newUserId newOrgId (user (auth w)))
       (storage w),
     newToken)
  else (w, None).

(** The three writes of the auth callback page ([src/unnamed/part_008],
    lines 72-74), with the values as the strings [setItem] stores. *)
Definition store_session (token uid org : jstring) (s : Storage) : Storage :=
  setItem (setItem (setItem s AUTH_TOKEN_KEY token) USER_ID_KEY uid) ORG_ID_KEY org.

End UseAuth.

(** ** Query strings: [URLSearchParams] (URL standard) *)

Module Url.

Definition is_high_surrogate (c : N) : bool := N.leb 55296 c && N.leb c 56319.
Definition is_low_surrogate (c : N) : bool := N.leb 56320 c && N.leb c 57343.

(** The scalar values of a string: a surrogate pair is one code point, a
    lone surrogate is replaced by U+FFFD. *)
Fixpoint scalar_values (s : jstring) : list N :=
  match s with
  | [] => []
  | c :: rest =>
      if is_high_surrogate c then
        match rest with
        | d :: rest' =>
            if is_low_surrogate d then
              (65536 + (c - 55296) * 1024 + (d - 56320))%N :: scalar_values rest'
            else 65533%N :: scalar_values rest
        | [] => [65533%N]
        end
      else if is_low_surrogate c then 65533%N :: scalar_values rest
      else c :: scalar_values rest
  end.

(** The UTF-8 bytes of a scalar value. *)
Definition utf8_bytes (cp : N) : list N :=
  if N.ltb cp 128 then [cp]
  else if N.ltb cp 2048 then
    [(192 + N.shiftr cp 6)%N; (128 + N.land cp 63)%N]
  else if N.ltb cp 65536 then
    [(224 + N.shiftr cp 12)%N; (128 + N.land (N.shiftr cp 6) 63)%N;
     (128 + N.land cp 63)%N]
  else
    [(240 + N.shiftr cp 18)%N; (128 + N.land (N.shiftr cp 12) 63)%N;
     (128 + N.land (N.shiftr cp 6) 63)%N; (128 + N.land cp 63)%N].

(** The bytes the form-urlencoded percent-encode set leaves alone: ASCII
    letters and digits, [*], [-], [.] and [_]. *)
Definition is_unreserved (b : N) : bool :=
  (N.leb 48 b && N.leb b 57) || (N.leb 65 b && N.leb b 90)
  || (N.leb 97 b && N.leb b 122)
  || N.eqb b 42 || N.eqb b 45 || N.eqb b 46 || N.eqb b 95.

Definition hex_upper (n : N) : N := if N.ltb n 10 then (48 + n)%N else (55 + n)%N.

Definition encode_byte (b : N) : jstring :=
  if N.eqb b 32 then [43%N]
  else if is_unreserved b then [b]
  else [37%N; hex_upper (N.div b 16); hex_upper (N.modulo b 16)].

(** Percent-encoding after UTF-8 encoding, with the space as [+]. *)
Definition urlencode (s : jstring) : jstring :=
  flat_map encode_byte (flat_map utf8_bytes (scalar_values s)).

Definition URLSearchParams := list (jstring * jstring).

Fixpoint set_first (name value : jstring) (l : URLSearchParams) : URLSearchParams :=
  match l with
  | [] => []
  | (n, v) :: rest =>
      if streq n name
      then (n, value) :: filter (fun p => negb (streq (fst p) name)) rest
      else (n, v) :: set_first name value rest
  end.

(** [searchParams.set(name, value)] *)
Definition set (l : URLSearchParams) (name value : jstring) : URLSearchParams :=
  if existsb (fun p => streq (fst p) name) l then set_first name value l
  else l ++ [(name, value)].

(** [searchParams.toString()] *)
Fixpoint toString (l : URLSearchParams) : jstring :=
  match l with
  | [] => []
  | (n, v) :: rest =>
      urlencode n ++ [61%N] ++ urlencode v
      ++ match rest with
         | [] => []
         | _ :: _ => 38%N :: toString rest
         end
  end.

End Url.

(** ** [listAgents] and [listChats]: the path of the request

    A Number enters these functions through its truthiness and its
    conversion to a string only; both are parameters. *)

Section Queries.

Variable Num : Type.
Variable Num_truthy : Num -> bool.
Variable Num_toString : Num -> jstring.

(** [params?: { page?: number; limit?: number; search?: string }] *)
Record ListParams := mkListParams {
  page : option Num;
  limit : option Num;
  search : option jstring
}.

(** [if (params?.field) searchParams.set(name, String(params.field))] *)
Definition set_number (l : Url.URLSearchParams) (name : string) (field : option Num)
  : Url.URLSearchParams :=
  match field with
  | Some n => if Num_truthy n then Url.set l (str name) (Num_toString n) else l
  | None => l
  end.

Definition set_string (l : Url.URLSearchParams) (name : string) (field : option jstring)
  : Url.URLSearchParams :=
  match field with
  | Some t => if negb (is_empty t) then Url.set l (str name) t else l
  | None => l
  end.

Definition field_of {A} (params : option ListParams) (f : ListParams -> option A)
  : option A :=
  match params with
  | Some p => f p
  | None => None
  end.

(** [listAgents], lines 121-127: the path handed to [fetchApi]. *)
Definition listAgents_path (params : option ListParams) : jstring :=
  let searchParams := set_number [] "page" (field_of params page) in
  let searchParams := set_number searchParams "limit" (field_of params limit) in
  let searchParams := set_string searchParams "search" (field_of params search) in
  let query := Url.toString searchParams in
  if negb (is_empty query) then str "/agents?" ++ query else str "/agents".

(** [listChats], lines 224-231; its parameters have no [search]. *)
Definition listChats_path (agentId : jstring) (params : option ListParams) : jstring :=
  let searchParams := set_number [] "page" (field_of params page) in
  let searchParams := set_number searchParams "limit" (field_of params limit) in
  let query := Url.toString searchParams in
  if negb (is_empty query)
  then str "/agents/" ++ agentId ++ str "/chats?" ++ query
  else str "/agents/" ++ agentId ++ str "/chats".

(** The number of fields that are present and truthy. *)
Definition sent (b : bool) : nat := if b then 1 else 0.

Definition number_sent (field : option Num) : bool :=
  match field with Some n => Num_truthy n | None => false end.

Definition string_sent (field : option jstring) : bool :=
  match field with Some t => negb (is_empty t) | None => false end.

Definition agents_sent (params : option ListParams) : nat :=
  sent (number_sent (field_of params page))
  + sent (number_sent (field_of params limit))
  + sent (string_sent (field_of params search)).

Definition chats_sent (params : option ListParams) : nat :=
  sent (number_sent (field_of params page))
  + sent (number_sent (field_of params limit)).

(** The parameters of the two queries. *)
Definition agents_params (params : option ListParams) : Url.URLSearchParams :=
  set_string
    (set_number (set_number [] "page" (field_of params page))
       "limit" (field_of params limit))
    "search" (field_of params search).

Definition chats_params (params : option ListParams) : Url.URLSearchParams :=
  set_number (set_number [] "page" (field_of params page))
    "limit" (field_of params limit).

End Queries.

(** ** The chat page: the two updaters of the message list

    [src/app/chats/[agentId]/[chatId]/page.tsx], the functions handed to
    [setMessages] by the handlers [onUserMessage] and [onComplete]. *)

(** Lines 272-277: the entry with the id of the optimistic message is
    replaced by the server's message, with the server's attachments or
    else the local ones. *)
Definition reconcile_entry (optimisticId : jstring) (msg m : Message.t) : Message.t :=
  if is_string (Message.id m) optimisticId then
    Message.mk (Message.id msg) (Message.content msg) (Message.role msg)
      (Message.createdAt msg)
      (match Message.attachments msg with
       | Some l => Some l
       | None => Message.attachments m
       end)
  else m.

Definition reconcile (optimisticId : jstring) (msg : Message.t) (prev : list Message.t)
  : list Message.t :=
  map (reconcile_entry optimisticId msg) prev.

(** Line 292: [(prev) => [...prev, msg]] *)
Definition append_message (msg : Message.t) (prev : list Message.t) : list Message.t :=
  prev ++ [msg].

(** The effect of one call of a handler on the message list of the chat
    page: only [onUserMessage] and [onComplete] touch it. *)
Definition on_call (optimisticId : jstring) (c : Call) (prev : list Message.t)
  : list Message.t :=
  match c with
  | OnUserMessage msg => reconcile optimisticId msg prev
  | OnComplete msg _ => append_message msg prev
  | _ => prev
  end.

Definition messages_after (optimisticId : jstring) (new : list Call)
    (prev : list Message.t) : list Message.t :=
  fold_left (fun acc c => on_call optimisticId c acc) new prev.

(** The characters with a meaning of their own in a path with a query:
    [&], [=], [#], [?], [/] and the space. *)
Definition reserved (c : N) : bool :=
  N.eqb c 38 || N.eqb c 61 || N.eqb c 35 || N.eqb c 63 || N.eqb c 47 || N.eqb c 32.

Definition count (c : N) (s : jstring) : nat := length (filter (N.eqb c) s).

(** Integers as Numbers: zero is the falsy one. *)
Definition integer_truthy (z : Z) : bool := negb (Z.eqb z 0).

(** ** Vocabulary of the further properties *)

Definition is_chunk (c : Call) : bool :=
  match c with OnChunk _ => true | _ => false end.

(** A computation only appends to the calls made so far, at most [bound]
    calls and never one of [onChunk]. *)
Definition emits {A} (bound : nat) (m : M A) : Prop :=
  forall st : State,
    exists new : list Call,
      calls (snd (m st)) = calls st ++ new
      /\ length new <= bound
      /\ forallb (fun c => negb (is_chunk c)) new = true.

(** The complete records of the body of a response. *)
Definition response_records (response : Response) : list jstring :=
  match body response with
  | Some chunks => complete_records chunks
  | None => []
  end.

(** The time value [new Date(v)] holds when it is a valid date. *)
Definition parsed_time (P : Platform) (v : value) : option Z :=
  match Date_value P v with
  | Ok (Some t) => JsDate.TimeClip t
  | _ => None
  end.

(* ===================================================================== *)
(** * Part II.  Properties                                                *)
(* ===================================================================== *)

(** ** The platform models on known inputs *)

Example split_blank_lines :
  split blank_line (wire "a||b|||c||") = [wire "a"; wire "b"; wire "|c"; []]
  /\ split blank_line [] = [[]]
  /\ split [10%N] (wire "event: x|data: y") = [wire "event: x"; wire "data: y"].
Proof. repeat split; reflexivity. Qed.

Example trim_white_space :
  trim ([32; 9; 160; 65279] ++ str "done" ++ [13; 10; 8232])%N = str "done"
  /\ trim (wire " | ") = [].
Proof. split; reflexivity. Qed.

Example number_to_string :
  of_Z 1704067200000 = str "1704067200000" /\ of_Z 0 = str "0"
  /\ of_Z (-42) = str "-42" /\ of_N 402 = str "402".
Proof. repeat split; vm_compute; reflexivity. Qed.

(** U+00E9 (C3 A9), U+20AC (E2 82 AC), U+1F600 (F0 9F 98 80), a stray
    continuation byte and an unfinished sequence, after a byte order
    mark. *)
Example utf8_decode_all :
  Utf8.decode_all [Byte.xef; Byte.xbb; Byte.xbf; Byte.xc3; Byte.xa9;
                   Byte.xe2; Byte.x82; Byte.xac;
                   Byte.xf0; Byte.x9f; Byte.x98; Byte.x80; Byte.x80; Byte.xc3]
  = [233; 8364; 55357; 56832; 65533; 65533]%N.
Proof. reflexivity. Qed.

(** A character cut by the end of a chunk is completed by the next one. *)
Example utf8_decode_stream :
  let '(d1, o1) := Utf8.decode_stream Utf8.fresh [Byte.x61; Byte.xe2; Byte.x82] in
  let '(d2, o2) := Utf8.decode_stream d1 [Byte.xac; Byte.x62] in
  o1 = [97%N] /\ o2 = [8364%N; 98%N].
Proof. split; reflexivity. Qed.

Example json_valid :
  JSON_parse (wire " {'a': [1, -2.50e1, true, null, 'x\u0041\n'], 'a': {}} ")
  = Some (VObject
            [(str "a", VArray [VNumber (JNumber false 1 0);
                               VNumber (JNumber true 250 (-1));
                               VBool true; VNull;
                               VString [120; 65; 10]%N]);
             (str "a", VObject [])])
  /\ prop (VObject [(str "a", VNull); (str "a", VBool true)]) "a" = VBool true.
Proof. split; vm_compute; reflexivity. Qed.

Example json_invalid :
  map JSON_parse
    [wire "{bad"; str ""; str "01"; str "[1,]"; wire "{'a':1,}"; str "1e"; str "-";
     str ".5"; str "tru"; str "2."; str "1 2"; wire "'a|b'"; wire "{'a' 1}";
     str "undefined"; str "NaN"]
  = repeat None 15.
Proof. vm_compute. reflexivity. Qed.

Example number_truthiness :
  map (fun t => option_map truthy (JSON_parse (str t)))
    ["0"; "-0.0"; "0e5"; "1e-400"; "2e-324"; "3e-324"; "5e-324"; "1"; "-1e-3"]%string
  = map Some [false; false; false; false; false; true; true; true; true].
Proof. vm_compute. reflexivity. Qed.

Example number_toString_known :
  map (fun t => option_map ToString (JSON_parse (str t)))
    ["42"; "0.1"; "1e21"; "1e20"; "123456789012345680000"; "1.5e-7"; "0.000001";
     "1e-7"; "5e-324"; "1e-323"; "1.7976931348623157e308"; "9007199254740993";
     "0.30000000000000004"; "-1.5"; "1e999"; "-1e999"; "5e-325"; "3e-324"; "4.35";
     "-0"; "100"; "1.0"; "2.5e-5"; "123.456"; "2.2250738585072014e-308";
     "0.1e1"; "12345678901234567890123"; "-7e-10"]%string
  = map (fun t => Some (Ok (str t)))
      ["42"; "0.1"; "1e+21"; "100000000000000000000"; "123456789012345680000";
       "1.5e-7"; "0.000001"; "1e-7"; "5e-324"; "1e-323"; "1.7976931348623157e+308";
       "9007199254740992"; "0.30000000000000004"; "-1.5"; "Infinity"; "-Infinity";
       "0"; "5e-324"; "4.35"; "0"; "100"; "1"; "0.000025"; "123.456";
       "2.2250738585072014e-308"; "1"; "1.2345678901234568e+22"; "-7e-10"]%string.
Proof. vm_compute. reflexivity. Qed.

Example ToString_known :
  map (fun t => option_map ToString (JSON_parse (wire t)))
    ["[1,[2,3],null,'a',true,{}]"; "{'toString':1}"; "[]"; "[[]]"; "[null]";
     "[1,{'toString':null}]"; "{'a':1}"; "'x'"; "true"; "[[1,2],[3]]";
     "{'valueOf':1}"]%string
  = [Some (Ok (str "1,2,3,,a,true,[object Object]")); Some (Throw TypeError);
     Some (Ok []); Some (Ok []); Some (Ok []); Some (Throw TypeError);
     Some (Ok (str "[object Object]")); Some (Ok (str "x")); Some (Ok (str "true"));
     Some (Ok (str "1,2,3")); Some (Ok (str "[object Object]"))].
Proof. vm_compute. reflexivity. Qed.

Example toISOString_known :
  map (fun t => JsDate.toISOString (JsDate.TimeClip t))
    [0; 1704067200000; 1709164800000; -1; 253402300800000;
     8640000000000000; -8640000000000000; 8640000000000001]%Z
  = [Ok (str "1970-01-01T00:00:00.000Z"); Ok (str "2024-01-01T00:00:00.000Z");
     Ok (str "2024-02-29T00:00:00.000Z"); Ok (str "1969-12-31T23:59:59.999Z");
     Ok (str "+010000-01-01T00:00:00.000Z"); Ok (str "+275760-09-13T00:00:00.000Z");
     Ok (str "-271821-04-20T00:00:00.000Z"); Throw RangeError].
Proof. vm_compute. reflexivity. Qed.

(** ** Strings *)

Lemma streq_eq (a b : jstring) : streq a b = true <-> a = b.
Proof.
  revert b; induction a as [|x a IH]; intros [|y b]; simpl; split; intros H;
    try discriminate; try reflexivity.
  - apply andb_true_iff in H as [Hx Hb]. apply N.eqb_eq in Hx.
    apply IH in Hb. congruence.
  - injection H as -> ->. rewrite N.eqb_refl. simpl. apply IH. reflexivity.
Qed.

Lemma streq_refl (a : jstring) : streq a a = true.
Proof. apply streq_eq. reflexivity. Qed.

Lemma startsWith_app (s p t : jstring) :
  startsWith s p = true -> startsWith (s ++ t) p = true.
Proof.
  revert s; induction p as [|y p IH]; intros [|x s]; simpl; intros H;
    try discriminate; try reflexivity.
  apply andb_true_iff in H as [Hx Hp]. rewrite Hx. simpl. auto.
Qed.

Lemma startsWith_length (s p : jstring) :
  startsWith s p = true -> length p <= length s.
Proof.
  revert s; induction p as [|y p IH]; intros [|x s]; simpl; intros H;
    try discriminate; try lia.
  apply andb_true_iff in H as [_ Hp]. apply IH in Hp. lia.
Qed.

Lemma startsWith_app_inv (s p t : jstring) :
  startsWith (s ++ t) p = true -> length p <= length s ->
  startsWith s p = true.
Proof.
  revert s; induction p as [|y p IH]; intros [|x s]; simpl; intros H Hl;
    try reflexivity; try lia.
  apply andb_true_iff in H as [Hx Hp]. rewrite Hx. simpl.
  apply IH; [assumption | lia].
Qed.

Lemma find_sep_length (sep s b a : jstring) :
  find_sep sep s = Some (b, a) ->
  length s = length b + length sep + length a.
Proof.
  revert b; induction s as [|c s IH]; intros b; simpl; [discriminate|].
  destruct (startsWith (c :: s) sep) eqn:Hp.
  - intros H. injection H as <- <-.
    apply startsWith_length in Hp.
    pose proof (length_skipn (length sep) (c :: s)) as Hs.
    simpl length in *. lia.
  - destruct (find_sep sep s) as [[b' a']|]; [|discriminate].
    intros H. injection H as <- <-. specialize (IH b' eq_refl).
    simpl. lia.
Qed.

(** An occurrence of the separator found in a text is found in the same
    place when more text follows. *)
Lemma find_sep_app (sep s b a t : jstring) :
  find_sep sep s = Some (b, a) -> find_sep sep (s ++ t) = Some (b, a ++ t).
Proof.
  revert b; induction s as [|c s IH]; intros b; simpl; [discriminate|].
  destruct (startsWith (c :: s) sep) eqn:Hp.
  - intros H. injection H as <- <-.
    pose proof (startsWith_length _ _ Hp) as Hlen.
    change (c :: s ++ t) with ((c :: s) ++ t).
    rewrite (startsWith_app _ _ t Hp).
    rewrite skipn_app.
    replace (length sep - length (c :: s)) with 0 by lia. reflexivity.
  - destruct (find_sep sep s) as [[b' a']|] eqn:Hf; [|discriminate].
    intros H. injection H as <- <-.
    pose proof (find_sep_length _ _ _ _ Hf) as Hlen.
    specialize (IH b' eq_refl).
    change (c :: s ++ t) with ((c :: s) ++ t).
    destruct (startsWith ((c :: s) ++ t) sep) eqn:Hp'.
    + apply startsWith_app_inv in Hp'; [congruence | simpl; lia].
    + simpl in IH. rewrite IH. reflexivity.
Qed.

(** Without an occurrence in [s], an occurrence in [s ++ t] is searched
    from the same text again. *)
Lemma split_fuel_enough (sep : jstring) (n : nat) :
  sep <> [] ->
  forall s, length s <= n -> split_fuel n sep s = split sep s.
Proof.
  intros Hsep. unfold split.
  induction n as [n IH] using lt_wf_ind. intros s Hn.
  destruct n as [|n].
  - destruct s; [reflexivity | simpl in Hn; lia].
  - simpl. destruct (find_sep sep s) as [[b a]|] eqn:Hf.
    + pose proof (find_sep_length _ _ _ _ Hf) as Hl.
      assert (0 < length sep) by (destruct sep; [congruence | simpl; lia]).
      destruct (length s) as [|m] eqn:Hm; [lia|].
      simpl. rewrite Hf. f_equal.
      rewrite (IH n) by lia. symmetry. apply (IH m); lia.
    + destruct (length s); simpl; [reflexivity|]. rewrite Hf. reflexivity.
Qed.

Lemma split_unfold (sep s : jstring) :
  sep <> [] ->
  split sep s = match find_sep sep s with
                | None => [s]
                | Some (b, a) => b :: split sep a
                end.
Proof.
  intros Hsep. rewrite <- (split_fuel_enough sep (S (length s)) Hsep) by lia.
  simpl. destruct (find_sep sep s) as [[b a]|] eqn:Hf; [|reflexivity].
  f_equal. apply split_fuel_enough; [assumption|].
  apply find_sep_length in Hf. lia.
Qed.

Lemma split_not_nil (sep s : jstring) : split sep s <> [].
Proof.
  unfold split. destruct (length s); simpl; [discriminate|].
  destruct (find_sep sep s) as [[? ?]|]; discriminate.
Qed.

(** The segments of [a ++ b]: the complete segments of [a], then the
    segments of what [a] left open followed by [b]. *)
Lemma split_app (sep a b : jstring) :
  sep <> [] ->
  split sep (a ++ b)
  = removelast (split sep a) ++ split sep (last (split sep a) [] ++ b).
Proof.
  intros Hsep. remember (length a) as n eqn:Hn. revert a Hn.
  induction n as [n IH] using lt_wf_ind. intros a Hn.
  rewrite (split_unfold sep a Hsep).
  destruct (find_sep sep a) as [[x r]|] eqn:Hf.
  - rewrite (split_unfold sep (a ++ b) Hsep), (find_sep_app _ _ _ _ b Hf).
    pose proof (find_sep_length _ _ _ _ Hf) as Hl.
    assert (0 < length sep) by (destruct sep; [congruence | simpl; lia]).
    rewrite (IH (length r)) by (try reflexivity; lia).
    pose proof (split_not_nil sep r) as Hne.
    destruct (split sep r) as [|y ys] eqn:Hr; [congruence|].
    reflexivity.
  - reflexivity.
Qed.

(** What [pop] leaves in the buffer holds no separator. *)
Lemma split_last (sep s : jstring) :
  sep <> [] ->
  split sep (last (split sep s) []) = [last (split sep s) []].
Proof.
  intros Hsep. remember (length s) as n eqn:Hn. revert s Hn.
  induction n as [n IH] using lt_wf_ind. intros s Hn.
  rewrite (split_unfold sep s Hsep).
  destruct (find_sep sep s) as [[x r]|] eqn:Hf.
  - pose proof (find_sep_length _ _ _ _ Hf) as Hl.
    assert (0 < length sep) by (destruct sep; [congruence | simpl; lia]).
    pose proof (split_not_nil sep r) as Hne.
    destruct (split sep r) as [|y ys] eqn:Hr; [congruence|].
    change (last (x :: y :: ys) []) with (last (y :: ys) []).
    rewrite <- Hr. apply (IH (length r)); [lia | reflexivity].
  - simpl. rewrite (split_unfold sep s Hsep), Hf. reflexivity.
Qed.

(** ** The decoder is a machine driven by the bytes *)

Lemma decode_stream_app (d : Utf8.decoder) (a b : list Byte.byte) :
  Utf8.decode_stream d (a ++ b)
  = let '(d1, o1) := Utf8.decode_stream d a in
    let '(d2, o2) := Utf8.decode_stream d1 b in
    (d2, o1 ++ o2).
Proof.
  revert d; induction a as [|x a IH]; intros d; simpl.
  - destruct (Utf8.decode_stream d b). reflexivity.
  - destruct (Utf8.feed d x) as [d1 o1]. rewrite IH.
    destruct (Utf8.decode_stream d1 a) as [d2 o2].
    destruct (Utf8.decode_stream d2 b) as [d3 o3].
    rewrite app_assoc. reflexivity.
Qed.

(** ** Sequencing *)

Lemma for_each_app {A} (xs ys : list A) (body : A -> M unit) (st : State) :
  for_each (xs ++ ys) body st = (for_each xs body ;;; for_each ys body) st.
Proof.
  revert st; induction xs as [|x xs IH]; intros st; simpl.
  - reflexivity.
  - unfold bind in *. destruct (body x st) as [[[]|e] st1].
    + apply IH.
    + reflexivity.
Qed.

Lemma pop_eq (messages : list jstring) :
  pop messages = (removelast messages, last messages []).
Proof. destruct messages; reflexivity. Qed.

Lemma blank_line_not_nil : blank_line <> [].
Proof. discriminate. Qed.

(** ** The read loop processes the complete records of the text

    Whatever the chunks, the loop runs [process_message] over the segments
    of the whole decoded text that a blank line closes, in order; the
    segment after the last blank line stays in the buffer. *)

Section Loop.

Variable P : Platform.
Variable callbacks : StreamCallbacks.

Lemma read_loop_spec (chunks : list (list Byte.byte)) :
  forall (d : Utf8.decoder) (buffer : jstring) (st : State),
    split blank_line buffer = [buffer] ->
    read_loop P callbacks d buffer chunks st
    = for_each
        (removelast (split blank_line
                       (buffer ++ snd (Utf8.decode_stream d (concat chunks)))))
        (process_message P callbacks) st.
Proof.
  induction chunks as [|value later IH]; intros d buffer st Hbuf.
  - simpl. rewrite app_nil_r, Hbuf. reflexivity.
  - simpl concat. rewrite decode_stream_app. simpl read_loop.
    destruct (Utf8.decode_stream d value) as [d1 text].
    change (split [10%N; 10%N]) with (split blank_line).
    rewrite pop_eq.
    destruct (Utf8.decode_stream d1 (concat later)) as [d2 text2] eqn:Hlater.
    simpl snd.
    rewrite app_assoc, (split_app blank_line (buffer ++ text) text2 blank_line_not_nil).
    rewrite removelast_app by apply split_not_nil.
    rewrite for_each_app.
    unfold bind.
    destruct (for_each (removelast (split blank_line (buffer ++ text)))
                (process_message P callbacks) st) as [[[]|e] st1];
      [|reflexivity].
    rewrite IH by (apply split_last; exact blank_line_not_nil).
    rewrite Hlater. reflexivity.
Qed.

Lemma sendMessage_spec (response : Response) (chunks : list (list Byte.byte)) (st : State) :
  ok response = true ->
  body response = Some chunks ->
  sendMessage P callbacks response st
  = for_each (complete_records chunks) (process_message P callbacks) st.
Proof.
  intros Hok Hbody. unfold sendMessage. rewrite Hok, Hbody.
  change (negb true) with false. cbv iota.
  rewrite read_loop_spec by reflexivity.
  unfold complete_records, stream_text. rewrite pop_eq. reflexivity.
Qed.

(** Two responses with the same status whose chunks make up the same
    bytes are handled alike. *)
Lemma sendMessage_same_bytes (status : N) (chunks1 chunks2 : list (list Byte.byte))
    (st : State) :
  concat chunks1 = concat chunks2 ->
  sendMessage P callbacks (mkResponse status (Some chunks1)) st
  = sendMessage P callbacks (mkResponse status (Some chunks2)) st.
Proof.
  intros Hsame.
  destruct (ok (mkResponse status (Some chunks1))) eqn:Hok.
  - rewrite (sendMessage_spec (mkResponse status (Some chunks1)) chunks1 st Hok eq_refl).
    rewrite (sendMessage_spec (mkResponse status (Some chunks2)) chunks2 st Hok eq_refl).
    unfold complete_records, stream_text. rewrite Hsame. reflexivity.
  - unfold sendMessage, json_or_unknown, body_text.
    change (ok (mkResponse status (Some chunks2)))
      with (ok (mkResponse status (Some chunks1))).
    rewrite Hok. cbn [body]. rewrite Hsame. reflexivity.
Qed.

End Loop.

(** ** The fuel of the JSON parser is enough *)

Module JsonFacts.

Lemma skip_ws_length (s : jstring) : length (skip_ws s) <= length s.
Proof.
  induction s as [|c s IH]; simpl; [lia|].
  destruct (is_ws c); simpl; lia.
Qed.

Lemma string_body_shorter (n : nat) :
  forall (s acc : jstring),
    length s <= n ->
    string_body s acc <> OutOfFuel
    /\ forall v r, string_body s acc = Parsed v r -> length r < length s.
Proof.
  induction n as [|n IH]; intros s acc Hn.
  - destruct s; [|simpl in Hn; lia]. simpl. split; [discriminate|]. discriminate.
  - destruct s as [|c rest]; [simpl; split; discriminate|].
    simpl in Hn. simpl string_body.
    destruct (N.eqb c 34).
    { split; [discriminate|]. intros v r H. injection H as _ <-. simpl. lia. }
    destruct (N.eqb c 92).
    { destruct rest as [|e rest1]; [split; discriminate|].
      simpl in Hn.
      destruct (N.eqb e 117).
      - destruct rest1 as [|h1 [|h2 [|h3 [|h4 rest2]]]]; try (split; discriminate).
        destruct (hex4 h1 h2 h3 h4); [|split; discriminate].
        simpl in Hn.
        destruct (IH rest2 (n0 :: acc) ltac:(lia)) as [H1 H2].
        split; [exact H1|]. intros v r H. apply H2 in H. simpl. lia.
      - destruct (escape e); [|split; discriminate].
        destruct (IH rest1 (n0 :: acc) ltac:(lia)) as [H1 H2].
        split; [exact H1|]. intros v r H. apply H2 in H. simpl. lia. }
    destruct (N.ltb c 32); [split; discriminate|].
    destruct (IH rest (c :: acc) ltac:(lia)) as [H1 H2].
    split; [exact H1|]. intros v r H. apply H2 in H. simpl. lia.
Qed.

Lemma digits_length (s : jstring) :
  forall (acc : N) (len : nat),
    let '(_, len', r) := digits s acc len in
    length r + len' = length s + len /\ len <= len'.
Proof.
  induction s as [|c s IH]; intros acc len; simpl; [lia|].
  destruct (is_digit c); [|simpl; lia].
  specialize (IH (acc * 10 + (c - 48))%N (S len)).
  destruct (digits s (acc * 10 + (c - 48)) (S len)) as [[a l] r]. lia.
Qed.

Lemma number_shorter (s : jstring) :
  number s <> OutOfFuel
  /\ forall n r, number s = Parsed n r -> length r < length s.
Proof.
  unfold number.
  set (p := match s with
            | c :: rest => if N.eqb c 45 then (true, rest) else (false, s)
            | [] => (false, s)
            end).
  assert (Hp : length (snd p) <= length s).
  { subst p. destruct s as [|c rest]; simpl; [lia|].
    destruct (N.eqb c 45); simpl; lia. }
  destruct p as [sign s1]. simpl in Hp.
  destruct (int_part s1) as [[i s2]|] eqn:Hi; [|split; discriminate].
  assert (H2 : length s2 < length s1).
  { unfold int_part in Hi. destruct s1 as [|c rest]; [discriminate|].
    destruct (N.eqb c 48).
    - injection Hi as _ <-. simpl. lia.
    - destruct (is_digit c) eqn:Hd; [|discriminate].
      change (digits (c :: rest) 0 0)
        with (if is_digit c then digits rest (0 * 10 + (c - 48))%N 1
              else (0%N, 0, c :: rest)) in Hi.
      rewrite Hd in Hi.
      pose proof (digits_length rest (0 * 10 + (c - 48))%N 1) as Hl.
      destruct (digits rest (0 * 10 + (c - 48))%N 1) as [[a l] r].
      injection Hi as _ <-. simpl. lia. }
  destruct (frac_part i s2) as [[[m k] s3]|] eqn:Hf; [|split; discriminate].
  assert (H3 : length s3 <= length s2).
  { unfold frac_part in Hf. destruct s2 as [|c rest].
    - injection Hf as _ _ <-. lia.
    - destruct (N.eqb c 46).
      + pose proof (digits_length rest i 0) as Hl.
        destruct (digits rest i 0) as [[a l] r].
        destruct l; [discriminate|]. injection Hf as _ _ <-. simpl. lia.
      + injection Hf as _ _ <-. lia. }
  destruct (exp_part s3) as [[e s4]|] eqn:He; [|split; discriminate].
  assert (H4 : length s4 <= length s3).
  { assert (Hexp : forall sg t e' r', exp_digits sg t = Some (e', r') ->
                                      length r' <= length t).
    { intros sg t e' r' H. unfold exp_digits in H.
      pose proof (digits_length t 0 0) as Hl.
      destruct (digits t 0 0) as [[a l] r].
      destruct l; [discriminate|]. injection H as _ <-. lia. }
    unfold exp_part in He. destruct s3 as [|c rest].
    - injection He as _ <-. lia.
    - destruct (N.eqb c 101 || N.eqb c 69).
      + destruct rest as [|g rest1]; [discriminate|].
        destruct (N.eqb g 43); [apply Hexp in He; simpl; lia|].
        destruct (N.eqb g 45); [apply Hexp in He; simpl; lia|].
        apply Hexp in He. simpl in *. lia.
      + injection He as _ <-. lia. }
  split; [discriminate|]. intros n r H. injection H as _ <-. lia.
Qed.

Lemma literal_shorter (lit : string) (v : value) (s : jstring) :
  lit <> EmptyString ->
  literal lit v s <> OutOfFuel
  /\ forall w r, literal lit v s = Parsed w r -> length r < length s.
Proof.
  intros Hlit. unfold literal.
  destruct (startsWith s (str lit)) eqn:Hs; [|split; discriminate].
  split; [discriminate|]. intros w r H. injection H as _ <-.
  apply startsWith_length in Hs.
  pose proof (length_skipn (length (str lit)) s) as Hl.
  assert (0 < length (str lit)) by (destruct lit; [congruence | simpl; lia]).
  lia.
Qed.

Lemma parse_fuel_adequate (fuel : nat) :
  (forall s, 2 * length s + 1 <= fuel -> adequate (parse_value fuel s) s)
  /\ (forall s acc, 2 * length s + 2 <= fuel -> adequate (parse_elements fuel s acc) s)
  /\ (forall s acc, 2 * length s + 2 <= fuel -> adequate (parse_members fuel s acc) s).
Proof.
  induction fuel as [|f (IHv & IHe & IHm)].
  - repeat split; intros; lia.
  - split; [|split].
    + intros s Hf. destruct s as [|c rest]; [split; discriminate|].
      simpl in Hf. simpl parse_value.
      pose proof (skip_ws_length rest) as Hws.
      destruct (N.eqb c 123).
      { destruct (skip_ws rest) as [|d rest1] eqn:Hr; [split; discriminate|].
        simpl in Hws.
        destruct (N.eqb d 125).
        - split; [discriminate|]. intros v r H. injection H as _ <-. simpl. lia.
        - destruct (IHm (d :: rest1) [] ltac:(simpl; lia)) as [H1 H2].
          split; [exact H1|]. intros v r H. apply H2 in H. simpl in *. lia. }
      destruct (N.eqb c 91).
      { destruct (skip_ws rest) as [|d rest1] eqn:Hr; [split; discriminate|].
        simpl in Hws.
        destruct (N.eqb d 93).
        - split; [discriminate|]. intros v r H. injection H as _ <-. simpl. lia.
        - destruct (IHe (d :: rest1) [] ltac:(simpl; lia)) as [H1 H2].
          split; [exact H1|]. intros v r H. apply H2 in H. simpl in *. lia. }
      destruct (N.eqb c 34).
      { destruct (string_body_shorter (length rest) rest [] (le_n _)) as [H1 H2].
        destruct (string_body rest []) as [v' r'| |]; [| split; discriminate | congruence].
        split; [discriminate|]. intros v r H. injection H as _ <-.
        specialize (H2 v' r' eq_refl). simpl. lia. }
      destruct (N.eqb c 116); [apply literal_shorter; discriminate|].
      destruct (N.eqb c 102); [apply literal_shorter; discriminate|].
      destruct (N.eqb c 110); [apply literal_shorter; discriminate|].
      destruct (number_shorter (c :: rest)) as [H1 H2].
      destruct (number (c :: rest)) as [n' r'| |]; [| split; discriminate | congruence].
      split; [discriminate|]. intros v r H. injection H as _ <-.
      apply (H2 n' r' eq_refl).
    + intros s acc Hf. simpl parse_elements.
      destruct (IHv s ltac:(lia)) as [H1 H2].
      destruct (parse_value f s) as [v r| |]; [| split; discriminate | congruence].
      specialize (H2 v r eq_refl).
      pose proof (skip_ws_length r) as Hws.
      destruct (skip_ws r) as [|c r1]; [split; discriminate|]. simpl in Hws.
      destruct (N.eqb c 44).
      { pose proof (skip_ws_length r1) as Hws1.
        destruct (IHe (skip_ws r1) (v :: acc) ltac:(lia)) as [H3 H4].
        split; [exact H3|]. intros v' r' H. apply H4 in H. lia. }
      destruct (N.eqb c 93); [|split; discriminate].
      split; [discriminate|]. intros v' r' H. injection H as _ <-. lia.
    + intros s acc Hf. simpl parse_members.
      destruct s as [|q s1]; [split; discriminate|]. simpl in Hf.
      destruct (N.eqb q 34); [|split; discriminate].
      destruct (string_body_shorter (length s1) s1 [] (le_n _)) as [H1 H2].
      destruct (string_body s1 []) as [key s2| |]; [| split; discriminate | congruence].
      specialize (H2 key s2 eq_refl).
      pose proof (skip_ws_length s2) as Hws2.
      destruct (skip_ws s2) as [|c s3]; [split; discriminate|]. simpl in Hws2.
      destruct (N.eqb c 58); [|split; discriminate].
      pose proof (skip_ws_length s3) as Hws3.
      destruct (IHv (skip_ws s3) ltac:(lia)) as [H3 H4].
      destruct (parse_value f (skip_ws s3)) as [v r| |];
        [| split; discriminate | congruence].
      specialize (H4 v r eq_refl).
      pose proof (skip_ws_length r) as Hws.
      destruct (skip_ws r) as [|d r1]; [split; discriminate|]. simpl in Hws.
      destruct (N.eqb d 44).
      { pose proof (skip_ws_length r1) as Hws1.
        destruct (IHm (skip_ws r1) ((key, v) :: acc) ltac:(lia)) as [H5 H6].
        split; [exact H5|]. intros v' r' H. apply H6 in H. simpl. lia. }
      destruct (N.eqb d 125); [|split; discriminate].
      split; [discriminate|]. intros v' r' H. injection H as _ <-. simpl. lia.
Qed.

(** [JSON_parse] never fails for lack of fuel: [None] is a SyntaxError. *)
Lemma JSON_parse_fuel (text : jstring) :
  parse_value (2 * length text + 2) (skip_ws text) <> OutOfFuel.
Proof.
  pose proof (skip_ws_length text) as Hws.
  apply (proj1 (parse_fuel_adequate (2 * length text + 2))). lia.
Qed.

End JsonFacts.

(** ** [toISOString] writes a valid ISO timestamp *)

Module JsDateFacts.
Import JsDate.
Local Open Scope Z_scope.

Lemma civil_from_days_bounds (days : Z) :
  -100000000 <= days <= 100000000 ->
  let '(y, m, d) := civil_from_days days in
  1 <= m <= 12 /\ 1 <= d <= 31 /\ -999999 <= y <= 999999.
Proof.
  unfold civil_from_days. intros Hd.
  set (z := days + 719468).
  set (era := z / 146097).
  set (doe := z - era * 146097).
  set (yoe := (doe - doe / 1460 + doe / 36524 - doe / 146096) / 365).
  set (doy := doe - (365 * yoe + yoe / 4 - yoe / 100)).
  set (mp := (5 * doy + 2) / 153).
  assert (Hera : -700 <= era <= 700)
    by (subst era z; Z.div_mod_to_equations; lia).
  assert (Hdoe : 0 <= doe <= 146096)
    by (subst doe era; Z.div_mod_to_equations; lia).
  assert (Hyoe : 0 <= yoe <= 399)
    by (subst yoe; Z.div_mod_to_equations; lia).
  assert (Hdoy : 0 <= doy <= 365)
    by (subst doy yoe; Z.div_mod_to_equations; lia).
  assert (Hmp : 0 <= mp <= 11)
    by (subst mp; Z.div_mod_to_equations; lia).
  assert (Hday : 1 <= doy - (153 * mp + 2) / 5 + 1 <= 31)
    by (subst mp; Z.div_mod_to_equations; lia).
  clearbody mp doy yoe era.
  destruct (mp <? 10) eqn:E;
    [apply Z.ltb_lt in E | apply Z.ltb_ge in E];
    (destruct (_ <=? 2); lia).
Qed.

Lemma read_digits_add (w k : nat) :
  forall (s : jstring) (acc : Z),
    read_digits (w + k) s acc
    = match read_digits w s acc with
      | Some (v, r) => read_digits k r v
      | None => None
      end.
Proof.
  induction w as [|w IH]; intros s acc; simpl.
  - reflexivity.
  - destruct s as [|c rest]; [reflexivity|].
    destruct (is_digit c); [apply IH | reflexivity].
Qed.

(** Reading back [width] digits written by [pad]. *)
Lemma read_digits_pad (width : nat) :
  forall (n acc : Z) (rest : jstring),
    0 <= n < 10 ^ Z.of_nat width ->
    read_digits width (pad width n ++ rest) acc
    = Some (acc * 10 ^ Z.of_nat width + n, rest).
Proof.
  induction width as [|w IH]; intros n acc rest Hn.
  - simpl in *. f_equal. f_equal. lia.
  - replace (S w) with (w + 1)%nat at 1 by lia.
    rewrite read_digits_add.
    change (pad (S w) n) with (pad w (n / 10) ++ [Z.to_N (48 + n mod 10)]).
    rewrite <- app_assoc.
    rewrite Nat2Z.inj_succ, Z.pow_succ_r in * by lia.
    rewrite (IH (n / 10) acc) by (Z.div_mod_to_equations; lia).
    assert (Hd : 0 <= n mod 10 < 10) by (apply Z.mod_pos_bound; lia).
    assert (Hc : is_digit (Z.to_N (48 + n mod 10)) = true).
    { unfold is_digit. apply andb_true_iff.
      split; apply N.leb_le; lia. }
    change (read_digits 1 ([Z.to_N (48 + n mod 10)] ++ rest) (acc * 10 ^ Z.of_nat w + n / 10))
      with (if is_digit (Z.to_N (48 + n mod 10))
            then Some ((acc * 10 ^ Z.of_nat w + n / 10) * 10
                       + (Z.of_N (Z.to_N (48 + n mod 10)) - 48), rest)
            else None).
    rewrite Hc. f_equal. f_equal.
    rewrite Z2N.id by lia. Z.div_mod_to_equations; lia.
Qed.

Lemma pad_head_digit (w : nat) (n : Z) (rest : jstring) :
  0 <= n ->
  match pad (S w) n ++ rest with
  | c :: _ => is_digit c = true
  | [] => False
  end.
Proof.
  revert n rest; induction w as [|w IH]; intros n rest Hn.
  - change (pad 1 n ++ rest) with (Z.to_N (48 + n mod 10) :: rest).
    pose proof (Z.mod_pos_bound n 10 ltac:(lia)).
    unfold is_digit. apply andb_true_iff. split; apply N.leb_le; lia.
  - change (pad (S (S w)) n) with (pad (S w) (n / 10) ++ [Z.to_N (48 + n mod 10)]).
    rewrite <- app_assoc. apply IH. Z.div_mod_to_equations; lia.
Qed.

Lemma read_year_format (y : Z) (rest : jstring) :
  -999999 <= y <= 999999 ->
  read_year (format_year y ++ rest) = Some (y, rest).
Proof.
  intros Hy. unfold format_year.
  destruct ((0 <=? y) && (y <=? 9999)) eqn:E.
  - apply andb_true_iff in E as [E1 E2].
    apply Z.leb_le in E1, E2.
    pose proof (pad_head_digit 3 y rest E1) as Hh.
    pose proof (read_digits_pad 4 y 0 rest ltac:(simpl; lia)) as Hr.
    unfold read_year.
    destruct (pad 4 y ++ rest) as [|c s'] eqn:Hp; [contradiction|].
    assert (N.eqb c 43 = false /\ N.eqb c 45 = false) as [-> ->].
    { unfold is_digit in Hh. apply andb_true_iff in Hh as [H1 H2].
      apply N.leb_le in H1, H2. split; apply N.eqb_neq; lia. }
    rewrite Hr. repeat f_equal; lia.
  - assert (Hout : y < 0 \/ 9999 < y).
    { apply andb_false_iff in E as [E|E]; apply Z.leb_gt in E; lia. }
    pose proof (read_digits_pad 6 (Z.abs y) 0 rest ltac:(simpl; lia)) as Hr.
    destruct (y <? 0) eqn:En; [apply Z.ltb_lt in En | apply Z.ltb_ge in En].
    + change ((45%N :: pad 6 (Z.abs y)) ++ rest) with (45%N :: pad 6 (Z.abs y) ++ rest).
      unfold read_year. change (N.eqb 45 43) with false.
      change (N.eqb 45 45) with true. cbv iota.
      rewrite Hr. repeat f_equal; lia.
    + change ((43%N :: pad 6 (Z.abs y)) ++ rest) with (43%N :: pad 6 (Z.abs y) ++ rest).
      unfold read_year. change (N.eqb 43 43) with true. cbv iota.
      rewrite Hr. repeat f_equal; lia.
Qed.

Lemma expect_head (c : N) (rest : jstring) :
  expect c ([c] ++ rest) = Some rest.
Proof. simpl. rewrite N.eqb_refl. reflexivity. Qed.

Lemma read_two (n : Z) (rest : jstring) :
  0 <= n < 100 -> read_digits 2 (pad 2 n ++ rest) 0 = Some (n, rest).
Proof.
  intros Hn. rewrite read_digits_pad by (change (10 ^ Z.of_nat 2) with 100; lia).
  repeat f_equal; lia.
Qed.

Lemma read_three (n : Z) (rest : jstring) :
  0 <= n < 1000 -> read_digits 3 (pad 3 n ++ rest) 0 = Some (n, rest).
Proof.
  intros Hn. rewrite read_digits_pad by (change (10 ^ Z.of_nat 3) with 1000; lia).
  repeat f_equal; lia.
Qed.

(** The fields written by [format] are read back unchanged. *)
Lemma read_fields_format (f : fields) :
  -999999 <= year f <= 999999 ->
  0 <= month f < 100 -> 0 <= day f < 100 -> 0 <= hour f < 100 ->
  0 <= minute f < 100 -> 0 <= second f < 100 -> 0 <= millis f < 1000 ->
  read_fields (format f) = Some f.
Proof.
  destruct f as [y mo d h mi se ms]. cbn [year month day hour minute second millis].
  intros Hy Hmo Hd Hh Hmi Hs Hms. unfold format, read_fields.
  cbn [year month day hour minute second millis].
  rewrite read_year_format by assumption. unfold bind_opt.
  rewrite expect_head, (read_two mo) by assumption.
  rewrite expect_head, (read_two d) by assumption.
  rewrite expect_head, (read_two h) by assumption.
  rewrite expect_head, (read_two mi) by assumption.
  rewrite expect_head, (read_two se) by assumption.
  rewrite expect_head, (read_three ms) by assumption.
  reflexivity.
Qed.

Lemma fields_of_time_valid (t : Z) :
  Z.abs t <= 8640000000000000 ->
  is_iso_timestamp (format (fields_of_time t)) = true.
Proof.
  intros Ht. unfold is_iso_timestamp, fields_of_time.
  assert (Hdays : -100000000 <= t / 86400000 <= 100000000)
    by (Z.div_mod_to_equations; lia).
  pose proof (civil_from_days_bounds _ Hdays) as Hc.
  destruct (civil_from_days (t / 86400000)) as [[y m] d].
  destruct Hc as (Hm & Hd & Hy).
  set (ms := t mod 86400000).
  assert (Hms : 0 <= ms < 86400000) by (apply Z.mod_pos_bound; lia).
  assert (Hh : 0 <= ms / 3600000 < 24) by (Z.div_mod_to_equations; lia).
  assert (Hmi : 0 <= (ms / 60000) mod 60 < 60) by (apply Z.mod_pos_bound; lia).
  assert (Hs : 0 <= (ms / 1000) mod 60 < 60) by (apply Z.mod_pos_bound; lia).
  assert (Hml : 0 <= ms mod 1000 < 1000) by (apply Z.mod_pos_bound; lia).
  rewrite read_fields_format by (simpl; lia).
  unfold fields_in_range. simpl.
  repeat (apply andb_true_iff; split);
    first [apply Z.leb_le; lia | apply Z.ltb_lt; lia].
Qed.

End JsDateFacts.

(** ** Property reads *)

Lemma join_throws (convert : value -> Res jstring) (l : list value) (x : exn) :
  (forall element, In element l ->
                   forall y, convert element = Throw y -> y = TypeError) ->
  join convert l = Throw x -> x = TypeError.
Proof.
  induction l as [|element rest IH]; intros Hall; [discriminate|].
  cbn [join]. fold (join convert).
  destruct (is_nullish element).
  - cbn [bindR]. destruct (join convert rest) as [r|y] eqn:E; cbn [bindR].
    + discriminate.
    + intros H. injection H as <-. apply IH; [|reflexivity].
      intros el Hin. apply Hall. right. exact Hin.
  - destruct (convert element) as [next|y] eqn:Ec; cbn [bindR].
    + destruct (join convert rest) as [r|z] eqn:E; cbn [bindR].
      * discriminate.
      * intros H. injection H as <-. apply IH; [|reflexivity].
        intros el Hin. apply Hall. right. exact Hin.
    + intros H. injection H as <-. apply (Hall element (or_introl eq_refl) y Ec).
Qed.

(** The only exception of [ToString] is the TypeError. *)
Lemma ToString_throws :
  forall (v : value) (x : exn), ToString v = Throw x -> x = TypeError.
Proof.
  fix IH 1. intros [| |b|n|s|items|members] x; cbn [ToString]; try discriminate.
  - apply join_throws. revert items. fix IHl 1.
    intros [|element rest] el Hin.
    + destruct Hin.
    + destruct Hin as [<-|Hin]; [apply IH | apply (IHl rest el Hin)].
  - destruct (has_own members (str "toString")); [|discriminate].
    intros H. injection H as <-. reflexivity.
Qed.

Lemma get_prop (v : value) (name : string) :
  is_nullish v = false -> get v name = Ok (prop v name).
Proof. destruct v; simpl; intros H; try discriminate; reflexivity. Qed.

Lemma get_opt_prop (v : value) (name : string) :
  get_opt v name = Ok (prop v name).
Proof. destruct v; reflexivity. Qed.

Lemma get_null (v : value) (name : string) :
  is_nullish v = true -> get v name = Throw TypeError.
Proof. destruct v; simpl; intros H; try discriminate; reflexivity. Qed.

(** ** Running the monad *)

Lemma bind_lift_ok {A B} (a : A) (k : A -> M B) (st : State) :
  (x <- lift (Ok a) ;; k x) st = k a st.
Proof. reflexivity. Qed.

Lemma bind_ok {A B} (m : M A) (k : A -> M B) (st st' : State) (a : A) :
  m st = (Ok a, st') -> (x <- m ;; k x) st = k a st'.
Proof. intros H. unfold bind. rewrite H. reflexivity. Qed.

Lemma bind_throw {A B} (m : M A) (k : A -> M B) (st st' : State) (e : exn) :
  m st = (Throw e, st') -> (x <- m ;; k x) st = (Throw e, st').
Proof. intros H. unfold bind. rewrite H. reflexivity. Qed.

Lemma for_each_skip {A} (x : A) (rest : list A) (body : A -> M unit) (st st' : State) :
  body x st = (Ok tt, st') ->
  for_each (x :: rest) body st = for_each rest body st'.
Proof. intros H. simpl. unfold bind. rewrite H. reflexivity. Qed.

Lemma for_each_throw {A} (pre : list A) (x : A) (post : list A) (body : A -> M unit)
    (st st1 st2 : State) (e : exn) :
  for_each pre body st = (Ok tt, st1) ->
  body x st1 = (Throw e, st2) ->
  for_each (pre ++ x :: post) body st = (Throw e, st2).
Proof.
  intros Hpre Hx. rewrite for_each_app.
  unfold bind. rewrite Hpre. simpl. unfold bind. rewrite Hx. reflexivity.
Qed.

Section Properties.

Variable P : Platform.

(** ** Records *)

Lemma process_message_data (callbacks : StreamCallbacks) (message : jstring) (st : State) :
  has_data message = true ->
  process_message P callbacks message st
  = (data <- parse_json (event_data message) ;;
     dispatch P callbacks (event_type message) data) st.
Proof.
  unfold has_data, process_message, event_data, event_type. intros H.
  apply andb_true_iff in H as [H1 H2].
  apply negb_true_iff in H1, H2. rewrite H1.
  destruct (scan_lines message) as [ty dat]. simpl in *. rewrite H2.
  reflexivity.
Qed.

Lemma process_message_parsed (callbacks : StreamCallbacks) (message : jstring)
    (data : value) (st : State) :
  has_data message = true ->
  JSON_parse (event_data message) = Some data ->
  process_message P callbacks message st
  = dispatch P callbacks (event_type message) data st.
Proof.
  intros Hd Hp. rewrite process_message_data by assumption.
  unfold parse_json. rewrite Hp. reflexivity.
Qed.

Lemma process_message_malformed (callbacks : StreamCallbacks) (message : jstring) (st : State) :
  malformed message = true ->
  process_message P callbacks message st = (Throw SyntaxError, st).
Proof.
  unfold malformed. intros H. apply andb_true_iff in H as [Hd Hp].
  rewrite process_message_data by assumption.
  unfold parse_json. destruct (JSON_parse (event_data message)); [discriminate|].
  reflexivity.
Qed.

Lemma process_message_no_data (callbacks : StreamCallbacks) (message : jstring) (st : State) :
  is_empty (event_data message) = true ->
  process_message P callbacks message st = (Ok tt, st).
Proof.
  unfold process_message, event_data. intros H.
  destruct (is_empty (trim message)); [reflexivity|].
  destruct (scan_lines message) as [ty dat]. simpl in H. rewrite H.
  reflexivity.
Qed.

(** ** Timestamps *)

Lemma safeToISOString_parsed (v : value) (t : Z) (st : State) :
  truthy v = true ->
  Date_value P v = Ok (Some t) ->
  (Z.abs t <= 8640000000000000)%Z ->
  safeToISOString P v st = (Ok (JsDate.format (JsDate.fields_of_time t)), st).
Proof.
  intros Ht Hd Hr. unfold safeToISOString. rewrite Ht.
  change (negb true) with false. cbv iota.
  unfold try_catch, new_Date, bind, lift, ret, JsDate.TimeClip.
  rewrite Hd. apply Z.leb_le in Hr. rewrite Hr. reflexivity.
Qed.

Hypothesis clock_ok : clock_in_range P.

Lemma now_ISOString_run (st : State) :
  now_ISOString P st
  = (Ok (now_at P (ticks st)), mkState (S (ticks st)) (calls st)).
Proof.
  unfold now_ISOString, new_Date_now, Date_now, bind, ret, lift, JsDate.TimeClip.
  pose proof (clock_ok (ticks st)) as Hk. apply Z.leb_le in Hk.
  rewrite Hk. reflexivity.
Qed.

Lemma now_at_valid (k : nat) : JsDate.is_iso_timestamp (now_at P k) = true.
Proof. apply JsDateFacts.fields_of_time_valid. apply clock_ok. Qed.

Lemma safeToISOString_fallback (v : value) (st : State) :
  truthy v = false \/ unparsable P v = true ->
  safeToISOString P v st
  = (Ok (now_at P (ticks st)), mkState (S (ticks st)) (calls st)).
Proof.
  unfold safeToISOString, unparsable. intros [H|H].
  - rewrite H. apply now_ISOString_run.
  - destruct (truthy v); [|apply now_ISOString_run].
    change (negb true) with false. cbv iota.
    unfold try_catch, new_Date, bind, lift, ret.
    destruct (Date_value P v) as [[t|]|e].
    + destruct (JsDate.TimeClip t); [discriminate|].
      rewrite now_ISOString_run. reflexivity.
    + rewrite now_ISOString_run. reflexivity.
    + apply now_ISOString_run.
Qed.

Lemma safeToISOString_run (v : value) (st : State) :
  exists (s : jstring) (st' : State),
    safeToISOString P v st = (Ok s, st')
    /\ JsDate.is_iso_timestamp s = true
    /\ calls st' = calls st
    /\ ticks st <= ticks st'.
Proof.
  destruct (truthy v) eqn:Ht; [destruct (unparsable P v) eqn:Hu|].
  2: { unfold unparsable in Hu. unfold safeToISOString. rewrite Ht.
       change (negb true) with false. cbv iota.
       unfold try_catch, new_Date, bind, lift, ret.
       destruct (Date_value P v) as [[t|]|e]; try discriminate.
       destruct (JsDate.TimeClip t) as [t'|] eqn:Hc; [|discriminate].
       exists (JsDate.format (JsDate.fields_of_time t')), st.
       repeat split; try reflexivity; try lia.
       apply JsDateFacts.fields_of_time_valid.
       unfold JsDate.TimeClip in Hc.
       destruct (Z.leb_spec (Z.abs t) 8640000000000000); [|discriminate].
       injection Hc as <-. assumption. }
  all: rewrite safeToISOString_fallback by auto;
    eexists _, _; repeat split; try reflexivity; simpl; try lia;
    apply now_at_valid.
Qed.

(** ** The attachment loop *)

Lemma push_attachment_run (acc : list MessageAttachment.t) (att : value) (st : State) :
  is_nullish att = false ->
  exists (new : list MessageAttachment.t) (st' : State),
    push_attachment P acc att st = (Ok (acc ++ new), st')
    /\ calls st' = calls st
    /\ ticks st <= ticks st'
    /\ Forall2 extracted_from (filter eligible [att]) new.
Proof.
  intros Hn. unfold push_attachment.
  rewrite !(get_prop att) by assumption. rewrite bind_lift_ok.
  unfold filter, eligible.
  destruct (prop att "url") as [| |b|n|u|l|m] eqn:Hu;
    try (exists [], st; rewrite app_nil_r; repeat split; auto; constructor).
  change (truthy (VString u)) with (negb (is_empty u)).
  destruct (is_empty u) eqn:He;
    [change (negb true) with false | change (negb false) with true]; cbv iota.
  - exists [], st. rewrite app_nil_r. repeat split; auto; try constructor.
  - rewrite bind_lift_ok.
    destruct (truthy (prop att "id")) eqn:Hi.
    + eexists [_], st. unfold bind, ret, lift. repeat split; auto.
      constructor; [|constructor].
      unfold extracted_from. simpl. rewrite Hi. auto.
    + eexists [_], (mkState (S (ticks st)) (calls st)).
      unfold bind, ret, lift, Date_now. repeat split; simpl; auto.
      constructor; [|constructor].
      unfold extracted_from. simpl. rewrite Hi. repeat split; eauto.
Qed.

Lemma push_attachments_run (items : list value) :
  forall (acc : list MessageAttachment.t) (st : State),
    forallb (fun att => negb (is_nullish att)) items = true ->
    exists (new : list MessageAttachment.t) (st' : State),
      push_attachments P acc items st = (Ok (acc ++ new), st')
      /\ calls st' = calls st
      /\ ticks st <= ticks st'
      /\ Forall2 extracted_from (filter eligible items) new.
Proof.
  induction items as [|att rest IH]; intros acc st Hall.
  - exists [], st. simpl. rewrite app_nil_r. repeat split; auto; try constructor.
  - simpl in Hall. apply andb_true_iff in Hall as [Hatt Hrest].
    apply negb_true_iff in Hatt.
    destruct (push_attachment_run acc att st Hatt) as (n1 & st1 & H1 & C1 & T1 & F1).
    destruct (IH (acc ++ n1) st1 Hrest) as (n2 & st2 & H2 & C2 & T2 & F2).
    exists (n1 ++ n2), st2. simpl push_attachments.
    unfold bind. rewrite H1, H2, app_assoc.
    repeat split; [congruence | lia |].
    change (att :: rest) with ([att] ++ rest).
    rewrite filter_app. apply Forall2_app; assumption.
Qed.

Lemma extract_attachments_run (data : value) (st : State) :
  is_nullish data = false ->
  entries_not_null data = true ->
  exists (atts : list MessageAttachment.t) (st' : State),
    extract_attachments P data st = (Ok atts, st')
    /\ calls st' = calls st
    /\ ticks st <= ticks st'
    /\ Forall2 extracted_from (filter eligible (attachment_entries data)) atts.
Proof.
  intros Hn Hall. unfold extract_attachments.
  rewrite (get_prop data) by assumption. rewrite bind_lift_ok, get_opt_prop, bind_lift_ok.
  unfold entries_not_null, attachment_entries, content_attachments in *.
  destruct (prop (prop data "content") "attachments") as [| |b|n|u|items|m].
  6: { change (truthy (VArray items) && isArray (VArray items)) with true.
       cbv iota.
       destruct (push_attachments_run items [] st Hall) as (new & st' & H & C & T & F).
       exists new, st'. auto. }
  all: exists [], st;
    match goal with
    | |- context [isArray ?v] => change (isArray v) with false
    end;
    rewrite andb_false_r; repeat split; auto; constructor.
Qed.

(** A record without a [null] entry: the two message builders run to
    their handler call. *)
Lemma user_message_run (callbacks : StreamCallbacks) (data : value) (st : State) :
  is_nullish data = false ->
  entries_not_null data = true ->
  exists (atts : list MessageAttachment.t) (iso : jstring) (st1 st2 : State),
    extract_attachments P data st = (Ok atts, st1)
    /\ safeToISOString P (prop data "createdAt") st1 = (Ok iso, st2)
    /\ calls st2 = calls st
    /\ user_message P callbacks data st
       = invoke (onUserMessage callbacks)
           (OnUserMessage
              (Message.mk (prop data "id")
                 (or_else (prop (prop data "content") "text") (VString []))
                 Message.user iso (non_empty atts))) st2.
Proof.
  intros Hn Hall.
  destruct (extract_attachments_run data st Hn Hall) as (atts & st1 & H1 & C1 & _ & _).
  destruct (safeToISOString_run (prop data "createdAt") st1) as (iso & st2 & H2 & _ & C2 & _).
  exists atts, iso, st1, st2. repeat split; [assumption | assumption | congruence |].
  unfold user_message, content_text, bind, lift, ret.
  rewrite H1, !(get_prop data), get_opt_prop, H2 by assumption.
  reflexivity.
Qed.

Lemma agent_message_run (callbacks : StreamCallbacks) (data : value) (st : State) :
  is_nullish data = false ->
  entries_not_null data = true ->
  exists (atts : list MessageAttachment.t) (iso : jstring) (st1 st2 : State),
    extract_attachments P data st = (Ok atts, st1)
    /\ safeToISOString P (prop data "createdAt") st1 = (Ok iso, st2)
    /\ calls st2 = calls st
    /\ agent_message P callbacks data st
       = invoke (onComplete callbacks)
           (OnComplete
              (Message.mk (prop data "id")
                 (or_else (prop (prop data "content") "text") (VString []))
                 Message.assistant iso (non_empty atts))
              (mkUsage 0 0)) st2.
Proof.
  intros Hn Hall.
  destruct (extract_attachments_run data st Hn Hall) as (atts & st1 & H1 & C1 & _ & _).
  destruct (safeToISOString_run (prop data "createdAt") st1) as (iso & st2 & H2 & _ & C2 & _).
  exists atts, iso, st1, st2. repeat split; [assumption | assumption | congruence |].
  unfold agent_message, content_text, bind, lift, ret.
  rewrite !(get_prop data), get_opt_prop, H1, H2 by assumption.
  reflexivity.
Qed.

(** ** The dispatch *)

Lemma dispatch_connected (callbacks : StreamCallbacks) (data : value) (st : State) :
  dispatch P callbacks (str "connected") data st
  = invoke (onStart callbacks) OnStart st.
Proof. reflexivity. Qed.

Lemma dispatch_error (callbacks : StreamCallbacks) (data : value) (st : State) :
  dispatch P callbacks (str "error") data st = error_event callbacks data st.
Proof. reflexivity. Qed.

Lemma dispatch_unknown (callbacks : StreamCallbacks) (eventType : jstring)
    (data : value) (st : State) :
  known_event eventType = false ->
  dispatch P callbacks eventType data st = (Ok tt, st).
Proof.
  unfold known_event, dispatch. intros H.
  apply orb_false_iff in H as [H Hd]. apply orb_false_iff in H as [H He].
  apply orb_false_iff in H as [Hc Hm].
  rewrite Hc, Hm, He, Hd. reflexivity.
Qed.

(** The three tests on the payload of a [message] record, in the order
    of the source. *)
Lemma dispatch_message (callbacks : StreamCallbacks) (data : value) (st : State) :
  is_nullish data = false ->
  dispatch P callbacks (str "message") data st
  = (if is_string (prop data "type") (str "user") then user_message P callbacks data
     else if is_string (prop data "type") (str "thinking")
          then invoke (onThinking callbacks) OnThinking
     else if truthy (prop data "isAgent") || is_string (prop data "type") (str "agent")
          then agent_message P callbacks data
     else ret tt) st.
Proof.
  intros Hn.
  change (dispatch P callbacks (str "message") data)
    with (ty <- lift (get data "type") ;;
          if is_string ty (str "user") then user_message P callbacks data
          else if is_string ty (str "thinking")
               then invoke (onThinking callbacks) OnThinking
          else a <- lift (get data "isAgent") ;;
               if truthy a || is_string ty (str "agent")
               then agent_message P callbacks data
               else ret tt).
  rewrite !(get_prop data) by assumption. rewrite bind_lift_ok.
  destruct (is_string (prop data "type") (str "user")); [reflexivity|].
  destruct (is_string (prop data "type") (str "thinking")); reflexivity.
Qed.

Lemma error_event_run (callbacks : StreamCallbacks) (data : value) (st : State) :
  onError callbacks = true ->
  is_nullish data = false ->
  error_event callbacks data st
  = (Ok tt,
     mkState (ticks st)
       (calls st ++
        [OnError (or_else (prop data "message")
                    (or_else (prop data "error") (VString (str "Unknown error"))))])).
Proof.
  intros Hcb Hn. unfold error_event. rewrite Hcb.
  rewrite !(get_prop data) by assumption. rewrite bind_lift_ok.
  unfold or_else. destruct (truthy (prop data "message")); reflexivity.
Qed.

(** The attachment loop makes no call, also when it throws. *)

Lemma push_attachment_calls (acc : list MessageAttachment.t) (att : value) (st : State) :
  calls (snd (push_attachment P acc att st)) = calls st.
Proof.
  unfold push_attachment. destruct (is_nullish att) eqn:Hn.
  - rewrite (get_null att "url" Hn). reflexivity.
  - rewrite !(get_prop att) by assumption. rewrite bind_lift_ok.
    destruct (prop att "url"); try reflexivity.
    destruct (truthy (VString s)); [|reflexivity].
    rewrite bind_lift_ok. destruct (truthy (prop att "id")); reflexivity.
Qed.

Lemma push_attachments_calls (items : list value) :
  forall (acc : list MessageAttachment.t) (st : State),
    calls (snd (push_attachments P acc items st)) = calls st.
Proof.
  induction items as [|att rest IH]; intros acc st; [reflexivity|].
  simpl. unfold bind.
  pose proof (push_attachment_calls acc att st) as H.
  destruct (push_attachment P acc att st) as [[acc'|e] st1]; simpl in H.
  - rewrite IH. exact H.
  - exact H.
Qed.

Lemma extract_attachments_calls (data : value) (st : State) :
  calls (snd (extract_attachments P data st)) = calls st.
Proof.
  unfold extract_attachments. destruct (is_nullish data) eqn:Hn.
  - rewrite (get_null data "content" Hn). reflexivity.
  - rewrite (get_prop data) by assumption.
    rewrite bind_lift_ok, get_opt_prop, bind_lift_ok.
    destruct (truthy _ && isArray _); [|reflexivity].
    destruct (prop (prop data "content") "attachments"); try reflexivity.
    apply push_attachments_calls.
Qed.

(** Whatever the payload, the user branch either stops before its call
    or ends with the single call of [onUserMessage]. *)
Lemma user_message_calls (callbacks : StreamCallbacks) (data : value) (st : State) :
  let st' := snd (user_message P callbacks data st) in
  calls st' = calls st
  \/ exists m : Message.t, calls st' = calls st ++ [OnUserMessage m].
Proof.
  cbv zeta. unfold user_message, content_text, bind, lift, ret.
  pose proof (extract_attachments_calls data st) as H1.
  destruct (extract_attachments P data st) as [[atts|e] st1]; simpl in H1;
    [|left; exact H1].
  destruct (is_nullish data) eqn:Hn.
  - rewrite (get_null data "id" Hn). left. exact H1.
  - rewrite !(get_prop data), get_opt_prop by assumption.
    destruct (safeToISOString_run (prop data "createdAt") st1)
      as (iso & st2 & H2 & _ & C2 & _).
    rewrite H2. unfold invoke.
    destruct (onUserMessage callbacks); simpl.
    + right. eexists. rewrite C2, H1. reflexivity.
    + left. congruence.
Qed.

End Properties.

(* ===================================================================== *)
(** * Part III.  The claims                                               *)
(* ===================================================================== *)

(** ** C1: a record with a malformed payload *)

(** C1, counterexample.  The claim says that a record whose [data:]
    payload is not valid JSON is skipped without an exception and that
    later records still fire their callbacks.  On the stream made of a
    [message] record with the payload [{bad] followed by a well-formed
    [connected] record, [sendMessage] rejects with the SyntaxError of
    [JSON.parse] and [onStart] is never called. *)
Lemma malformed_record_counterexample :
  let run := sendMessage demo_platform all_callbacks
               (stream ["event: message|data: {bad||event: connected|data: {}||"%string])
               initial in
  run = (Throw SyntaxError, initial)
  /\ ~ (exists st', run = (Ok tt, st') /\ In OnStart (calls st')).
Proof.
  assert (H : sendMessage demo_platform all_callbacks
               (stream ["event: message|data: {bad||event: connected|data: {}||"%string])
               initial = (Throw SyntaxError, initial)) by (vm_compute; reflexivity).
  cbv zeta. rewrite H. split; [reflexivity|].
  intros (st' & Hrun & _). discriminate.
Qed.

(** C1, as amended.  Once the response stream is established, a record
    that passes the guards of the loop and whose [data:] payload is not
    valid JSON makes [sendMessage] reject with the SyntaxError of
    [JSON.parse]: the callbacks of the records before it have fired, and
    no callback fires for it or for any record after it. *)
Theorem malformed_record_rejects
    (P : Platform) (callbacks : StreamCallbacks) (response : Response)
    (chunks : list (list Byte.byte)) (pre post : list jstring) (bad : jstring)
    (st st1 : State) :
  ok response = true ->
  body response = Some chunks ->
  complete_records chunks = pre ++ bad :: post ->
  malformed bad = true ->
  for_each pre (process_message P callbacks) st = (Ok tt, st1) ->
  sendMessage P callbacks response st = (Throw SyntaxError, st1).
Proof.
  intros Hok Hbody Hrec Hbad Hpre.
  rewrite (sendMessage_spec P callbacks response chunks st Hok Hbody), Hrec.
  apply for_each_throw with (st1 := st1); [assumption|].
  apply process_message_malformed. assumption.
Qed.

(** The amended C1 on a stream whose second record is malformed: the
    first record has called [onStart], the third never calls
    [onThinking]. *)
Lemma malformed_record_rejects_witness :
  let response := stream ["event: connected|data: {}||event: message|data: {bad||"%string;
                          "event: message|data: {'type':'thinking'}||"%string] in
  ok response = true
  /\ malformed (wire "event: message|data: {bad") = true
  /\ sendMessage demo_platform all_callbacks response initial
     = (Throw SyntaxError, mkState 0 [OnStart]).
Proof.
  cbv zeta. split; [reflexivity|]. split; [vm_compute; reflexivity|].
  apply (malformed_record_rejects demo_platform all_callbacks
           (stream ["event: connected|data: {}||event: message|data: {bad||"%string;
                    "event: message|data: {'type':'thinking'}||"%string])
           (map wire_bytes
              ["event: connected|data: {}||event: message|data: {bad||"%string;
               "event: message|data: {'type':'thinking'}||"%string])
           [wire "event: connected|data: {}"]
           [wire "event: message|data: {'type':'thinking'}"]
           (wire "event: message|data: {bad") initial).
  - reflexivity.
  - reflexivity.
  - vm_compute. reflexivity.
  - vm_compute. reflexivity.
  - vm_compute. reflexivity.
Defined.

(** ** C2: the end of the stream *)

(** C2, counterexample.  The claim says that after the reader reports
    the end of the stream a record left in the buffer without its blank
    line is still dispatched.  The scenario of the specification (the
    stream ends right after a [data:] line of type [complete]) and an
    [error] record without its blank line both end with no callback at
    all, whereas the same [error] record followed by the blank line calls
    [onError]. *)
Lemma no_flush_counterexample :
  sendMessage demo_platform all_callbacks
    (stream ["data: {'type':'complete','imageUrl':'x'}"%string]) initial
  = (Ok tt, initial)
  /\ sendMessage demo_platform all_callbacks
       (stream ["event: error|data: {'message':'boom'}"%string]) initial
     = (Ok tt, initial)
  /\ sendMessage demo_platform all_callbacks
       (stream ["event: error|data: {'message':'boom'}||"%string]) initial
     = (Ok tt, mkState 0 [OnError (VString (str "boom"))]).
Proof. repeat split; vm_compute; reflexivity. Qed.

(** C2, as amended.  When the reader reports the end of the stream,
    [sendMessage] returns without a flush: the records processed are the
    segments of the decoded text that a blank line closes, and what
    follows the last blank line is discarded whatever it holds; a stream
    without any blank line makes no call at all. *)
Theorem no_flush_at_end_of_stream
    (P : Platform) (callbacks : StreamCallbacks) (response : Response)
    (chunks : list (list Byte.byte)) (st : State) :
  ok response = true ->
  body response = Some chunks ->
  sendMessage P callbacks response st
  = for_each (removelast (split blank_line (stream_text chunks)))
      (process_message P callbacks) st
  /\ (find_sep blank_line (stream_text chunks) = None ->
      sendMessage P callbacks response st = (Ok tt, st)).
Proof.
  intros Hok Hbody.
  rewrite (sendMessage_spec P callbacks response chunks st Hok Hbody).
  unfold complete_records. rewrite pop_eq. simpl fst.
  split; [reflexivity|].
  intros Hnone. rewrite (split_unfold blank_line _ blank_line_not_nil), Hnone.
  reflexivity.
Qed.

Lemma no_flush_at_end_of_stream_witness :
  let response := stream ["event: error|data: {'mess"%string; "age':'boom'}"%string] in
  ok response = true
  /\ find_sep blank_line
       (stream_text (map wire_bytes ["event: error|data: {'mess"%string; "age':'boom'}"%string]))
     = None
  /\ sendMessage demo_platform all_callbacks response initial = (Ok tt, initial).
Proof.
  cbv zeta. split; [reflexivity|]. split; [vm_compute; reflexivity|].
  apply (proj2 (no_flush_at_end_of_stream demo_platform all_callbacks
                  (stream ["event: error|data: {'mess"%string; "age':'boom'}"%string])
                  (map wire_bytes ["event: error|data: {'mess"%string; "age':'boom'}"%string])
                  initial eq_refl eq_refl)).
  vm_compute. reflexivity.
Defined.

(** ** C3: chunk boundaries *)

(** A chunk boundary inside the two bytes of U+00E9, and another inside
    the blank line that closes the record. *)
Example chunks_cut_a_character :
  sendMessage demo_platform all_callbacks
    (mkResponse 200
       (Some [wire_bytes "event: message|data: {'isAgent':true,'id':'m','content':{'text':'"
                ++ [Byte.xc3];
              [Byte.xa9] ++ wire_bytes "'}}|";
              wire_bytes "|"]))
    initial
  = (Ok tt,
     mkState 1
       [OnComplete
          (Message.mk (VString (str "m")) (VString [233%N]) Message.assistant
             (str "2023-11-14T22:13:20.000Z") None)
          (mkUsage 0 0)]).
Proof. vm_compute. reflexivity. Qed.

(** C3.  For every body and every way of cutting it into chunks, also in
    the middle of a line, of a record or of a multi-byte character,
    [sendMessage] ends in the same way, with the same calls in the same
    order, as on the whole body delivered as one chunk. *)
Theorem chunk_boundary_independence
    (P : Platform) (callbacks : StreamCallbacks) (status : N)
    (chunks : list (list Byte.byte)) (st : State) :
  sendMessage P callbacks (mkResponse status (Some chunks)) st
  = sendMessage P callbacks (mkResponse status (Some [concat chunks])) st.
Proof.
  apply sendMessage_same_bytes. simpl. rewrite app_nil_r. reflexivity.
Qed.

(** ** C4: failure before the stream *)

(** C4, counterexample.  The claim says that a response with an
    unsuccessful status whose body does not carry a JSON [error] message
    is rejected with the message [API error: <status>].  For status 500
    with the plain-text body [Internal Server Error], which is not JSON,
    the rejection carries [Unknown error]: the handler of the failed
    [response.json()] supplies an object whose [error] is that text. *)
Lemma pre_stream_failure_counterexample :
  let run := sendMessage demo_platform all_callbacks
               (mkResponse 500 (Some [wire_bytes "Internal Server Error"])) initial in
  run = (Throw (Error (str "Unknown error")), initial)
  /\ run <> (Throw (Error (str "API error: 500")), initial).
Proof.
  assert (H : sendMessage demo_platform all_callbacks
                (mkResponse 500 (Some [wire_bytes "Internal Server Error"])) initial
              = (Throw (Error (str "Unknown error")), initial))
    by (vm_compute; reflexivity).
  cbv zeta. rewrite H. split; [reflexivity|]. intros E. vm_compute in E. discriminate.
Qed.

(** C4, as amended.  When the status of the response is not successful,
    or the response has no body, [sendMessage] rejects and no callback
    fires.  With a successful status and no body the error carries
    [No response body].  With an unsuccessful status the error carries
    [Unknown error] when the body is not valid JSON; when the body is the
    JSON [null] the rejection is the TypeError of reading its [error];
    otherwise the message of the error is the conversion to a string of
    the [error] member of the body if that is truthy, and of
    [API error: <status>] if not, and when that conversion throws (an
    object with a member [toString], also inside arrays) the rejection is
    its TypeError. *)
Theorem pre_stream_failure
    (P : Platform) (callbacks : StreamCallbacks) (response : Response) (st : State) :
  ok response = false \/ body response = None ->
  exists e : exn,
    sendMessage P callbacks response st = (Throw e, st)
    /\ (ok response = true -> e = Error (str "No response body"))
    /\ (ok response = false ->
        match JSON_parse (body_text response) with
        | None => e = Error (str "Unknown error")
        | Some v =>
            if is_nullish v then e = TypeError
            else
              match ToString (or_else (prop v "error")
                                (VString (str "API error: " ++ of_N (status response))))
              with
              | Ok message => e = Error message
              | Throw _ => e = TypeError
              end
        end)
    /\ (ok response = false ->
        forall v, JSON_parse (body_text response) = Some v ->
        is_nullish v = false ->
        (forall message, prop v "error" = VString message ->
                         is_empty message = false -> e = Error message)
        /\ (truthy (prop v "error") = false ->
            e = Error (str "API error: " ++ of_N (status response)))).
Proof.
  intros H.
  assert (Hmain : exists e : exn,
    sendMessage P callbacks response st = (Throw e, st)
    /\ (ok response = true -> e = Error (str "No response body"))
    /\ (ok response = false ->
        match JSON_parse (body_text response) with
        | None => e = Error (str "Unknown error")
        | Some v =>
            if is_nullish v then e = TypeError
            else
              match ToString (or_else (prop v "error")
                                (VString (str "API error: " ++ of_N (status response))))
              with
              | Ok message => e = Error message
              | Throw _ => e = TypeError
              end
        end)).
  { unfold sendMessage, json_or_unknown.
    destruct (ok response) eqn:Hok.
    - destruct H as [H|H]; [discriminate|]. rewrite H.
      change (negb true) with false. cbv iota.
      eexists. split; [reflexivity|]. split; [reflexivity | discriminate].
    - change (negb false) with true. cbv iota.
      destruct (JSON_parse (body_text response)) as [v|] eqn:Hp.
      + destruct (is_nullish v) eqn:Hn.
        * rewrite (get_null v "error" Hn).
          eexists. split; [reflexivity|]. split; [discriminate|].
          intros _. reflexivity.
        * rewrite (get_prop v "error" Hn).
          unfold bind, lift, throw_new_Error, bindR.
          destruct (ToString (or_else (prop v "error")
                                (VString (str "API error: " ++ of_N (status response)))))
            as [message|x] eqn:Hs.
          -- eexists. split; [reflexivity|]. split; [discriminate|].
             intros _. reflexivity.
          -- apply ToString_throws in Hs. subst x.
             eexists. split; [reflexivity|]. split; [discriminate|].
             intros _. reflexivity.
      + eexists. split; [reflexivity|]. split; [discriminate|].
        intros _. reflexivity. }
  destruct Hmain as (e & Hrun & Hbody & Hstatus).
  exists e. split; [exact Hrun|]. split; [exact Hbody|]. split; [exact Hstatus|].
  intros Hok v Hv Hn. specialize (Hstatus Hok). rewrite Hv, Hn in Hstatus.
  split.
  - intros message Hm He. unfold or_else in Hstatus. rewrite Hm in Hstatus.
    cbn [truthy ToString] in Hstatus. rewrite He in Hstatus. exact Hstatus.
  - intros Hf. unfold or_else in Hstatus. rewrite Hf in Hstatus. exact Hstatus.
Qed.

(** The scenario of the specification: status 402 with the body
    [{"error":"Insufficient credits"}]. *)
Lemma pre_stream_failure_witness :
  let response := mkResponse 402 (Some [wire_bytes "{'error':'Insufficient credits'}"]) in
  (ok response = false \/ body response = None)
  /\ sendMessage demo_platform all_callbacks response initial
     = (Throw (Error (str "Insufficient credits")), initial).
Proof.
  cbv zeta. split; [left; reflexivity|].
  destruct (pre_stream_failure demo_platform all_callbacks
              (mkResponse 402 (Some [wire_bytes "{'error':'Insufficient credits'}"]))
              initial (or_introl eq_refl)) as (e & Hrun & _ & He & _).
  rewrite Hrun. specialize (He eq_refl). vm_compute in He.
  rewrite He. reflexivity.
Defined.

(** The messages of other bodies with status 500: a number, an empty
    array, an object, an object with a member [toString], a falsy member,
    and [null]. *)
Example pre_stream_error_messages :
  map (fun body => fst (sendMessage demo_platform all_callbacks
                          (mkResponse 500 (Some [wire_bytes body])) initial))
    ["{'error':42}"; "{'error':[]}"; "{'error':{'code':1}}";
     "{'error':{'toString':1}}"; "{'error':0}"; "null"; "{'error':[1,'a',null]}"]%string
  = [Throw (Error (str "42")); Throw (Error []); Throw (Error (str "[object Object]"));
     Throw TypeError; Throw (Error (str "API error: 500")); Throw TypeError;
     Throw (Error (str "1,a,"))].
Proof. vm_compute. reflexivity. Qed.

(** ** C5: [error] events *)

(** C5, counterexample.  The claim says that every record with
    [event: error] calls [onError] exactly once, without throwing and
    without ending the loop.  A record with [event: error] and no [data:]
    line calls nothing (the guard of line 337 skips it); one with the
    payload [null] makes the read of [data.message] throw a TypeError,
    which ends [sendMessage] before the [connected] record that follows. *)
Lemma error_event_counterexample :
  sendMessage demo_platform all_callbacks
    (stream ["event: error||event: connected|data: {}||"%string]) initial
  = (Ok tt, mkState 0 [OnStart])
  /\ sendMessage demo_platform all_callbacks
       (stream ["event: error|data: null||event: connected|data: {}||"%string]) initial
     = (Throw TypeError, initial).
Proof. split; vm_compute; reflexivity. Qed.

(** C5, as amended.  For every record with [event: error] whose [data:]
    payload is valid JSON other than [null], [sendMessage] calls [onError]
    (when the caller provided it) exactly once, with the payload's
    [message] if truthy, otherwise its [error] if truthy, otherwise
    [Unknown error]; nothing is thrown and the loop goes on with the
    records that follow. *)
Theorem error_event_delivered
    (P : Platform) (callbacks : StreamCallbacks) (message : jstring)
    (rest : list jstring) (data : value) (st : State) :
  onError callbacks = true ->
  has_data message = true ->
  event_type message = str "error" ->
  JSON_parse (event_data message) = Some data ->
  is_nullish data = false ->
  let st' :=
    mkState (ticks st)
      (calls st ++
       [OnError (or_else (prop data "message")
                   (or_else (prop data "error") (VString (str "Unknown error"))))]) in
  process_message P callbacks message st = (Ok tt, st')
  /\ for_each (message :: rest) (process_message P callbacks) st
     = for_each rest (process_message P callbacks) st'.
Proof.
  intros Hcb Hd Hev Hp Hn st'.
  assert (H : process_message P callbacks message st = (Ok tt, st')).
  { rewrite (process_message_parsed P callbacks message data st Hd Hp), Hev.
    rewrite dispatch_error. apply error_event_run; assumption. }
  split; [exact H | apply for_each_skip; exact H].
Qed.

(** The scenario of the specification, followed by one more record. *)
Lemma error_event_delivered_witness :
  let message := wire "event: error|data: {'message':'insufficient credits'}" in
  onError all_callbacks = true
  /\ has_data message = true
  /\ event_type message = str "error"
  /\ process_message demo_platform all_callbacks message initial
     = (Ok tt, mkState 0 [OnError (VString (str "insufficient credits"))])
  /\ for_each [message; wire "event: connected|data: {}"]
       (process_message demo_platform all_callbacks) initial
     = (Ok tt, mkState 0 [OnError (VString (str "insufficient credits")); OnStart]).
Proof.
  cbv zeta. split; [reflexivity|]. split; [vm_compute; reflexivity|].
  split; [vm_compute; reflexivity|].
  pose proof (error_event_delivered demo_platform all_callbacks
                (wire "event: error|data: {'message':'insufficient credits'}")
                [wire "event: connected|data: {}"]
                (VObject [(str "message", VString (str "insufficient credits"))])
                initial eq_refl) as H.
  specialize (H ltac:(vm_compute; reflexivity) ltac:(vm_compute; reflexivity)
                ltac:(vm_compute; reflexivity) eq_refl).
  cbv zeta in H. destruct H as [H1 H2]. split.
  - rewrite H1. vm_compute. reflexivity.
  - rewrite H2. vm_compute. reflexivity.
Defined.

(** ** C9: records the dispatch has no branch for *)

(** C9, counterexample.  The claim says that every record with an event
    name outside connected/message/error/done, and every [message] record
    whose payload has none of the three shapes, is passed over and the
    records after it are processed.  The payload is parsed before the
    event name is looked at: a record [event: foo] with the payload [{bad]
    ends [sendMessage] with a SyntaxError, and a [message] record with the
    payload [null], which has none of the shapes, ends it with a
    TypeError; in both runs the [connected] record that follows is never
    reached. *)
Lemma unknown_record_counterexample :
  sendMessage demo_platform all_callbacks
    (stream ["event: foo|data: {bad||event: connected|data: {}||"%string]) initial
  = (Throw SyntaxError, initial)
  /\ sendMessage demo_platform all_callbacks
       (stream ["event: message|data: null||event: connected|data: {}||"%string]) initial
     = (Throw TypeError, initial).
Proof. split; vm_compute; reflexivity. Qed.

(** C9, as amended.  A record with no [data:] line, a record with valid
    JSON data whose event name is not one of connected/message/error/done,
    and a [message] record whose payload is valid JSON other than [null]
    and has none of the user/thinking/agent shapes: for each of them
    [sendMessage] calls no handler, throws nothing, and goes on with the
    records that follow. *)
Theorem unknown_record_tolerated
    (P : Platform) (callbacks : StreamCallbacks) (message : jstring)
    (rest : list jstring) (st : State) :
  is_empty (event_data message) = true
  \/ (exists data : value,
        has_data message = true
        /\ JSON_parse (event_data message) = Some data
        /\ (known_event (event_type message) = false
            \/ (event_type message = str "message"
                /\ is_nullish data = false
                /\ message_shape data = false))) ->
  process_message P callbacks message st = (Ok tt, st)
  /\ for_each (message :: rest) (process_message P callbacks) st
     = for_each rest (process_message P callbacks) st.
Proof.
  intros H.
  assert (Hrun : process_message P callbacks message st = (Ok tt, st)).
  { destruct H as [H | (data & Hd & Hp & H)].
    - apply process_message_no_data. exact H.
    - rewrite (process_message_parsed P callbacks message data st Hd Hp).
      destruct H as [H | (Hev & Hn & Hs)].
      + apply dispatch_unknown. exact H.
      + rewrite Hev, dispatch_message by assumption.
        unfold message_shape in Hs.
        apply orb_false_iff in Hs as [Hs Ha]. apply orb_false_iff in Hs as [Hs Hi].
        apply orb_false_iff in Hs as [Hu Ht].
        rewrite Hu, Ht, Hi, Ha. reflexivity. }
  split; [exact Hrun | apply for_each_skip; exact Hrun].
Qed.

(** The scenario of the specification ([event: foo] with valid JSON), a
    record without data and a [message] record of no known shape, each
    followed by a [connected] record that is processed. *)
Lemma unknown_record_tolerated_witness :
  let foo := wire "event: foo|data: {'x':1}" in
  let bare := wire "event: message" in
  let odd := wire "event: message|data: {'type':'typing'}" in
  let next := wire "event: connected|data: {}" in
  known_event (event_type foo) = false
  /\ is_empty (event_data bare) = true
  /\ message_shape (VObject [(str "type", VString (str "typing"))]) = false
  /\ for_each [foo; bare; odd; next] (process_message demo_platform all_callbacks) initial
     = (Ok tt, mkState 0 [OnStart]).
Proof.
  cbv zeta. split; [vm_compute; reflexivity|]. split; [vm_compute; reflexivity|].
  split; [vm_compute; reflexivity|].
  set (foo := wire "event: foo|data: {'x':1}").
  set (bare := wire "event: message").
  set (odd := wire "event: message|data: {'type':'typing'}").
  set (next := wire "event: connected|data: {}").
  assert (Hfoo : is_empty (event_data foo) = true
                 \/ (exists data : value,
                       has_data foo = true
                       /\ JSON_parse (event_data foo) = Some data
                       /\ (known_event (event_type foo) = false
                           \/ (event_type foo = str "message"
                               /\ is_nullish data = false
                               /\ message_shape data = false)))).
  { right. exists (VObject [(str "x", VNumber (JNumber false 1 0))]).
    split; [vm_compute; reflexivity|]. split; [vm_compute; reflexivity|].
    left. vm_compute. reflexivity. }
  assert (Hbare : is_empty (event_data bare) = true
                  \/ (exists data : value,
                        has_data bare = true
                        /\ JSON_parse (event_data bare) = Some data
                        /\ (known_event (event_type bare) = false
                            \/ (event_type bare = str "message"
                                /\ is_nullish data = false
                                /\ message_shape data = false)))).
  { left. vm_compute. reflexivity. }
  assert (Hodd : is_empty (event_data odd) = true
                 \/ (exists data : value,
                       has_data odd = true
                       /\ JSON_parse (event_data odd) = Some data
                       /\ (known_event (event_type odd) = false
                           \/ (event_type odd = str "message"
                               /\ is_nullish data = false
                               /\ message_shape data = false)))).
  { right. exists (VObject [(str "type", VString (str "typing"))]).
    split; [vm_compute; reflexivity|]. split; [vm_compute; reflexivity|].
    right. split; [vm_compute; reflexivity|]. split; vm_compute; reflexivity. }
  rewrite (proj2 (unknown_record_tolerated demo_platform all_callbacks
                    foo [bare; odd; next] initial Hfoo)).
  rewrite (proj2 (unknown_record_tolerated demo_platform all_callbacks
                    bare [odd; next] initial Hbare)).
  rewrite (proj2 (unknown_record_tolerated demo_platform all_callbacks
                    odd [next] initial Hodd)).
  vm_compute. reflexivity.
Defined.

(** ** C8: timestamps *)

Lemma demo_clock_in_range : clock_in_range demo_platform.
Proof. intros k. unfold demo_platform. cbn [clock]. lia. Qed.

(** C8.  For every value, [safeToISOString] returns, without raising and
    without calling a handler, a valid ISO timestamp.  For a value that is
    missing ([undefined]), [null] or not parsable as a date, the
    timestamp is the reading of the clock taken at that moment; and so is
    the [createdAt] of the message that the user branch and the agent
    branch build from a payload with such a [createdAt]. *)
Theorem timestamp_normalization
    (P : Platform) (v : value) (callbacks : StreamCallbacks) (data : value)
    (st : State) :
  clock_in_range P ->
  (exists (s : jstring) (st' : State),
     safeToISOString P v st = (Ok s, st')
     /\ JsDate.is_iso_timestamp s = true
     /\ calls st' = calls st)
  /\ (v = VUndefined \/ v = VNull \/ unparsable P v = true ->
      safeToISOString P v st
      = (Ok (now_at P (ticks st)), mkState (S (ticks st)) (calls st)))
  /\ (is_nullish data = false ->
      entries_not_null data = true ->
      prop data "createdAt" = VUndefined \/ prop data "createdAt" = VNull
      \/ unparsable P (prop data "createdAt") = true ->
      exists (atts : list MessageAttachment.t) (st1 : State),
        extract_attachments P data st = (Ok atts, st1)
        /\ user_message P callbacks data st
           = invoke (onUserMessage callbacks)
               (OnUserMessage
                  (Message.mk (prop data "id")
                     (or_else (prop (prop data "content") "text") (VString []))
                     Message.user (now_at P (ticks st1)) (non_empty atts)))
               (mkState (S (ticks st1)) (calls st))
        /\ agent_message P callbacks data st
           = invoke (onComplete callbacks)
               (OnComplete
                  (Message.mk (prop data "id")
                     (or_else (prop (prop data "content") "text") (VString []))
                     Message.assistant (now_at P (ticks st1)) (non_empty atts))
                  (mkUsage 0 0))
               (mkState (S (ticks st1)) (calls st))).
Proof.
  intros Hclock.
  assert (Hfall : forall (w : value) (s0 : State),
             w = VUndefined \/ w = VNull \/ unparsable P w = true ->
             safeToISOString P w s0
             = (Ok (now_at P (ticks s0)), mkState (S (ticks s0)) (calls s0))).
  { intros w s0 [-> | [-> | Hu]];
      apply (safeToISOString_fallback P Hclock); auto. }
  split; [|split].
  - destruct (safeToISOString_run P Hclock v st) as (s & st' & H & Hv & Hc & _).
    exists s, st'. auto.
  - apply Hfall.
  - intros Hn Hall Hcreated.
    destruct (user_message_run P Hclock callbacks data st Hn Hall)
      as (atts & iso & st1 & st2 & H1 & H2 & _ & Hu).
    destruct (agent_message_run P Hclock callbacks data st Hn Hall)
      as (atts' & iso' & st1' & st2' & H1' & H2' & _ & Ha).
    rewrite H1 in H1'. injection H1' as <- <-.
    rewrite H2 in H2'. injection H2' as <- <-.
    rewrite (Hfall _ st1 Hcreated) in H2. injection H2 as <- <-.
    pose proof (extract_attachments_calls P data st) as Hc.
    rewrite H1 in Hc. simpl in Hc. rewrite Hc in Hu, Ha.
    exists atts, st1. auto.
Qed.

(** The scenario of the specification: [createdAt: "not-a-date"]. *)
Lemma timestamp_normalization_witness :
  let data := VObject [(str "type", VString (str "user"));
                       (str "createdAt", VString (str "not-a-date"))] in
  clock_in_range demo_platform
  /\ unparsable demo_platform (VString (str "not-a-date")) = true
  /\ safeToISOString demo_platform (VString (str "not-a-date")) initial
     = (Ok (str "2023-11-14T22:13:20.000Z"), mkState 1 [])
  /\ user_message demo_platform all_callbacks data initial
     = (Ok tt,
        mkState 1
          [OnUserMessage
             (Message.mk VUndefined (VString []) Message.user
                (str "2023-11-14T22:13:20.000Z") None)]).
Proof.
  cbv zeta. split; [exact demo_clock_in_range|]. split; [reflexivity|].
  destruct (timestamp_normalization demo_platform (VString (str "not-a-date"))
              all_callbacks
              (VObject [(str "type", VString (str "user"));
                        (str "createdAt", VString (str "not-a-date"))])
              initial demo_clock_in_range) as (_ & Hfall & Hmsg).
  split.
  - rewrite Hfall by (right; right; reflexivity). vm_compute. reflexivity.
  - destruct (Hmsg eq_refl eq_refl ltac:(right; right; reflexivity))
      as (atts & st1 & H1 & Hu & _).
    rewrite Hu. vm_compute in H1. injection H1 as <- <-.
    vm_compute. reflexivity.
Defined.

(** ** C6: the agent's response *)

(** C6, counterexample.  The claim says that every [message] record
    whose payload has [isAgent == true] or [type == "agent"] ends in a
    call of [onComplete] with an assistant message.  The payload
    [{"type":"user","isAgent":true,"id":"m1"}] has [isAgent == true], and
    the record is answered by [onUserMessage] with a user message:
    [type == "user"] is tested first. *)
Lemma agent_message_counterexample :
  sendMessage demo_platform all_callbacks
    (stream ["event: message|data: {'type':'user','isAgent':true,'id':'m1'}||"%string])
    initial
  = (Ok tt,
     mkState 1
       [OnUserMessage
          (Message.mk (VString (str "m1")) (VString []) Message.user
             (str "2023-11-14T22:13:20.000Z") None)]).
Proof. vm_compute. reflexivity. Qed.

(** C6, as amended.  For every [message] record whose payload is valid
    JSON with a [type] that is neither [user] nor [thinking], with
    [isAgent == true] or [type == "agent"], and without a [null] entry in
    [content.attachments], [sendMessage] builds a message with role
    assistant and calls [onComplete] (when provided) once with it and the
    usage [{tokens: 0, cost: 0}].  On the input of the end-to-end
    scenario, with a [Date] that reads its timestamp, the calls are
    [onStart()], [onThinking()], [onComplete(message, {tokens: 0, cost:
    0})], in that order and nothing else. *)
Theorem agent_message_completes (P : Platform) :
  clock_in_range P ->
  (forall (callbacks : StreamCallbacks) (message : jstring) (data : value) (st : State),
      onComplete callbacks = true ->
      has_data message = true ->
      event_type message = str "message" ->
      JSON_parse (event_data message) = Some data ->
      is_string (prop data "type") (str "user") = false ->
      is_string (prop data "type") (str "thinking") = false ->
      prop data "isAgent" = VBool true
      \/ is_string (prop data "type") (str "agent") = true ->
      entries_not_null data = true ->
      exists (m : Message.t) (st' : State),
        process_message P callbacks message st = (Ok tt, st')
        /\ calls st' = calls st ++ [OnComplete m (mkUsage 0 0)]
        /\ Message.role m = Message.assistant
        /\ Message.id m = prop data "id"
        /\ Message.content m
           = or_else (prop (prop data "content") "text") (VString []))
  /\ (Date_value P (VString (str "2024-01-01T00:00:00Z")) = Ok (Some 1704067200000%Z) ->
      sendMessage P all_callbacks scenario_87 initial
      = (Ok tt,
         mkState 0
           [OnStart; OnThinking;
            OnComplete
              (Message.mk (VString (str "m1")) (VString (str "Hello!"))
                 Message.assistant (str "2024-01-01T00:00:00.000Z") None)
              (mkUsage 0 0)])).
Proof.
  intros Hclock. split.
  - intros callbacks message data st Hcb Hd Hev Hp Hu Ht Hagent Hall.
    assert (Hn : is_nullish data = false).
    { destruct data; try reflexivity; destruct Hagent as [H|H]; discriminate. }
    destruct (agent_message_run P Hclock callbacks data st Hn Hall)
      as (atts & iso & st1 & st2 & _ & _ & Hc & Ha).
    eexists _, _. split; [|split; [|split; [|split]]].
    + rewrite (process_message_parsed P callbacks message data st Hd Hp), Hev.
      rewrite dispatch_message by assumption. rewrite Hu, Ht.
      assert (Hor : truthy (prop data "isAgent")
                    || is_string (prop data "type") (str "agent") = true).
      { destruct Hagent as [H|H]; rewrite H; [reflexivity | apply orb_true_r]. }
      rewrite Hor, Ha. unfold invoke. rewrite Hcb. reflexivity.
    + simpl. rewrite Hc. reflexivity.
    + reflexivity.
    + reflexivity.
    + reflexivity.
  - intros Hdate.
    rewrite (sendMessage_spec P all_callbacks scenario_87
               (map wire_bytes ["event: connected|data: {}||event: message|data: {'type':'thinking'}||event: message|data: {'isAgent':true,'id':'m1','content':{'text':'Hello!'},'createdAt':'2024-01-01T00:00:00Z'}||event: done|data: {}||"%string])
               initial eq_refl eq_refl).
    set (r1 := wire "event: connected|data: {}").
    set (r2 := wire "event: message|data: {'type':'thinking'}").
    set (r3 := wire "event: message|data: {'isAgent':true,'id':'m1','content':{'text':'Hello!'},'createdAt':'2024-01-01T00:00:00Z'}").
    set (r4 := wire "event: done|data: {}").
    assert (Hrec : complete_records
                     (map wire_bytes ["event: connected|data: {}||event: message|data: {'type':'thinking'}||event: message|data: {'isAgent':true,'id':'m1','content':{'text':'Hello!'},'createdAt':'2024-01-01T00:00:00Z'}||event: done|data: {}||"%string])
                   = [r1; r2; r3; r4]) by (vm_compute; reflexivity).
    rewrite Hrec. clear Hrec.
    set (d3 := VObject [(str "isAgent", VBool true); (str "id", VString (str "m1"));
                        (str "content", VObject [(str "text", VString (str "Hello!"))]);
                        (str "createdAt", VString (str "2024-01-01T00:00:00Z"))]).
    assert (H1 : process_message P all_callbacks r1 initial
                 = (Ok tt, mkState 0 [OnStart])).
    { rewrite (process_message_parsed P all_callbacks r1 (VObject []) initial)
        by (vm_compute; reflexivity).
      replace (event_type r1) with (str "connected") by (vm_compute; reflexivity).
      reflexivity. }
    assert (H2 : process_message P all_callbacks r2 (mkState 0 [OnStart])
                 = (Ok tt, mkState 0 [OnStart; OnThinking])).
    { rewrite (process_message_parsed P all_callbacks r2
                 (VObject [(str "type", VString (str "thinking"))]) _)
        by (vm_compute; reflexivity).
      replace (event_type r2) with (str "message") by (vm_compute; reflexivity).
      rewrite dispatch_message by reflexivity. reflexivity. }
    assert (H3 : process_message P all_callbacks r3 (mkState 0 [OnStart; OnThinking])
                 = (Ok tt,
                    mkState 0
                      [OnStart; OnThinking;
                       OnComplete
                         (Message.mk (VString (str "m1")) (VString (str "Hello!"))
                            Message.assistant (str "2024-01-01T00:00:00.000Z") None)
                         (mkUsage 0 0)])).
    { rewrite (process_message_parsed P all_callbacks r3 d3 _)
        by (vm_compute; reflexivity).
      replace (event_type r3) with (str "message") by (vm_compute; reflexivity).
      rewrite dispatch_message by reflexivity.
      change (is_string (prop d3 "type") (str "user")) with false.
      change (is_string (prop d3 "type") (str "thinking")) with false.
      change (truthy (prop d3 "isAgent") || is_string (prop d3 "type") (str "agent"))
        with true.
      cbv iota.
      destruct (agent_message_run P Hclock all_callbacks d3
                  (mkState 0 [OnStart; OnThinking]) eq_refl eq_refl)
        as (atts & iso & st1 & st2 & He & Hs & _ & Ha).
      rewrite Ha.
      assert (He' : extract_attachments P d3 (mkState 0 [OnStart; OnThinking])
                    = (Ok [], mkState 0 [OnStart; OnThinking])) by reflexivity.
      rewrite He' in He. injection He as <- <-.
      change (prop d3 "createdAt") with (VString (str "2024-01-01T00:00:00Z")) in Hs.
      rewrite (safeToISOString_parsed P (VString (str "2024-01-01T00:00:00Z"))
                 1704067200000%Z _ eq_refl Hdate) in Hs
        by (vm_compute; discriminate).
      injection Hs as <- <-. vm_compute. reflexivity. }
    assert (H4 : forall s0, process_message P all_callbacks r4 s0 = (Ok tt, s0)).
    { intros s0.
      rewrite (process_message_parsed P all_callbacks r4 (VObject []) s0)
        by (vm_compute; reflexivity).
      replace (event_type r4) with (str "done") by (vm_compute; reflexivity).
      reflexivity. }
    rewrite (for_each_skip r1 _ _ _ _ H1), (for_each_skip r2 _ _ _ _ H2),
            (for_each_skip r3 _ _ _ _ H3), (for_each_skip r4 _ _ _ _ (H4 _)).
    reflexivity.
Qed.

(** The amended C6 on a record of type [agent] and on the end-to-end
    scenario. *)
Lemma agent_message_completes_witness :
  let message := wire "event: message|data: {'type':'agent','id':'a1','content':{'text':'Hi'}}" in
  clock_in_range demo_platform
  /\ Date_value demo_platform (VString (str "2024-01-01T00:00:00Z"))
     = Ok (Some 1704067200000%Z)
  /\ has_data message = true
  /\ (exists (m : Message.t) (st' : State),
        process_message demo_platform all_callbacks message initial = (Ok tt, st')
        /\ calls st' = [OnComplete m (mkUsage 0 0)]
        /\ Message.role m = Message.assistant
        /\ Message.id m = VString (str "a1")
        /\ Message.content m = VString (str "Hi"))
  /\ sendMessage demo_platform all_callbacks scenario_87 initial
     = (Ok tt,
        mkState 0
          [OnStart; OnThinking;
           OnComplete
             (Message.mk (VString (str "m1")) (VString (str "Hello!"))
                Message.assistant (str "2024-01-01T00:00:00.000Z") None)
             (mkUsage 0 0)]).
Proof.
  cbv zeta.
  destruct (agent_message_completes demo_platform demo_clock_in_range) as [Hgen H87].
  split; [exact demo_clock_in_range|]. split; [reflexivity|].
  split; [vm_compute; reflexivity|]. split.
  - destruct (Hgen all_callbacks
                (wire "event: message|data: {'type':'agent','id':'a1','content':{'text':'Hi'}}")
                (VObject [(str "type", VString (str "agent")); (str "id", VString (str "a1"));
                          (str "content", VObject [(str "text", VString (str "Hi"))])])
                initial eq_refl)
      as (m & st' & Hrun & Hcalls & Hrole & Hid & Hcontent);
      try (vm_compute; reflexivity).
    + right. vm_compute. reflexivity.
    + exists m, st'. auto.
  - apply H87. reflexivity.
Defined.

(** ** C7: attachments *)

(** C7, counterexample.  The claim says that exactly the entries of
    [content.attachments] with a string [url] become attachments.  The
    entry [{"url":""}] has a string [url], and the message delivered has
    no attachment: the guard also asks the [url] to be truthy. *)
Lemma attachment_extraction_counterexample :
  sendMessage demo_platform all_callbacks
    (stream ["event: message|data: {'type':'user','id':'u1','content':{'text':'hi','attachments':[{'url':''}]}}||"%string])
    initial
  = (Ok tt,
     mkState 1
       [OnUserMessage
          (Message.mk (VString (str "u1")) (VString (str "hi")) Message.user
             (str "2023-11-14T22:13:20.000Z") None)]).
Proof. vm_compute. reflexivity. Qed.

(** C7, as amended.  For every payload other than [null] whose
    [content.attachments] has no [null] entry, the attachments of the
    message that the user branch and the agent branch build are, in
    order, exactly the entries whose [url] is a non-empty string, each
    with its own [url] and [title], its own [id] when truthy and otherwise
    a synthesized [att-<clock reading>], its own [contentType] when truthy
    and otherwise [image] (the message has [undefined] for an empty list).
    An only entry with nothing but a non-empty [url] gives exactly one
    attachment, with a synthesized [id] and the content type [image]. *)
Theorem attachment_extraction
    (P : Platform) (callbacks : StreamCallbacks) (data : value) (st : State) :
  clock_in_range P ->
  is_nullish data = false ->
  entries_not_null data = true ->
  exists (atts : list MessageAttachment.t) (st1 : State) (iso : jstring) (st2 : State),
    extract_attachments P data st = (Ok atts, st1)
    /\ Forall2 extracted_from (filter eligible (attachment_entries data)) atts
    /\ user_message P callbacks data st
       = invoke (onUserMessage callbacks)
           (OnUserMessage
              (Message.mk (prop data "id")
                 (or_else (prop (prop data "content") "text") (VString []))
                 Message.user iso (non_empty atts))) st2
    /\ agent_message P callbacks data st
       = invoke (onComplete callbacks)
           (OnComplete
              (Message.mk (prop data "id")
                 (or_else (prop (prop data "content") "text") (VString []))
                 Message.assistant iso (non_empty atts))
              (mkUsage 0 0)) st2
    /\ (forall u : jstring,
          attachment_entries data = [VObject [(str "url", VString u)]] ->
          is_empty u = false ->
          exists t : Z,
            atts = [MessageAttachment.mk (VString (str "att-" ++ of_Z t)) u
                      VUndefined (VString (str "image"))]).
Proof.
  intros Hclock Hn Hall.
  destruct (extract_attachments_run P data st Hn Hall) as (atts & st1 & H1 & _ & _ & F).
  destruct (user_message_run P Hclock callbacks data st Hn Hall)
    as (atts1 & iso & st1' & st2 & H1' & H2 & _ & Hu).
  destruct (agent_message_run P Hclock callbacks data st Hn Hall)
    as (atts2 & iso2 & st1'' & st2' & H1'' & H2' & _ & Ha).
  rewrite H1 in H1', H1''. injection H1' as <- <-. injection H1'' as <- <-.
  rewrite H2 in H2'. injection H2' as <- <-.
  exists atts, st1, iso, st2. repeat split; try assumption.
  intros u Hentries Hu_ne. rewrite Hentries in F.
  assert (Hel : eligible (VObject [(str "url", VString u)]) = true).
  { change (eligible (VObject [(str "url", VString u)])) with (negb (is_empty u)).
    rewrite Hu_ne. reflexivity. }
  simpl filter in F. rewrite Hel in F.
  inversion F as [|att a l l' Hex Hrest]; subst.
  inversion Hrest; subst.
  destruct Hex as (Hurl & Hid & Htitle & Hct).
  change (prop (VObject [(str "url", VString u)]) "url") with (VString u) in Hurl.
  change (prop (VObject [(str "url", VString u)]) "id") with VUndefined in Hid.
  change (prop (VObject [(str "url", VString u)]) "title") with VUndefined in Htitle.
  change (prop (VObject [(str "url", VString u)]) "contentType") with VUndefined in Hct.
  simpl in Hid. destruct Hid as [t Hid]. exists t.
  destruct a as [i u' ti ct]. simpl in *.
  injection Hurl as <-. subst. reflexivity.
Qed.

(** The scenario of the specification (one entry with only a [url]), in a
    list with an entry that has everything and one without a [url]. *)
Lemma attachment_extraction_witness :
  let data :=
    VObject [(str "type", VString (str "user"));
             (str "content",
              VObject [(str "attachments",
                        VArray [VObject [(str "url", VString (str "http://x/1.png"))];
                                VObject [(str "id", VString (str "a2"));
                                         (str "url", VString (str "http://x/2.png"));
                                         (str "title", VString (str "two"));
                                         (str "contentType", VString (str "video"))];
                                VObject [(str "id", VString (str "a3"))]])])] in
  clock_in_range demo_platform
  /\ is_nullish data = false
  /\ entries_not_null data = true
  /\ extract_attachments demo_platform data initial
     = (Ok [MessageAttachment.mk (VString (str "att-1700000000000"))
              (str "http://x/1.png") VUndefined (VString (str "image"));
            MessageAttachment.mk (VString (str "a2")) (str "http://x/2.png")
              (VString (str "two")) (VString (str "video"))],
        mkState 1 []).
Proof.
  cbv zeta. split; [exact demo_clock_in_range|]. split; [reflexivity|].
  split; [reflexivity|].
  destruct (attachment_extraction demo_platform all_callbacks
              (VObject [(str "type", VString (str "user"));
                        (str "content",
                         VObject [(str "attachments",
                                   VArray [VObject [(str "url", VString (str "http://x/1.png"))];
                                           VObject [(str "id", VString (str "a2"));
                                                    (str "url", VString (str "http://x/2.png"));
                                                    (str "title", VString (str "two"));
                                                    (str "contentType", VString (str "video"))];
                                           VObject [(str "id", VString (str "a3"))]])])])
              initial demo_clock_in_range eq_refl eq_refl)
    as (atts & st1 & iso & st2 & H1 & _).
  vm_compute. reflexivity.
Defined.

(** ** C10: the order of the tests on the payload *)

(** C10, counterexample.  The claim says that every payload with
    [type == "user"] and [isAgent == true] is answered by
    [onUserMessage].  With a [null] entry in [content.attachments] the
    user branch is entered, the read of [att.url] throws a TypeError and
    [sendMessage] ends without any call. *)
Lemma classification_precedence_counterexample :
  sendMessage demo_platform all_callbacks
    (stream ["event: message|data: {'type':'user','isAgent':true,'content':{'attachments':[null]}}||"%string])
    initial
  = (Throw TypeError, initial).
Proof. vm_compute. reflexivity. Qed.

(** C10, as amended.  The tests on the payload of a [message] record are
    made in the order user, thinking, agent.  For every payload with
    [isAgent == true]: if [type == "user"], the calls the record adds hold
    no [onComplete], and when [content.attachments] has no [null] entry
    the record is answered by exactly one call of [onUserMessage] (when
    provided); if [type == "thinking"], it is answered by exactly one call
    of [onThinking] (when provided) and no [onComplete]. *)
Theorem classification_precedence
    (P : Platform) (callbacks : StreamCallbacks) (message : jstring)
    (data : value) (st : State) :
  clock_in_range P ->
  has_data message = true ->
  event_type message = str "message" ->
  JSON_parse (event_data message) = Some data ->
  prop data "isAgent" = VBool true ->
  (is_string (prop data "type") (str "user") = true ->
     (exists new : list Call,
        calls (snd (process_message P callbacks message st)) = calls st ++ new
        /\ forall m u, ~ In (OnComplete m u) new)
     /\ (onUserMessage callbacks = true ->
         entries_not_null data = true ->
         exists (m : Message.t) (st' : State),
           process_message P callbacks message st = (Ok tt, st')
           /\ calls st' = calls st ++ [OnUserMessage m]
           /\ Message.role m = Message.user))
  /\ (is_string (prop data "type") (str "thinking") = true ->
      onThinking callbacks = true ->
      process_message P callbacks message st
      = (Ok tt, mkState (ticks st) (calls st ++ [OnThinking]))).
Proof.
  intros Hclock Hd Hev Hp Hagent.
  assert (Hn : is_nullish data = false) by (destruct data; try reflexivity; discriminate).
  rewrite (process_message_parsed P callbacks message data st Hd Hp), Hev.
  rewrite dispatch_message by assumption.
  split.
  - intros Hu. rewrite Hu. split.
    + destruct (user_message_calls P Hclock callbacks data st) as [H | [m H]].
      * exists []. rewrite app_nil_r. split; [exact H | intros m u []].
      * exists [OnUserMessage m]. split; [exact H|].
        intros m' u' [E | []]. discriminate.
    + intros Hcb Hall.
      destruct (user_message_run P Hclock callbacks data st Hn Hall)
        as (atts & iso & st1 & st2 & _ & _ & Hc & Hrun).
      rewrite Hrun. unfold invoke. rewrite Hcb.
      exists (Message.mk (prop data "id")
                (or_else (prop (prop data "content") "text") (VString []))
                Message.user iso (non_empty atts)).
      eexists. split; [reflexivity|]. split; [|reflexivity].
      simpl. rewrite Hc. reflexivity.
  - intros Ht Hcb.
    assert (Hu : is_string (prop data "type") (str "user") = false).
    { destruct (prop data "type"); try reflexivity.
      simpl in *. apply streq_eq in Ht. subst. reflexivity. }
    rewrite Hu, Ht. unfold invoke. rewrite Hcb. reflexivity.
Qed.

(** The two payloads of the claim. *)
Lemma classification_precedence_witness :
  let user_record := wire "event: message|data: {'type':'user','isAgent':true,'id':'m1'}" in
  let thinking_record := wire "event: message|data: {'type':'thinking','isAgent':true}" in
  clock_in_range demo_platform
  /\ has_data user_record = true
  /\ has_data thinking_record = true
  /\ (exists (m : Message.t) (st' : State),
        process_message demo_platform all_callbacks user_record initial = (Ok tt, st')
        /\ calls st' = [OnUserMessage m]
        /\ Message.role m = Message.user)
  /\ process_message demo_platform all_callbacks thinking_record initial
     = (Ok tt, mkState 0 [OnThinking]).
Proof.
  cbv zeta. split; [exact demo_clock_in_range|].
  split; [vm_compute; reflexivity|]. split; [vm_compute; reflexivity|]. split.
  - assert (Hd : has_data (wire "event: message|data: {'type':'user','isAgent':true,'id':'m1'}") = true)
      by (vm_compute; reflexivity).
    assert (Hev : event_type (wire "event: message|data: {'type':'user','isAgent':true,'id':'m1'}")
                  = str "message") by (vm_compute; reflexivity).
    assert (Hp : JSON_parse (event_data (wire "event: message|data: {'type':'user','isAgent':true,'id':'m1'}"))
                 = Some (VObject [(str "type", VString (str "user"));
                                  (str "isAgent", VBool true);
                                  (str "id", VString (str "m1"))]))
      by (vm_compute; reflexivity).
    destruct (classification_precedence demo_platform all_callbacks _ _ initial
                demo_clock_in_range Hd Hev Hp eq_refl) as [Huser _].
    destruct (Huser eq_refl) as [_ Hrun].
    destruct (Hrun eq_refl eq_refl) as (m & st' & H1 & H2 & H3).
    exists m, st'. auto.
  - assert (Hd : has_data (wire "event: message|data: {'type':'thinking','isAgent':true}") = true)
      by (vm_compute; reflexivity).
    assert (Hev : event_type (wire "event: message|data: {'type':'thinking','isAgent':true}")
                  = str "message") by (vm_compute; reflexivity).
    assert (Hp : JSON_parse (event_data (wire "event: message|data: {'type':'thinking','isAgent':true}"))
                 = Some (VObject [(str "type", VString (str "thinking"));
                                  (str "isAgent", VBool true)]))
      by (vm_compute; reflexivity).
    destruct (classification_precedence demo_platform all_callbacks _ _ initial
                demo_clock_in_range Hd Hev Hp eq_refl) as [_ Hthinking].
    apply (Hthinking eq_refl eq_refl).
Defined.

(* ===================================================================== *)
(** * Part IV.  Further properties of the client                          *)
(* ===================================================================== *)

(** ** What a run calls *)

Lemma emits_weaken {A} (a b : nat) (m : M A) : a <= b -> emits a m -> emits b m.
Proof.
  intros Hab H st. destruct (H st) as (new & H1 & H2 & H3).
  exists new. repeat split; [assumption | lia | assumption].
Qed.

Lemma emits_pure {A} (f : State -> Res A) : emits 0 (fun st => (f st, st)).
Proof. intros st. exists []. simpl. rewrite app_nil_r. auto. Qed.

Lemma emits_ret {A} (a : A) : emits 0 (ret a).
Proof. apply (emits_pure (fun _ => Ok a)). Qed.

Lemma emits_throw {A} (e : exn) : emits 0 (@throw A e).
Proof. apply (emits_pure (fun _ => Throw e)). Qed.

Lemma emits_lift {A} (r : Res A) : emits 0 (lift r).
Proof. apply (emits_pure (fun _ => r)). Qed.

Lemma emits_bind {A B} (a b : nat) (m : M A) (k : A -> M B) :
  emits a m -> (forall x, emits b (k x)) -> emits (a + b) (x <- m ;; k x).
Proof.
  intros Hm Hk st. unfold bind.
  destruct (Hm st) as (n1 & H1 & L1 & F1).
  destruct (m st) as [[x|e] st1]; simpl in H1.
  - destruct (Hk x st1) as (n2 & H2 & L2 & F2).
    exists (n1 ++ n2). rewrite H2, H1, app_assoc, length_app, forallb_app, F1, F2.
    repeat split; [lia].
  - exists n1. simpl. repeat split; [assumption | lia | assumption].
Qed.

Lemma emits_try_catch {A} (a b : nat) (m h : M A) :
  emits a m -> emits b h -> emits (a + b) (try_catch m h).
Proof.
  intros Hm Hh st. unfold try_catch.
  destruct (Hm st) as (n1 & H1 & L1 & F1).
  destruct (m st) as [[x|e] st1]; simpl in H1.
  - exists n1. simpl. repeat split; [assumption | lia | assumption].
  - destruct (Hh st1) as (n2 & H2 & L2 & F2).
    exists (n1 ++ n2). rewrite H2, H1, app_assoc, length_app, forallb_app, F1, F2.
    repeat split; [lia].
Qed.

Lemma emits_invoke (provided : bool) (c : Call) :
  is_chunk c = false -> emits 1 (invoke provided c).
Proof.
  intros Hc st. unfold invoke. destruct provided; simpl.
  - exists [c]. simpl. rewrite Hc. auto.
  - exists []. rewrite app_nil_r. auto.
Qed.

Lemma emits_for_each {A} (xs : list A) (body : A -> M unit) :
  (forall x, emits 1 (body x)) -> emits (length xs) (for_each xs body).
Proof.
  intros Hbody. induction xs as [|x xs IH]; simpl.
  - apply emits_ret.
  - apply (emits_bind 1 (length xs)); [apply Hbody | intros _; exact IH].
Qed.

Section Emits.

Variable P : Platform.
Variable callbacks : StreamCallbacks.

Lemma emits_Date_now : emits 0 (Date_now P).
Proof. intros st. exists []. simpl. rewrite app_nil_r. auto. Qed.

Lemma emits_now_ISOString : emits 0 (now_ISOString P).
Proof.
  unfold now_ISOString, new_Date_now.
  apply (emits_bind 0 0); [|intros; apply emits_lift].
  apply (emits_bind 0 0); [apply emits_Date_now | intros; apply emits_ret].
Qed.

Lemma emits_safeToISOString (v : value) : emits 0 (safeToISOString P v).
Proof.
  unfold safeToISOString. destruct (negb (truthy v)); [apply emits_now_ISOString|].
  apply (emits_try_catch 0 0); [|apply emits_now_ISOString].
  apply (emits_bind 0 0).
  - unfold new_Date. apply (emits_bind 0 0); [apply emits_lift | intros; apply emits_ret].
  - intros [t|]; [apply emits_lift | apply emits_now_ISOString].
Qed.

Lemma emits_push_attachment (acc : list MessageAttachment.t) (att : value) :
  emits 0 (push_attachment P acc att).
Proof.
  unfold push_attachment. apply (emits_bind 0 0); [apply emits_lift|].
  intros u. destruct u; try apply emits_ret.
  destruct (truthy (VString s)); [|apply emits_ret].
  apply (emits_bind 0 0); [apply emits_lift|]. intros i.
  apply (emits_bind 0 0).
  - destruct (truthy i); [apply emits_ret|].
    apply (emits_bind 0 0); [apply emits_Date_now | intros; apply emits_ret].
  - intros id_. apply (emits_bind 0 0); [apply emits_lift|]. intros title_.
    apply (emits_bind 0 0); [apply emits_lift | intros; apply emits_ret].
Qed.

Lemma emits_push_attachments (items : list value) :
  forall acc, emits 0 (push_attachments P acc items).
Proof.
  induction items as [|att rest IH]; intros acc; simpl.
  - apply emits_ret.
  - apply (emits_bind 0 0); [apply emits_push_attachment | intros; apply IH].
Qed.

Lemma emits_extract_attachments (data : value) : emits 0 (extract_attachments P data).
Proof.
  unfold extract_attachments.
  apply (emits_bind 0 0); [apply emits_lift|]. intros c.
  apply (emits_bind 0 0); [apply emits_lift|]. intros a.
  destruct (truthy a && isArray a); [|apply emits_ret].
  destruct a; try apply emits_ret. apply emits_push_attachments.
Qed.

Lemma emits_content_text (data : value) : emits 0 (content_text data).
Proof.
  unfold content_text.
  apply (emits_bind 0 0); [apply emits_lift|]. intros c.
  apply (emits_bind 0 0); [apply emits_lift | intros; apply emits_ret].
Qed.

Lemma emits_user_message (data : value) : emits 1 (user_message P callbacks data).
Proof.
  unfold user_message.
  apply (emits_bind 0 1); [apply emits_extract_attachments|]. intros atts.
  apply (emits_bind 0 1); [apply emits_lift|]. intros i.
  apply (emits_bind 0 1); [apply emits_content_text|]. intros text.
  apply (emits_bind 0 1); [apply emits_lift|]. intros c.
  apply (emits_bind 0 1); [apply emits_safeToISOString|]. intros iso.
  apply emits_invoke. reflexivity.
Qed.

Lemma emits_agent_message (data : value) : emits 1 (agent_message P callbacks data).
Proof.
  unfold agent_message.
  apply (emits_bind 0 1); [apply emits_content_text|]. intros text.
  apply (emits_bind 0 1); [apply emits_extract_attachments|]. intros atts.
  apply (emits_bind 0 1); [apply emits_lift|]. intros i.
  apply (emits_bind 0 1); [apply emits_lift|]. intros c.
  apply (emits_bind 0 1); [apply emits_safeToISOString|]. intros iso.
  apply emits_invoke. reflexivity.
Qed.

Lemma emits_error_event (data : value) : emits 1 (error_event callbacks data).
Proof.
  unfold error_event. destruct (onError callbacks);
    [|apply (emits_weaken 0 1); [lia | apply emits_ret]].
  apply (emits_bind 0 1); [apply emits_lift|]. intros m.
  apply (emits_bind 0 1).
  - destruct (truthy m); [apply emits_ret|].
    apply (emits_bind 0 0); [apply emits_lift | intros; apply emits_ret].
  - intros e. apply emits_invoke. reflexivity.
Qed.

Lemma emits_dispatch (eventType : jstring) (data : value) :
  emits 1 (dispatch P callbacks eventType data).
Proof.
  unfold dispatch.
  destruct (streq eventType (str "connected")); [apply emits_invoke; reflexivity|].
  destruct (streq eventType (str "message")).
  - apply (emits_bind 0 1); [apply emits_lift|]. intros ty.
    destruct (is_string ty (str "user")); [apply emits_user_message|].
    destruct (is_string ty (str "thinking")); [apply emits_invoke; reflexivity|].
    apply (emits_bind 0 1); [apply emits_lift|]. intros a.
    destruct (truthy a || is_string ty (str "agent")); [apply emits_agent_message|].
    apply (emits_weaken 0 1); [lia | apply emits_ret].
  - destruct (streq eventType (str "error")); [apply emits_error_event|].
    destruct (streq eventType (str "done"));
      apply (emits_weaken 0 1); try lia; apply emits_ret.
Qed.

Lemma emits_process_message (message : jstring) :
  emits 1 (process_message P callbacks message).
Proof.
  unfold process_message.
  destruct (is_empty (trim message));
    [apply (emits_weaken 0 1); [lia | apply emits_ret]|].
  destruct (scan_lines message) as [eventType eventData].
  destruct (is_empty eventData);
    [apply (emits_weaken 0 1); [lia | apply emits_ret]|].
  apply (emits_bind 0 1); [|intros; apply emits_dispatch].
  unfold parse_json. destruct (JSON_parse eventData); [apply emits_ret | apply emits_throw].
Qed.

(** Every run of [sendMessage] only appends calls: none for a response
    that is rejected before the stream, at most one per complete record
    otherwise. *)
Lemma emits_sendMessage (response : Response) :
  emits (match body response with
         | Some chunks => if ok response then length (complete_records chunks) else 0
         | None => 0
         end)
        (sendMessage P callbacks response).
Proof.
  intros st. destruct (ok response) eqn:Hok.
  - destruct (body response) as [chunks|] eqn:Hbody.
    + rewrite (sendMessage_spec P callbacks response chunks st Hok Hbody).
      apply emits_for_each. apply emits_process_message.
    + unfold sendMessage. rewrite Hok, Hbody. apply emits_throw.
  - assert (H : emits 0 (sendMessage P callbacks response)).
    { unfold sendMessage. rewrite Hok. change (negb false) with true. cbv iota.
      apply (emits_bind 0 0); [apply emits_lift | intros; apply emits_lift]. }
    destruct (H st) as (new & H1 & H2 & H3). exists new.
    repeat split; try assumption. destruct (body response); lia.
Qed.

End Emits.

(** X1.  [sendMessage] never calls [onChunk]: whatever the response, the
    handlers provided and the calls made before, the run only appends
    calls to those made so far, and none of the calls it appends is a call
    of [onChunk]. *)
Theorem sendMessage_never_calls_onChunk
    (P : Platform) (callbacks : StreamCallbacks) (response : Response) (st : State) :
  exists new : list Call,
    calls (snd (sendMessage P callbacks response st)) = calls st ++ new
    /\ forall chunk, ~ In (OnChunk chunk) new.
Proof.
  destruct (emits_sendMessage P callbacks response st) as (new & H & _ & F).
  exists new. split; [exact H|].
  intros chunk Hin. rewrite forallb_forall in F. specialize (F _ Hin). discriminate.
Qed.

(** X2.  [sendMessage] makes at most one call per complete record of the
    body, also when it ends with an exception, and no call at all when the
    status is not successful. *)
Theorem sendMessage_one_call_per_record
    (P : Platform) (callbacks : StreamCallbacks) (response : Response) (st : State) :
  exists new : list Call,
    calls (snd (sendMessage P callbacks response st)) = calls st ++ new
    /\ length new <= length (response_records response)
    /\ (ok response = false -> new = []).
Proof.
  destruct (emits_sendMessage P callbacks response st) as (new & H & L & _).
  exists new. split; [exact H|]. unfold response_records.
  destruct (body response) as [chunks|]; split.
  - destruct (ok response); lia.
  - intros Hok. rewrite Hok in L. destruct new; [reflexivity | simpl in L; lia].
  - lia.
  - intros _. destruct new; [reflexivity | simpl in L; lia].
Qed.

(** ** The lines of a record *)

Lemma find_sep_absent (c : N) (s : jstring) :
  ~ In c s -> find_sep [c] s = None.
Proof.
  induction s as [|x s IH]; intros Hin; [reflexivity|].
  simpl. destruct (N.eqb_spec x c) as [->|Hne].
  - exfalso. apply Hin. left. reflexivity.
  - simpl. rewrite IH; [reflexivity|]. intros H. apply Hin. right. exact H.
Qed.

Lemma find_sep_first (c : N) (a b : jstring) :
  ~ In c a -> find_sep [c] (a ++ c :: b) = Some (a, b).
Proof.
  induction a as [|x a IH]; intros Hin.
  - simpl. rewrite N.eqb_refl. reflexivity.
  - simpl. destruct (N.eqb_spec x c) as [->|Hne].
    + exfalso. apply Hin. left. reflexivity.
    + simpl. rewrite IH; [reflexivity|]. intros H. apply Hin. right. exact H.
Qed.

Lemma last_not_in_sep (c : N) (s : jstring) : ~ In c (last (split [c] s) []).
Proof.
  assert (Hsep : [c] <> []) by discriminate.
  pose proof (split_last [c] s Hsep) as H.
  rewrite (split_unfold [c] _ Hsep) in H.
  destruct (find_sep [c] (last (split [c] s) [])) as [[b a]|] eqn:Hf.
  - exfalso. pose proof (find_sep_length _ _ _ _ Hf) as Hl.
    injection H as Hb Ha. rewrite <- Hb in Hl at 1.
    simpl in Hl. lia.
  - clear H. intros Hin. revert Hf Hin.
    generalize (last (split [c] s) []). intros l.
    induction l as [|x l IH]; intros Hf Hin; [contradiction|].
    simpl in Hf. destruct (N.eqb_spec x c) as [->|Hne]; [discriminate|].
    simpl in Hf. destruct (find_sep [c] l) as [[b a]|] eqn:Hl; [discriminate|].
    destruct Hin as [->|Hin]; [congruence|]. apply IH; auto.
Qed.

(** The lines of a text followed by a line feed and more text. *)
Lemma split_lines_app (c : N) (a b : jstring) :
  split [c] (a ++ c :: b) = split [c] a ++ split [c] b.
Proof.
  assert (Hsep : [c] <> []) by discriminate.
  rewrite (split_app [c] a (c :: b) Hsep).
  rewrite (split_unfold [c] (last (split [c] a) [] ++ c :: b) Hsep).
  rewrite find_sep_first by apply last_not_in_sep.
  change (last (split [c] a) [] :: split [c] b)
    with ([last (split [c] a) []] ++ split [c] b).
  rewrite app_assoc. f_equal.
  symmetry. apply app_removelast_last. apply split_not_nil.
Qed.

Lemma split_one_line (c : N) (s : jstring) : ~ In c s -> split [c] s = [s].
Proof.
  intros Hin. rewrite (split_unfold [c] s) by discriminate.
  rewrite find_sep_absent by assumption. reflexivity.
Qed.

Lemma scan_lines_app (message line : jstring) :
  ~ In 10%N line ->
  scan_lines (message ++ 10%N :: line) = scan_line (scan_lines message) line.
Proof.
  intros Hin. unfold scan_lines.
  rewrite split_lines_app, fold_left_app, (split_one_line 10 line Hin).
  reflexivity.
Qed.

(** X3.  Within a record the last [data: ] line and the last [event: ]
    line win: a [data: ] line added at the end of a record replaces the
    payload of the record (the payloads are not joined) and leaves the
    event name alone; an [event: ] line added at the end replaces the
    event name, trimmed, and leaves the payload alone. *)
Theorem last_line_wins (message text : jstring) :
  ~ In 10%N text ->
  (event_data (message ++ 10%N :: str "data: " ++ text) = text
   /\ event_type (message ++ 10%N :: str "data: " ++ text) = event_type message)
  /\ (event_type (message ++ 10%N :: str "event: " ++ text) = trim text
      /\ event_data (message ++ 10%N :: str "event: " ++ text) = event_data message).
Proof.
  intros Hin. unfold event_data, event_type.
  assert (Hd : ~ In 10%N (str "data: " ++ text)).
  { intros H. apply in_app_or in H as [H|H]; [|contradiction].
    vm_compute in H. intuition discriminate. }
  assert (He : ~ In 10%N (str "event: " ++ text)).
  { intros H. apply in_app_or in H as [H|H]; [|contradiction].
    vm_compute in H. intuition discriminate. }
  rewrite (scan_lines_app message _ Hd), (scan_lines_app message _ He).
  split; split; reflexivity.
Qed.

Lemma last_line_wins_witness :
  ~ In 10%N (wire "{'b':2}")
  /\ event_data (wire "event: error|data: {'a':1}|data: {'b':2}") = wire "{'b':2}"
  /\ event_type (wire "event: error|data: {'a':1}|data: {'b':2}") = str "error".
Proof.
  assert (Hin : ~ In 10%N (wire "{'b':2}")).
  { intros H. vm_compute in H. intuition discriminate. }
  split; [exact Hin|].
  destruct (last_line_wins (wire "event: error|data: {'a':1}") (wire "{'b':2}") Hin)
    as [[H1 H2] _].
  split.
  - exact H1.
  - transitivity (event_type (wire "event: error|data: {'a':1}"));
      [exact H2 | vm_compute; reflexivity].
Defined.

(** ** [safeToISOString] on values that are not missing *)

(** X4.  A truthy value that [Date] reads as a time value a Date can hold
    is returned as the ISO timestamp of that time, which is valid, and the
    clock is not read; a falsy value (the number 0, the empty string,
    [false]) is replaced by the reading of the clock, whether or not [Date]
    could read it. *)
Theorem safeToISOString_present_value
    (P : Platform) (v : value) (st : State) :
  clock_in_range P ->
  (forall t : Z,
      truthy v = true ->
      parsed_time P v = Some t ->
      safeToISOString P v st = (Ok (JsDate.format (JsDate.fields_of_time t)), st)
      /\ JsDate.is_iso_timestamp (JsDate.format (JsDate.fields_of_time t)) = true)
  /\ (truthy v = false ->
      safeToISOString P v st
      = (Ok (now_at P (ticks st)), mkState (S (ticks st)) (calls st))).
Proof.
  intros Hclock. split.
  - intros t Ht Hp. unfold parsed_time in Hp.
    destruct (Date_value P v) as [[t0|]|e] eqn:Hd; try discriminate.
    unfold JsDate.TimeClip in Hp.
    destruct (Z.leb_spec (Z.abs t0) 8640000000000000) as [Hr|Hr]; [|discriminate].
    injection Hp as <-. split.
    + apply (safeToISOString_parsed P v t0 st Ht Hd Hr).
    + apply JsDateFacts.fields_of_time_valid. exact Hr.
  - intros Hf. apply (safeToISOString_fallback P Hclock). left. exact Hf.
Qed.

Lemma safeToISOString_present_value_witness :
  clock_in_range demo_platform
  /\ truthy (VString (str "2024-01-01T00:00:00Z")) = true
  /\ parsed_time demo_platform (VString (str "2024-01-01T00:00:00Z")) = Some 1704067200000%Z
  /\ safeToISOString demo_platform (VString (str "2024-01-01T00:00:00Z")) initial
     = (Ok (str "2024-01-01T00:00:00.000Z"), initial)
  /\ truthy (VNumber (JNumber false 0 0)) = false
  /\ safeToISOString demo_platform (VNumber (JNumber false 0 0)) initial
     = (Ok (str "2023-11-14T22:13:20.000Z"), mkState 1 []).
Proof.
  split; [exact demo_clock_in_range|]. split; [reflexivity|]. split; [reflexivity|].
  split; [|split; [reflexivity|]].
  - destruct (safeToISOString_present_value demo_platform
                (VString (str "2024-01-01T00:00:00Z")) initial demo_clock_in_range)
      as [H _].
    destruct (H 1704067200000%Z eq_refl eq_refl) as [Hrun _].
    rewrite Hrun. vm_compute. reflexivity.
  - destruct (safeToISOString_present_value demo_platform
                (VNumber (JNumber false 0 0)) initial demo_clock_in_range)
      as [_ H].
    rewrite (H eq_refl). vm_compute. reflexivity.
Defined.

(** ** [fetchApi] *)

Lemma JSON_parse_blank (text : jstring) :
  skip_ws text = [] -> JSON_parse text = None.
Proof.
  intros H. unfold JSON_parse. rewrite H.
  replace (2 * length text + 2) with (S (2 * length text + 1)) by lia.
  reflexivity.
Qed.

(** X5.  [fetchApi] returns a value exactly when the status is successful
    and the body is valid JSON, and the value is then the parsed body: it
    never returns for an unsuccessful status, and a successful response
    whose body is not JSON is an exception, not a value. *)
Theorem fetchApi_returns_iff (response : Response) (v : value) :
  fetchApi response = Ok v
  <-> ok response = true /\ JSON_parse (body_text response) = Some v.
Proof.
  unfold fetchApi, Response_json. destruct (ok response); simpl.
  - destruct (JSON_parse (body_text response)) as [w|]; split.
    + intros H. injection H as ->. auto.
    + intros [_ H]. injection H as ->. reflexivity.
    + discriminate.
    + intros [_ H]. discriminate.
  - split; [|intros [H _]; discriminate].
    unfold throw_new_Error.
    destruct (get (json_or_unknown response) "error") as [e|x]; cbn [bindR];
      [destruct (ToString _); cbn [bindR]|]; discriminate.
Qed.

Lemma fetchApi_returns_iff_witness :
  fetchApi (stream ["null"%string]) = Ok VNull
  /\ ok (mkResponse 404 (Some [wire_bytes "null"])) = false.
Proof.
  split.
  - apply (proj2 (fetchApi_returns_iff (stream ["null"%string]) VNull)).
    split; vm_compute; reflexivity.
  - destruct (ok (mkResponse 404 (Some [wire_bytes "null"]))) eqn:E; [|reflexivity].
    destruct (fetchApi (mkResponse 404 (Some [wire_bytes "null"]))) as [v|e] eqn:F.
    + destruct (proj1 (fetchApi_returns_iff _ v) F) as [H _].
      vm_compute in H. discriminate.
    + vm_compute in E. discriminate.
Defined.

(** X6.  On a response with an unsuccessful status [sendMessage] and
    [fetchApi] fail alike: both raise the same exception, and
    [sendMessage] has made no call. *)
Theorem sendMessage_rejects_like_fetchApi
    (P : Platform) (callbacks : StreamCallbacks) (response : Response) (st : State) :
  ok response = false ->
  exists e : exn,
    fetchApi response = Throw e
    /\ sendMessage P callbacks response st = (Throw e, st).
Proof.
  intros Hok. unfold fetchApi, sendMessage. rewrite Hok.
  change (negb false) with true. cbv iota.
  unfold bind, lift, throw_new_Error, bindR.
  destruct (get (json_or_unknown response) "error") as [e|x];
    [destruct (ToString _)|]; eexists; split; reflexivity.
Qed.

Lemma sendMessage_rejects_like_fetchApi_witness :
  let response := mkResponse 402 (Some [wire_bytes "{'error':'Insufficient credits'}"]) in
  ok response = false
  /\ fetchApi response = Throw (Error (str "Insufficient credits"))
  /\ sendMessage demo_platform all_callbacks response initial
     = (Throw (Error (str "Insufficient credits")), initial).
Proof.
  cbv zeta. split; [reflexivity|].
  destruct (sendMessage_rejects_like_fetchApi demo_platform all_callbacks
              (mkResponse 402 (Some [wire_bytes "{'error':'Insufficient credits'}"]))
              initial eq_refl) as (e & Hf & Hs).
  assert (He : e = Error (str "Insufficient credits")).
  { vm_compute in Hf. injection Hf as <-. reflexivity. }
  subst e. split; [vm_compute; reflexivity | exact Hs].
Defined.

(** X7.  [deleteAgent] and [deleteChat] succeed exactly when the status
    is successful and the body is valid JSON, although they make no use of
    the body: a successful response with an empty body, such as a 204,
    makes them fail with the SyntaxError of [response.json()]. *)
Theorem delete_needs_json_body (response : Response) :
  (deleteAgent response = Ok tt
   <-> ok response = true /\ exists v, JSON_parse (body_text response) = Some v)
  /\ (deleteChat response = Ok tt
      <-> ok response = true /\ exists v, JSON_parse (body_text response) = Some v)
  /\ (ok response = true ->
      skip_ws (body_text response) = [] ->
      deleteAgent response = Throw SyntaxError
      /\ deleteChat response = Throw SyntaxError).
Proof.
  assert (H : bindR (fetchApi response) (fun _ => Ok tt) = Ok tt
              <-> ok response = true
                  /\ exists v, JSON_parse (body_text response) = Some v).
  { split.
    - destruct (fetchApi response) as [v|e] eqn:Hf; [|discriminate].
      intros _. apply fetchApi_returns_iff in Hf as [Hok Hp]. eauto.
    - intros [Hok [v Hp]].
      rewrite (proj2 (fetchApi_returns_iff response v) (conj Hok Hp)). reflexivity. }
  split; [exact H|]. split; [exact H|].
  intros Hok Hblank. unfold deleteAgent, deleteChat, fetchApi, Response_json.
  rewrite Hok, (JSON_parse_blank _ Hblank). split; reflexivity.
Qed.

Lemma delete_needs_json_body_witness :
  ok (mkResponse 204 None) = true
  /\ skip_ws (body_text (mkResponse 204 None)) = []
  /\ deleteAgent (mkResponse 204 None) = Throw SyntaxError
  /\ deleteAgent (mkResponse 200 (Some [wire_bytes "{'success':true}"])) = Ok tt.
Proof.
  split; [reflexivity|]. split; [reflexivity|]. split.
  - apply (proj2 (proj2 (delete_needs_json_body (mkResponse 204 None))));
      reflexivity.
  - apply (proj1 (delete_needs_json_body
                    (mkResponse 200 (Some [wire_bytes "{'success':true}"])))).
    split; [reflexivity|]. eexists. vm_compute. reflexivity.
Defined.

(** ** Authentication *)

Section Storage.
Import UseAuth.

Lemma getItem_removeItem_same (s : Storage) (key : jstring) :
  getItem (removeItem s key) key = None.
Proof.
  induction s as [|[k v] s IH]; simpl; [reflexivity|].
  destruct (streq k key) eqn:E; simpl; [exact IH|]. rewrite E. exact IH.
Qed.

Lemma getItem_removeItem_other (s : Storage) (key other : jstring) :
  streq other key = false ->
  getItem (removeItem s other) key = getItem s key.
Proof.
  intros Hne. induction s as [|[k v] s IH]; simpl; [reflexivity|].
  destruct (streq k other) eqn:E; simpl.
  - apply streq_eq in E. subst k. rewrite Hne. exact IH.
  - destruct (streq k key); [reflexivity | exact IH].
Qed.

Lemma getItem_clearAuth (w : World) (key : jstring) :
  getItem (storage (clearAuth w)) key
  = if streq AUTH_TOKEN_KEY key || streq USER_ID_KEY key || streq ORG_ID_KEY key
    then None else getItem (storage w) key.
Proof.
  unfold clearAuth. cbn [storage].
  destruct (streq ORG_ID_KEY key) eqn:Eo.
  { apply streq_eq in Eo. subst key. rewrite !orb_true_r.
    apply getItem_removeItem_same. }
  rewrite (getItem_removeItem_other _ _ _ Eo).
  destruct (streq USER_ID_KEY key) eqn:Eu.
  { apply streq_eq in Eu. subst key. rewrite orb_true_r.
    apply getItem_removeItem_same. }
  rewrite (getItem_removeItem_other _ _ _ Eu).
  destruct (streq AUTH_TOKEN_KEY key) eqn:Et.
  { apply streq_eq in Et. subst key. apply getItem_removeItem_same. }
  rewrite (getItem_removeItem_other _ _ _ Et). reflexivity.
Qed.

End Storage.

(** X8.  After [clearAuth] the user is logged out everywhere: the hook
    reports no token and is not authenticated, [getAuthToken] returns
    [null], and the headers of the next request are the content type alone,
    without [Authorization]; the other keys of the storage keep their
    values. *)
Theorem clearAuth_logs_out (w : UseAuth.World) (window : bool) :
  let w' := UseAuth.clearAuth w in
  let env := UseAuth.mkBrowser window (UseAuth.storage w') in
  UseAuth.authenticated (UseAuth.auth w') = false
  /\ UseAuth.getAuthToken env = None
  /\ UseAuth.getAuthHeaders env = [(str "Content-Type", str "application/json")]
  /\ forall key,
       streq UseAuth.AUTH_TOKEN_KEY key = false ->
       streq UseAuth.USER_ID_KEY key = false ->
       streq UseAuth.ORG_ID_KEY key = false ->
       UseAuth.getItem (UseAuth.storage w') key = UseAuth.getItem (UseAuth.storage w) key.
Proof.
  cbv zeta.
  assert (Htoken : UseAuth.getAuthToken
                     (UseAuth.mkBrowser window (UseAuth.storage (UseAuth.clearAuth w)))
                   = None).
  { unfold UseAuth.getAuthToken. cbn [UseAuth.window_defined UseAuth.localStorage].
    destruct window; [|reflexivity]. change (negb true) with false. cbv iota.
    rewrite getItem_clearAuth. rewrite streq_refl. reflexivity. }
  split; [reflexivity|]. split; [exact Htoken|]. split.
  - unfold UseAuth.getAuthHeaders. rewrite Htoken. reflexivity.
  - intros key H1 H2 H3. rewrite getItem_clearAuth, H1, H2, H3. reflexivity.
Qed.

Lemma clearAuth_logs_out_witness :
  UseAuth.getItem
    (UseAuth.storage
       (UseAuth.clearAuth
          (UseAuth.mkWorld
             (UseAuth.mkAuthState true (Some (str "t1")) (Some (str "u1")) None None)
             [(UseAuth.AUTH_TOKEN_KEY, str "t1"); (str "theme", str "dark");
              (UseAuth.USER_ID_KEY, str "u1")])))
    (str "theme")
  = Some (str "dark").
Proof.
  destruct (clearAuth_logs_out
              (UseAuth.mkWorld
                 (UseAuth.mkAuthState true (Some (str "t1")) (Some (str "u1")) None None)
                 [(UseAuth.AUTH_TOKEN_KEY, str "t1"); (str "theme", str "dark");
                  (UseAuth.USER_ID_KEY, str "u1")])
              true) as (_ & _ & _ & H).
  rewrite (H (str "theme") eq_refl eq_refl eq_refl). vm_compute. reflexivity.
Defined.

(** X9.  [fetchUserInfo] never throws, and only a response with status
    401 logs the user out: after a network error, after any other
    unsuccessful status, and after a successful response whatever its
    body, the stored credentials and the token, user id and organization
    id of the hook are what they were; after a 401 they are cleared. *)
Theorem fetchUserInfo_clears_only_on_401
    (outcome : option Response) (w : UseAuth.World) :
  let w' := UseAuth.fetchUserInfo outcome w in
  ((forall response, outcome = Some response -> status response <> 401%N) ->
   UseAuth.storage w' = UseAuth.storage w
   /\ UseAuth.authToken (UseAuth.auth w') = UseAuth.authToken (UseAuth.auth w)
   /\ UseAuth.userId (UseAuth.auth w') = UseAuth.userId (UseAuth.auth w)
   /\ UseAuth.organizationId (UseAuth.auth w')
      = UseAuth.organizationId (UseAuth.auth w))
  /\ (forall response,
        outcome = Some response -> status response = 401%N ->
        w' = UseAuth.clearAuth w).
Proof.
  cbv zeta. split.
  - intros Hne. destruct outcome as [response|]; [|simpl; auto].
    specialize (Hne response eq_refl). unfold UseAuth.fetchUserInfo.
    destruct (ok response).
    + destruct (UseAuth.read_user response); simpl; auto.
    + apply N.eqb_neq in Hne. rewrite Hne. auto.
  - intros response -> Hs. unfold UseAuth.fetchUserInfo, ok.
    rewrite Hs. reflexivity.
Qed.

Lemma fetchUserInfo_clears_only_on_401_witness :
  let w := UseAuth.mkWorld
             (UseAuth.mkAuthState true (Some (str "tok")) (Some (str "u1")) None None)
             [(UseAuth.AUTH_TOKEN_KEY, str "tok"); (UseAuth.USER_ID_KEY, str "u1")] in
  UseAuth.storage (UseAuth.fetchUserInfo (Some (mkResponse 500 None)) w)
  = UseAuth.storage w
  /\ UseAuth.fetchUserInfo (Some (mkResponse 401 None)) w
     = UseAuth.mkWorld (UseAuth.mkAuthState true None None None None) [].
Proof.
  cbv zeta. split.
  - apply (proj1 (fetchUserInfo_clears_only_on_401 (Some (mkResponse 500 None)) _)).
    intros response H. injection H as <-. discriminate.
  - rewrite (proj2 (fetchUserInfo_clears_only_on_401 (Some (mkResponse 401 None)) _)
               (mkResponse 401 None) eq_refl eq_refl).
    vm_compute. reflexivity.
Defined.

(** X10.  After a storage event for the token key the hook and the
    storage agree: the token, the user id and the organization id of the
    hook are exactly the stored ones, so the token the hook reports is the
    one [getAuthToken] hands to the requests; the hook is authenticated
    exactly when the storage held a non-empty token and a non-empty user
    id, and otherwise the stored credentials are removed.  The request for
    the user is started exactly in the authenticated case, with the stored
    token: a token it is started with is not empty and is the token of the
    hook.  An event for another key changes nothing and starts no
    request. *)
Theorem storage_event_syncs_hook (key : option jstring) (w : UseAuth.World) :
  let w' := fst (UseAuth.handleStorageChange key w) in
  let started := snd (UseAuth.handleStorageChange key w) in
  (key = Some UseAuth.AUTH_TOKEN_KEY ->
   UseAuth.authToken (UseAuth.auth w')
   = UseAuth.getItem (UseAuth.storage w') UseAuth.AUTH_TOKEN_KEY
   /\ UseAuth.userId (UseAuth.auth w')
      = UseAuth.getItem (UseAuth.storage w') UseAuth.USER_ID_KEY
   /\ UseAuth.organizationId (UseAuth.auth w')
      = UseAuth.getItem (UseAuth.storage w') UseAuth.ORG_ID_KEY
   /\ UseAuth.authenticated (UseAuth.auth w')
      = UseAuth.present (UseAuth.getItem (UseAuth.storage w) UseAuth.AUTH_TOKEN_KEY)
        && UseAuth.present (UseAuth.getItem (UseAuth.storage w) UseAuth.USER_ID_KEY)
   /\ UseAuth.getAuthToken (UseAuth.mkBrowser true (UseAuth.storage w'))
      = UseAuth.authToken (UseAuth.auth w')
   /\ started
      = (if UseAuth.authenticated (UseAuth.auth w')
         then UseAuth.getItem (UseAuth.storage w) UseAuth.AUTH_TOKEN_KEY
         else None)
   /\ (forall token, started = Some token ->
         is_empty token = false
         /\ UseAuth.authToken (UseAuth.auth w') = Some token
         /\ UseAuth.getItem (UseAuth.storage w') UseAuth.AUTH_TOKEN_KEY = Some token))
  /\ (key <> Some UseAuth.AUTH_TOKEN_KEY -> UseAuth.handleStorageChange key w = (w, None)).
Proof.
  cbv zeta. split.
  - intros ->. unfold UseAuth.handleStorageChange. rewrite streq_refl.
    destruct (UseAuth.present (UseAuth.getItem (UseAuth.storage w) UseAuth.AUTH_TOKEN_KEY))
      eqn:Ht;
      [destruct (UseAuth.present (UseAuth.getItem (UseAuth.storage w) UseAuth.USER_ID_KEY))
         eqn:Hu|].
    + cbn [andb fst snd UseAuth.auth UseAuth.storage UseAuth.authToken UseAuth.userId
             UseAuth.organizationId].
      unfold UseAuth.authenticated, UseAuth.getAuthToken.
      cbn [UseAuth.authToken UseAuth.window_defined UseAuth.localStorage].
      change (negb true) with false. cbv iota. rewrite Ht.
      repeat split; try reflexivity; try assumption.
      rewrite H in Ht. unfold UseAuth.present in Ht.
      destruct (is_empty token); [discriminate | reflexivity].
    + cbn [andb fst snd]. unfold UseAuth.getAuthToken.
      cbn [UseAuth.window_defined UseAuth.localStorage negb].
      rewrite !getItem_clearAuth, !streq_refl, !orb_true_r. simpl.
      repeat split; try reflexivity; discriminate.
    + cbn [andb fst snd]. unfold UseAuth.getAuthToken.
      cbn [UseAuth.window_defined UseAuth.localStorage negb].
      rewrite !getItem_clearAuth, !streq_refl, !orb_true_r. simpl.
      repeat split; try reflexivity; discriminate.
  - intros Hne. unfold UseAuth.handleStorageChange.
    destruct key as [k|]; [|reflexivity].
    destruct (streq k UseAuth.AUTH_TOKEN_KEY) eqn:E; [|reflexivity].
    apply streq_eq in E. subst k. congruence.
Qed.

Lemma storage_event_syncs_hook_witness :
  let w := UseAuth.mkWorld
             (UseAuth.mkAuthState true (Some (str "old")) (Some (str "u1")) None None)
             [(UseAuth.AUTH_TOKEN_KEY, str "new"); (UseAuth.ORG_ID_KEY, str "o1")] in
  let w2 := UseAuth.mkWorld
              (UseAuth.mkAuthState true (Some (str "old")) (Some (str "u1")) None None)
              [(UseAuth.AUTH_TOKEN_KEY, str "new"); (UseAuth.USER_ID_KEY, str "u2")] in
  UseAuth.handleStorageChange (Some UseAuth.AUTH_TOKEN_KEY) w
  = (UseAuth.mkWorld (UseAuth.mkAuthState true None None None None) [], None)
  /\ snd (UseAuth.handleStorageChange (Some UseAuth.AUTH_TOKEN_KEY) w2)
     = Some (str "new")
  /\ UseAuth.handleStorageChange (Some UseAuth.ORG_ID_KEY) w = (w, None).
Proof.
  cbv zeta. split; [|split].
  - destruct (proj1 (storage_event_syncs_hook (Some UseAuth.AUTH_TOKEN_KEY)
                       (UseAuth.mkWorld
                          (UseAuth.mkAuthState true (Some (str "old")) (Some (str "u1"))
                             None None)
                          [(UseAuth.AUTH_TOKEN_KEY, str "new");
                           (UseAuth.ORG_ID_KEY, str "o1")])) eq_refl)
      as (_ & _ & _ & Hauth & _).
    vm_compute in Hauth. vm_compute. reflexivity.
  - destruct (proj1 (storage_event_syncs_hook (Some UseAuth.AUTH_TOKEN_KEY)
                       (UseAuth.mkWorld
                          (UseAuth.mkAuthState true (Some (str "old")) (Some (str "u1"))
                             None None)
                          [(UseAuth.AUTH_TOKEN_KEY, str "new");
                           (UseAuth.USER_ID_KEY, str "u2")])) eq_refl)
      as (_ & _ & _ & _ & _ & Hstarted & _).
    rewrite Hstarted. vm_compute. reflexivity.
  - apply (proj2 (storage_event_syncs_hook (Some UseAuth.ORG_ID_KEY) _)).
    intros H. vm_compute in H. discriminate.
Defined.

(** ** The query of [listAgents] and [listChats] *)

Lemma hex_upper_clean (n : N) : reserved (Url.hex_upper n) = false.
Proof.
  unfold reserved, Url.hex_upper.
  destruct (N.ltb_spec n 10);
    repeat rewrite orb_false_iff; repeat split; apply N.eqb_neq; lia.
Qed.

Lemma encode_byte_clean (b : N) :
  forallb (fun c => negb (reserved c)) (Url.encode_byte b) = true.
Proof.
  unfold Url.encode_byte. destruct (N.eqb_spec b 32) as [->|Hsp]; [reflexivity|].
  destruct (Url.is_unreserved b) eqn:E.
  - cbn [forallb]. rewrite andb_true_r. apply negb_true_iff.
    unfold reserved. repeat rewrite orb_false_iff.
    repeat split; apply N.eqb_neq; intros ->; vm_compute in E; try discriminate;
      apply Hsp; reflexivity.
  - cbn [forallb]. rewrite !hex_upper_clean. reflexivity.
Qed.

Lemma urlencode_clean (s : jstring) :
  forallb (fun c => negb (reserved c)) (Url.urlencode s) = true.
Proof.
  unfold Url.urlencode.
  induction (flat_map Url.utf8_bytes (Url.scalar_values s)) as [|b l IH];
    [reflexivity|].
  cbn [flat_map]. rewrite forallb_app, encode_byte_clean, IH. reflexivity.
Qed.

Lemma count_app (c : N) (s t : jstring) : count c (s ++ t) = count c s + count c t.
Proof. unfold count. rewrite filter_app, length_app. reflexivity. Qed.

Lemma count_clean (c : N) (s : jstring) :
  reserved c = true ->
  forallb (fun c => negb (reserved c)) s = true ->
  count c s = 0.
Proof.
  intros Hc. unfold count. induction s as [|x s IH]; intros H; [reflexivity|].
  cbn [forallb] in H. apply andb_true_iff in H. destruct H as [Hx Hs].
  cbn [filter]. destruct (N.eqb_spec c x) as [->|_].
  - rewrite Hc in Hx. discriminate.
  - apply IH. exact Hs.
Qed.

Lemma count_urlencode (c : N) (s : jstring) :
  reserved c = true -> count c (Url.urlencode s) = 0.
Proof. intros Hc. apply count_clean; [exact Hc | apply urlencode_clean]. Qed.

(** The serialization of a list of parameters has one [=] per parameter,
    one [&] between two of them, and no other reserved character. *)
Lemma toString_count (l : Url.URLSearchParams) :
  count 61 (Url.toString l) = length l
  /\ count 38 (Url.toString l) = length l - 1
  /\ forall c, reserved c = true -> c <> 61%N -> c <> 38%N ->
               count c (Url.toString l) = 0.
Proof.
  induction l as [|[n v] l IH].
  - repeat split; reflexivity.
  - destruct IH as (IH1 & IH2 & IH3).
    cbn [Url.toString]. destruct l as [|p l].
    + rewrite app_nil_r. repeat split.
      * rewrite !count_app, !count_urlencode by reflexivity. reflexivity.
      * rewrite !count_app, !count_urlencode by reflexivity. reflexivity.
      * intros c Hc H61 H38. rewrite !count_app, !count_urlencode by exact Hc.
        unfold count. cbn [app filter]. destruct (N.eqb_spec c 61); [contradiction|].
        reflexivity.
    + change (38%N :: Url.toString (p :: l)) with ([38%N] ++ Url.toString (p :: l)).
      repeat split.
      * rewrite !count_app, !count_urlencode, IH1 by reflexivity. reflexivity.
      * rewrite !count_app, !count_urlencode, IH2 by reflexivity.
        cbn [length]. change (count 38 [61%N]) with 0. change (count 38 [38%N]) with 1.
        lia.
      * intros c Hc H61 H38.
        rewrite !count_app, !count_urlencode, (IH3 c Hc H61 H38) by exact Hc.
        unfold count. cbn [filter].
        destruct (N.eqb_spec c 61); [contradiction|].
        destruct (N.eqb_spec c 38); [contradiction|]. reflexivity.
Qed.

Lemma toString_empty (l : Url.URLSearchParams) :
  is_empty (Url.toString l) = match l with [] => true | _ :: _ => false end.
Proof.
  destruct l as [|[n v] l]; [reflexivity|].
  destruct (Url.toString ((n, v) :: l)) as [|c q] eqn:E; [|reflexivity].
  pose proof (proj1 (toString_count ((n, v) :: l))) as H.
  rewrite E in H. discriminate.
Qed.

Section QueryFacts.

Variable Num : Type.
Variable Num_truthy : Num -> bool.
Variable Num_toString : Num -> jstring.

(** Every field that is present and truthy is one parameter of the query:
    the three names differ, so that no [set] replaces an earlier one. *)
Lemma chats_params_length (params : option (ListParams Num)) :
  length (chats_params Num Num_truthy Num_toString params)
  = chats_sent Num Num_truthy params.
Proof.
  unfold chats_params, chats_sent, set_number, number_sent.
  destruct params as [[pg lm sr]|]; [|reflexivity].
  cbn [field_of page limit].
  destruct pg as [n|]; [destruct (Num_truthy n)|];
    (destruct lm as [m|]; [destruct (Num_truthy m)|]); reflexivity.
Qed.

Lemma agents_params_length (params : option (ListParams Num)) :
  length (agents_params Num Num_truthy Num_toString params)
  = agents_sent Num Num_truthy params.
Proof.
  unfold agents_params, agents_sent, set_number, set_string, number_sent, string_sent.
  destruct params as [[pg lm sr]|]; [|reflexivity].
  cbn [field_of page limit search].
  destruct pg as [n|]; [destruct (Num_truthy n)|];
    (destruct lm as [m|]; [destruct (Num_truthy m)|]);
    (destruct sr as [[|c t]|]); reflexivity.
Qed.

Lemma listAgents_path_eq (params : option (ListParams Num)) :
  listAgents_path Num Num_truthy Num_toString params
  = match agents_params Num Num_truthy Num_toString params with
    | [] => str "/agents"
    | _ :: _ =>
        str "/agents?" ++ Url.toString (agents_params Num Num_truthy Num_toString params)
    end.
Proof.
  unfold listAgents_path. cbv zeta.
  fold (agents_params Num Num_truthy Num_toString params).
  rewrite toString_empty.
  destruct (agents_params Num Num_truthy Num_toString params); reflexivity.
Qed.

Lemma listChats_path_eq (agentId : jstring) (params : option (ListParams Num)) :
  listChats_path Num Num_truthy Num_toString agentId params
  = match chats_params Num Num_truthy Num_toString params with
    | [] => str "/agents/" ++ agentId ++ str "/chats"
    | _ :: _ => str "/agents/" ++ agentId ++ str "/chats?"
                ++ Url.toString (chats_params Num Num_truthy Num_toString params)
    end.
Proof.
  unfold listChats_path. cbv zeta.
  fold (chats_params Num Num_truthy Num_toString params).
  rewrite toString_empty.
  destruct (chats_params Num Num_truthy Num_toString params); reflexivity.
Qed.

End QueryFacts.

Example listAgents_path_example :
  listAgents_path Z integer_truthy of_Z
    (Some (mkListParams Z (Some 2%Z) (Some 0%Z) (Some (wire "a b&c=d/e"))))
  = str "/agents?page=2&search=a+b%26c%3Dd%2Fe".
Proof. vm_compute. reflexivity. Qed.

Example urlencode_utf8 :
  Url.urlencode [233%N; 55357%N; 56832%N; 56832%N; 126%N]
  = str "%C3%A9%F0%9F%98%80%EF%BF%BD%7E".
Proof. vm_compute. reflexivity. Qed.

(** X11.  [listAgents] and [listChats] request the plain path, without a
    question mark, exactly when no field of [params] is present and
    truthy: a page or limit of zero and an empty search text are left
    out. *)
Theorem plain_path_iff_nothing_sent
    (Num : Type) (Num_truthy : Num -> bool) (Num_toString : Num -> jstring)
    (agentId : jstring) (params : option (ListParams Num)) :
  (listAgents_path Num Num_truthy Num_toString params = str "/agents"
   <-> agents_sent Num Num_truthy params = 0)
  /\ (listChats_path Num Num_truthy Num_toString agentId params
      = str "/agents/" ++ agentId ++ str "/chats"
      <-> chats_sent Num Num_truthy params = 0).
Proof.
  rewrite listAgents_path_eq, listChats_path_eq.
  rewrite <- (agents_params_length Num Num_truthy Num_toString).
  rewrite <- (chats_params_length Num Num_truthy Num_toString).
  split.
  - destruct (agents_params Num Num_truthy Num_toString params) as [|p l].
    + split; reflexivity.
    + split; intros H; [|discriminate]. exfalso.
      apply (f_equal (@length N)) in H. rewrite length_app in H.
      change (length (str "/agents?")) with 8 in H.
      change (length (str "/agents")) with 7 in H. lia.
  - destruct (chats_params Num Num_truthy Num_toString params) as [|p l].
    + split; reflexivity.
    + split; intros H; [|discriminate]. exfalso.
      apply (f_equal (@length N)) in H. rewrite !length_app in H.
      change (length (str "/chats?")) with 7 in H.
      change (length (str "/chats")) with 6 in H. lia.
Qed.

Lemma plain_path_iff_nothing_sent_witness :
  listAgents_path Z integer_truthy of_Z
    (Some (mkListParams Z (Some 0%Z) None (Some []))) = str "/agents"
  /\ listChats_path Z integer_truthy of_Z (str "a1") None = str "/agents/a1/chats".
Proof.
  split.
  - apply (proj2 (proj1 (plain_path_iff_nothing_sent Z integer_truthy of_Z []
                           (Some (mkListParams Z (Some 0%Z) None (Some [])))))).
    reflexivity.
  - apply (proj2 (proj2 (plain_path_iff_nothing_sent Z integer_truthy of_Z
                           (str "a1") None))).
    reflexivity.
Defined.

(** X12.  The query of [listAgents] and [listChats] has exactly one [=]
    for each field sent and one [&] between two of them, and no [#], [?],
    [/] or space, whatever the search text and however the numbers are
    written: the text of a field cannot add, end or separate
    parameters. *)
Theorem query_has_one_parameter_per_field
    (Num : Type) (Num_truthy : Num -> bool) (Num_toString : Num -> jstring)
    (agentId : jstring) (params : option (ListParams Num)) :
  (exists query,
      listAgents_path Num Num_truthy Num_toString params = str "/agents" ++ query
      /\ match agents_sent Num Num_truthy params with
         | 0 => query = []
         | S n =>
             exists q, query = 63%N :: q
               /\ count 61 q = S n /\ count 38 q = n
               /\ count 35 q = 0 /\ count 63 q = 0 /\ count 47 q = 0 /\ count 32 q = 0
         end)
  /\ (exists query,
      listChats_path Num Num_truthy Num_toString agentId params
      = str "/agents/" ++ agentId ++ str "/chats" ++ query
      /\ match chats_sent Num Num_truthy params with
         | 0 => query = []
         | S n =>
             exists q, query = 63%N :: q
               /\ count 61 q = S n /\ count 38 q = n
               /\ count 35 q = 0 /\ count 63 q = 0 /\ count 47 q = 0 /\ count 32 q = 0
         end).
Proof.
  rewrite listAgents_path_eq, listChats_path_eq.
  rewrite <- (agents_params_length Num Num_truthy Num_toString).
  rewrite <- (chats_params_length Num Num_truthy Num_toString).
  split.
  - destruct (agents_params Num Num_truthy Num_toString params) as [|p l] eqn:E.
    + exists []. split; reflexivity.
    + exists (63%N :: Url.toString (p :: l)). split; [reflexivity|].
      destruct (toString_count (p :: l)) as (H1 & H2 & H3).
      cbn [length] in *. exists (Url.toString (p :: l)).
      repeat split; try (apply H3; [reflexivity | discriminate | discriminate]).
      * exact H1.
      * rewrite H2. lia.
  - destruct (chats_params Num Num_truthy Num_toString params) as [|p l] eqn:E.
    + exists []. split; [|reflexivity]. rewrite app_nil_r. reflexivity.
    + exists (63%N :: Url.toString (p :: l)). split.
      * change (str "/chats?") with (str "/chats" ++ [63%N]).
        rewrite <- !app_assoc. reflexivity.
      * destruct (toString_count (p :: l)) as (H1 & H2 & H3).
        cbn [length] in *. exists (Url.toString (p :: l)).
        repeat split; try (apply H3; [reflexivity | discriminate | discriminate]).
        -- exact H1.
        -- rewrite H2. lia.
Qed.

(** ** The message list of the chat page *)

Lemma reconcile_other (optimisticId : jstring) (msg : Message.t) (prev : list Message.t) :
  Forall (fun m => is_string (Message.id m) optimisticId = false) prev ->
  reconcile optimisticId msg prev = prev.
Proof.
  unfold reconcile. induction 1 as [|m l Hm Hl IH]; [reflexivity|].
  cbn [map]. rewrite IH. unfold reconcile_entry. rewrite Hm. reflexivity.
Qed.

Lemma reconcile_length (optimisticId : jstring) (msg : Message.t) (prev : list Message.t) :
  length (reconcile optimisticId msg prev) = length prev.
Proof. apply length_map. Qed.

(** X13.  When no earlier message has the id of the optimistic message,
    adding the optimistic message and then reconciling it with the
    server's confirmation gives the earlier messages followed by the
    server's message, which keeps the local attachments when the server
    sent none. *)
Theorem optimistic_message_confirmed
    (optimisticId : jstring) (content : value) (createdAt : jstring)
    (local : option (list MessageAttachment.t)) (msg : Message.t)
    (prev : list Message.t) :
  Forall (fun m => is_string (Message.id m) optimisticId = false) prev ->
  reconcile optimisticId msg
    (append_message
       (Message.mk (VString optimisticId) content Message.user createdAt local) prev)
  = append_message
      (Message.mk (Message.id msg) (Message.content msg) (Message.role msg)
         (Message.createdAt msg)
         (match Message.attachments msg with
          | Some l => Some l
          | None => local
          end))
      prev.
Proof.
  intros H. unfold reconcile, append_message. rewrite map_app.
  fold (reconcile optimisticId msg prev). rewrite (reconcile_other _ _ _ H).
  cbn [map]. unfold reconcile_entry. cbn [Message.id is_string Message.attachments].
  rewrite streq_refl. reflexivity.
Qed.

Lemma optimistic_message_confirmed_witness :
  reconcile (str "id_1")
    (Message.mk (VString (str "m42")) (VString (str "hi")) Message.user
       (str "2024-01-01T00:00:00.000Z") None)
    (append_message
       (Message.mk (VString (str "id_1")) (VString (str "hi")) Message.user
          (str "2024-01-01T00:00:00.000Z")
          (Some [MessageAttachment.mk (VString (str "a")) (str "u")
                   VUndefined (VString (str "image"))]))
       [Message.mk (VString (str "m41")) (VString (str "yo")) Message.assistant
          (str "2023-12-31T00:00:00.000Z") None])
  = [Message.mk (VString (str "m41")) (VString (str "yo")) Message.assistant
       (str "2023-12-31T00:00:00.000Z") None;
     Message.mk (VString (str "m42")) (VString (str "hi")) Message.user
       (str "2024-01-01T00:00:00.000Z")
       (Some [MessageAttachment.mk (VString (str "a")) (str "u")
                VUndefined (VString (str "image"))])].
Proof.
  apply (optimistic_message_confirmed (str "id_1") (VString (str "hi"))
           (str "2024-01-01T00:00:00.000Z")
           (Some [MessageAttachment.mk (VString (str "a")) (str "u")
                    VUndefined (VString (str "image"))])
           (Message.mk (VString (str "m42")) (VString (str "hi")) Message.user
              (str "2024-01-01T00:00:00.000Z") None)
           [Message.mk (VString (str "m41")) (VString (str "yo")) Message.assistant
              (str "2023-12-31T00:00:00.000Z") None]).
  constructor; [vm_compute; reflexivity | constructor].
Defined.

(** X14.  A confirmation whose id is not the optimistic one takes the
    optimistic id out of the list, so that a second confirmation changes
    nothing: reconciling twice is reconciling with the first message. *)
Theorem second_confirmation_ignored
    (optimisticId : jstring) (first second : Message.t) (prev : list Message.t) :
  is_string (Message.id first) optimisticId = false ->
  reconcile optimisticId second (reconcile optimisticId first prev)
  = reconcile optimisticId first prev.
Proof.
  intros H. apply reconcile_other. unfold reconcile. apply Forall_map.
  apply Forall_forall. intros m _. unfold reconcile_entry.
  destruct (is_string (Message.id m) optimisticId) eqn:E; [exact H | exact E].
Qed.

Lemma second_confirmation_ignored_witness :
  reconcile (str "id_1")
    (Message.mk (VString (str "m43")) (VString (str "again")) Message.user [] None)
    (reconcile (str "id_1")
       (Message.mk (VString (str "m42")) (VString (str "hi")) Message.user [] None)
       [Message.mk (VString (str "id_1")) (VString (str "hi")) Message.user [] None])
  = [Message.mk (VString (str "m42")) (VString (str "hi")) Message.user [] None].
Proof.
  rewrite (second_confirmation_ignored (str "id_1")
             (Message.mk (VString (str "m42")) (VString (str "hi")) Message.user [] None)
             (Message.mk (VString (str "m43")) (VString (str "again")) Message.user
                [] None)
             [Message.mk (VString (str "id_1")) (VString (str "hi")) Message.user
                [] None]).
  - vm_compute. reflexivity.
  - vm_compute. reflexivity.
Defined.

Lemma on_call_length (optimisticId : jstring) (c : Call) (prev : list Message.t) :
  length prev <= length (on_call optimisticId c prev)
  /\ length (on_call optimisticId c prev) <= S (length prev).
Proof.
  destruct c; cbn [on_call]; try lia.
  - rewrite reconcile_length. lia.
  - unfold append_message. rewrite length_app. cbn [length]. lia.
Qed.

Lemma messages_after_length (optimisticId : jstring) (new : list Call) :
  forall prev : list Message.t,
    length prev <= length (messages_after optimisticId new prev)
    /\ length (messages_after optimisticId new prev) <= length prev + length new.
Proof.
  unfold messages_after. induction new as [|c new IH]; intros prev.
  - cbn [fold_left length]. lia.
  - cbn [fold_left length].
    pose proof (on_call_length optimisticId c prev).
    pose proof (IH (on_call optimisticId c prev)). lia.
Qed.

(** X15.  A send never takes a message off the list of the chat page and
    adds at most one message for each complete record of the response:
    the calls [sendMessage] makes, applied in order to the list by the
    handlers of the page, leave a list at least as long as before and at
    most that much longer. *)
Theorem send_grows_message_list
    (P : Platform) (callbacks : StreamCallbacks) (response : Response) (st : State)
    (optimisticId : jstring) (prev : list Message.t) :
  exists new : list Call,
    calls (snd (sendMessage P callbacks response st)) = calls st ++ new
    /\ length prev <= length (messages_after optimisticId new prev)
    /\ length (messages_after optimisticId new prev)
       <= length prev + length (response_records response).
Proof.
  destruct (emits_sendMessage P callbacks response st) as (new & H & L & _).
  exists new. split; [exact H|].
  pose proof (messages_after_length optimisticId new prev) as [H1 H2].
  split; [exact H1|]. unfold response_records.
  destruct (body response) as [chunks|]; [destruct (ok response)|]; lia.
Qed.

(** ** The session of the hook *)

Section Session.
Import UseAuth.

Lemma getItem_setItem_same (s : Storage) (key value : jstring) :
  getItem (setItem s key value) key = Some value.
Proof.
  induction s as [|[k v] s IH]; cbn [setItem getItem].
  - rewrite streq_refl. reflexivity.
  - destruct (streq k key) eqn:E; cbn [getItem]; rewrite E; [reflexivity | exact IH].
Qed.

Lemma getItem_setItem_other (s : Storage) (key other value : jstring) :
  streq other key = false ->
  getItem (setItem s other value) key = getItem s key.
Proof.
  intros Hne. induction s as [|[k v] s IH]; cbn [setItem getItem].
  - rewrite Hne. reflexivity.
  - destruct (streq k other) eqn:E; cbn [getItem].
    + apply streq_eq in E. subst k. rewrite Hne. reflexivity.
    + destruct (streq k key); [reflexivity | exact IH].
Qed.

Lemma getItem_store_session (token uid org : jstring) (s : Storage) :
  getItem (store_session token uid org s) AUTH_TOKEN_KEY = Some token
  /\ getItem (store_session token uid org s) USER_ID_KEY = Some uid
  /\ getItem (store_session token uid org s) ORG_ID_KEY = Some org.
Proof.
  unfold store_session. repeat split.
  - rewrite !getItem_setItem_other by reflexivity. apply getItem_setItem_same.
  - rewrite getItem_setItem_other by reflexivity. apply getItem_setItem_same.
  - apply getItem_setItem_same.
Qed.

End Session.

(** X16.  After the effect run on mount the hook is ready, the storage is
    as it was, and the hook is authenticated exactly when the storage
    holds a non-empty token, whether the first render read the storage or
    ran without a window; with such a token the three values of the hook
    are those of the storage. *)
Theorem mount_sync_matches_storage (window : bool) (s : UseAuth.Storage) :
  let w' := UseAuth.mount_sync
              (UseAuth.mkWorld (UseAuth.initial_state (UseAuth.mkBrowser window s)) s) in
  UseAuth.ready (UseAuth.auth w') = true
  /\ UseAuth.storage w' = s
  /\ UseAuth.authenticated (UseAuth.auth w')
     = UseAuth.present (UseAuth.getItem s UseAuth.AUTH_TOKEN_KEY)
  /\ (UseAuth.present (UseAuth.getItem s UseAuth.AUTH_TOKEN_KEY) = true ->
      UseAuth.authToken (UseAuth.auth w') = UseAuth.getItem s UseAuth.AUTH_TOKEN_KEY
      /\ UseAuth.userId (UseAuth.auth w') = UseAuth.getItem s UseAuth.USER_ID_KEY
      /\ UseAuth.organizationId (UseAuth.auth w')
         = UseAuth.getItem s UseAuth.ORG_ID_KEY).
Proof.
  cbv zeta. unfold UseAuth.mount_sync. cbn [UseAuth.storage UseAuth.auth].
  destruct (UseAuth.present (UseAuth.getItem s UseAuth.AUTH_TOKEN_KEY)) eqn:E.
  - cbn [UseAuth.auth UseAuth.storage UseAuth.ready UseAuth.authToken UseAuth.userId
           UseAuth.organizationId].
    unfold UseAuth.authenticated. cbn [UseAuth.authToken].
    repeat split; try reflexivity. exact E.
  - cbn [UseAuth.auth UseAuth.storage UseAuth.ready]. repeat split; try discriminate.
    unfold UseAuth.authenticated, UseAuth.initial_state, UseAuth.getStoredValue.
    cbn [UseAuth.authToken UseAuth.window_defined UseAuth.localStorage].
    destruct window; [exact E | reflexivity].
Qed.

Lemma mount_sync_matches_storage_witness :
  UseAuth.userId
    (UseAuth.auth
       (UseAuth.mount_sync
          (UseAuth.mkWorld
             (UseAuth.initial_state
                (UseAuth.mkBrowser false
                   [(UseAuth.AUTH_TOKEN_KEY, str "t1"); (UseAuth.USER_ID_KEY, str "u1")]))
             [(UseAuth.AUTH_TOKEN_KEY, str "t1"); (UseAuth.USER_ID_KEY, str "u1")])))
  = Some (str "u1").
Proof.
  destruct (mount_sync_matches_storage false
              [(UseAuth.AUTH_TOKEN_KEY, str "t1"); (UseAuth.USER_ID_KEY, str "u1")])
    as (_ & _ & _ & H).
  destruct (H eq_refl) as (_ & Hu & _).
  transitivity (UseAuth.getItem
                  [(UseAuth.AUTH_TOKEN_KEY, str "t1"); (UseAuth.USER_ID_KEY, str "u1")]
                  UseAuth.USER_ID_KEY); [exact Hu | vm_compute; reflexivity].
Defined.

(** X17.  The handler of the custom event and the handler of a storage
    event for the token key do the same when the storage holds a non-empty
    token and a non-empty user id; when one of them is missing the custom
    event changes nothing and starts no request, while the storage event
    logs the user out. *)
Theorem auth_changed_like_storage_event (w : UseAuth.World) :
  (UseAuth.present (UseAuth.getItem (UseAuth.storage w) UseAuth.AUTH_TOKEN_KEY)
   && UseAuth.present (UseAuth.getItem (UseAuth.storage w) UseAuth.USER_ID_KEY) = true ->
   UseAuth.handleAuthChanged w
   = UseAuth.handleStorageChange (Some UseAuth.AUTH_TOKEN_KEY) w)
  /\ (UseAuth.present (UseAuth.getItem (UseAuth.storage w) UseAuth.AUTH_TOKEN_KEY)
      && UseAuth.present (UseAuth.getItem (UseAuth.storage w) UseAuth.USER_ID_KEY) = false ->
      UseAuth.handleAuthChanged w = (w, None)
      /\ UseAuth.handleStorageChange (Some UseAuth.AUTH_TOKEN_KEY) w
         = (UseAuth.clearAuth w, None)).
Proof.
  unfold UseAuth.handleAuthChanged, UseAuth.handleStorageChange.
  rewrite streq_refl. cbv zeta.
  split; intros H; rewrite H; [reflexivity | split; reflexivity].
Qed.

Lemma auth_changed_like_storage_event_witness :
  UseAuth.handleAuthChanged
    (UseAuth.mkWorld (UseAuth.mkAuthState true None None None None)
       [(UseAuth.AUTH_TOKEN_KEY, str "t1"); (UseAuth.USER_ID_KEY, str "u1")])
  = UseAuth.handleStorageChange (Some UseAuth.AUTH_TOKEN_KEY)
      (UseAuth.mkWorld (UseAuth.mkAuthState true None None None None)
         [(UseAuth.AUTH_TOKEN_KEY, str "t1"); (UseAuth.USER_ID_KEY, str "u1")])
  /\ UseAuth.handleStorageChange (Some UseAuth.AUTH_TOKEN_KEY)
       (UseAuth.mkWorld (UseAuth.mkAuthState true (Some (str "t1")) None None None)
          [(UseAuth.AUTH_TOKEN_KEY, str "t1")])
     = (UseAuth.clearAuth
          (UseAuth.mkWorld (UseAuth.mkAuthState true (Some (str "t1")) None None None)
             [(UseAuth.AUTH_TOKEN_KEY, str "t1")]),
        None).
Proof.
  split.
  - apply (proj1 (auth_changed_like_storage_event
                    (UseAuth.mkWorld (UseAuth.mkAuthState true None None None None)
                       [(UseAuth.AUTH_TOKEN_KEY, str "t1");
                        (UseAuth.USER_ID_KEY, str "u1")]))).
    vm_compute. reflexivity.
  - apply (proj2 (auth_changed_like_storage_event
                    (UseAuth.mkWorld
                       (UseAuth.mkAuthState true (Some (str "t1")) None None None)
                       [(UseAuth.AUTH_TOKEN_KEY, str "t1")]))).
    vm_compute. reflexivity.
Defined.

(** X18.  Logging in: once the callback page has stored a non-empty token
    and a non-empty user id, the handler of its event makes the hook
    authenticated with the three stored values, starts the request for the
    user with that token, and the headers of the following requests carry
    [Authorization: Bearer] followed by the token, whatever the storage
    held before. *)
Theorem stored_session_logs_in
    (token uid org : jstring) (w : UseAuth.World) :
  is_empty token = false ->
  is_empty uid = false ->
  let s' := UseAuth.store_session token uid org (UseAuth.storage w) in
  let r := UseAuth.handleAuthChanged (UseAuth.mkWorld (UseAuth.auth w) s') in
  UseAuth.authenticated (UseAuth.auth (fst r)) = true
  /\ UseAuth.authToken (UseAuth.auth (fst r)) = Some token
  /\ UseAuth.userId (UseAuth.auth (fst r)) = Some uid
  /\ UseAuth.organizationId (UseAuth.auth (fst r)) = Some org
  /\ snd r = Some token
  /\ UseAuth.getAuthHeaders (UseAuth.mkBrowser true (UseAuth.storage (fst r)))
     = [(str "Content-Type", str "application/json");
        (str "Authorization", str "Bearer " ++ token)].
Proof.
  intros Ht Hu. cbv zeta.
  destruct (getItem_store_session token uid org (UseAuth.storage w)) as (H1 & H2 & H3).
  assert (Hr : UseAuth.handleAuthChanged
                 (UseAuth.mkWorld (UseAuth.auth w)
                    (UseAuth.store_session token uid org (UseAuth.storage w)))
               = (UseAuth.mkWorld
                    (UseAuth.mkAuthState (UseAuth.ready (UseAuth.auth w)) (Some token)
                       (Some uid) (Some org) (UseAuth.user (UseAuth.auth w)))
                    (UseAuth.store_session token uid org (UseAuth.storage w)),
                  Some token)).
  { unfold UseAuth.handleAuthChanged. cbn [UseAuth.storage UseAuth.auth].
    rewrite H1, H2, H3. unfold UseAuth.present. rewrite Ht, Hu. reflexivity. }
  rewrite Hr.
  cbn [fst snd UseAuth.auth UseAuth.storage UseAuth.authToken UseAuth.userId
         UseAuth.organizationId].
  unfold UseAuth.authenticated. cbn [UseAuth.authToken].
  unfold UseAuth.getAuthHeaders, UseAuth.getAuthToken.
  cbn [UseAuth.window_defined UseAuth.localStorage]. change (negb true) with false.
  cbv iota zeta. rewrite H1. unfold UseAuth.present. rewrite Ht.
  repeat split; reflexivity.
Qed.

Lemma stored_session_logs_in_witness :
  UseAuth.getAuthHeaders
    (UseAuth.mkBrowser true
       (UseAuth.storage
          (fst (UseAuth.handleAuthChanged
                  (UseAuth.mkWorld (UseAuth.mkAuthState true None None None None)
                     (UseAuth.store_session (str "t1") (str "u1") (str "o1")
                        [(UseAuth.USER_ID_KEY, str "u0")]))))))
  = [(str "Content-Type", str "application/json");
     (str "Authorization", str "Bearer t1")].
Proof.
  destruct (stored_session_logs_in (str "t1") (str "u1") (str "o1")
              (UseAuth.mkWorld (UseAuth.mkAuthState true None None None None)
                 [(UseAuth.USER_ID_KEY, str "u0")]) eq_refl eq_refl)
    as (_ & _ & _ & _ & _ & H).
  exact H.
Defined.
